(** * Distributed-transactions benchmark: participant state machines

    A shallow embedding of the Saga, TCC and 2PC/XA participants of the
    benchmark (Go services over PostgreSQL) together with the HTTP
    handlers that map use-case outcomes to status codes.

    Modelling conventions, shared by every module below.

    - A Go [int] and a PostgreSQL [INTEGER] are values of [Z]; the
      column range of [INTEGER] and the [CHECK] constraints of the schema
      scripts are written out in the [UPDATE]/[INSERT] helpers, which fail
      exactly when the server would refuse the new row.
    - A table with a primary key is a [gmap] from the key to the row; a
      ledger table is a list of rows in insertion order, with its UNIQUE
      index checked by the [INSERT] helper.
    - A Go [error] is [goerror]: [ErrNil] or a message.  [fmt.Errorf]
      with [%w] or [%s] is string concatenation.
    - A use case runs its body on the store it is given.  Reaching
      [tx.Commit()] publishes the body's writes; every other return path
      runs the deferred [tx.Rollback()] and leaves the store as it was.
      The row lock taken by [SELECT ... FOR UPDATE] serialises the use
      cases on one row, so a use case is a function from store to store.
    - Generated ids, timestamps, spans and log lines carry no protocol
      state and are left out.  The store is assumed reachable: begin,
      commit and the queries themselves do not fail for transport
      reasons.
    - Row ids are opaque keys.  The Saga schemas give the id columns the
      type [UUID]: a request whose id is not the text of a UUID is refused
      by the server with an error that quotes the id, and such requests
      are outside the model. *)

From Stdlib Require Import ZArith String List Bool Lia.
From stdpp Require Import gmap strings list.
Import ListNotations.

Local Open Scope string_scope.
Local Open Scope Z_scope.

(** ** Go errors and fallible repository calls *)

Inductive goerror : Type :=
| ErrNil
| ErrMsg (msg : string).

Inductive result (A : Type) : Type :=
| Ok (a : A)
| Fail (msg : string).

Arguments Ok {A} a.
Arguments Fail {A} msg.

(** [fmt.Errorf(prefix + ": %w", err)] applied to a failed call. *)
Definition wrap {A : Type} (prefix : string) (r : result A) : result A :=
  match r with
  | Ok a => Ok a
  | Fail msg => Fail (prefix ++ msg)
  end.

(** Outcome of a use-case body: it either reached [tx.Commit()] with the
    store [s], or returned [e] earlier, leaving the deferred
    [tx.Rollback()] to discard its writes. *)
Inductive txresult (S : Type) : Type :=
| Commit (s : S)
| Return (e : goerror).

Arguments Commit {S} s.
Arguments Return {S} e.

Definition run_tx {S : Type} (d : S) (body : S -> txresult S) : S * goerror :=
  match body d with
  | Commit s => (s, ErrNil)
  | Return e => (d, e)
  end.

(** ** PostgreSQL side *)

Definition int4_min : Z := -2147483648.
Definition int4_max : Z := 2147483647.

Definition in_int4 (z : Z) : bool := (int4_min <=? z) && (z <=? int4_max).

(** Texts of the errors raised by the driver and the server.  The server
    adds relation and constraint names; only the SQLSTATE class matters
    to the callers, which either wrap the text or match substrings of
    their own messages. *)
Definition pgx_ErrNoRows : string := "no rows in result set".
Definition pgx_int4_encode : string := "unable to encode argument: value out of range for int4".
Definition pg_integer_out_of_range : string := "ERROR: integer out of range (SQLSTATE 22003)".
Definition pg_check_violation : string := "ERROR: new row violates check constraint (SQLSTATE 23514)".
Definition pg_unique_violation : string := "ERROR: duplicate key value violates unique constraint (SQLSTATE 23505)".
Definition pg_fk_violation : string := "ERROR: insert violates foreign key constraint (SQLSTATE 23503)".

(** An [int] argument bound to an [INTEGER] parameter. *)
Definition int4_arg (z : Z) : result Z :=
  if in_int4 z then Ok z else Fail pgx_int4_encode.

(** ** HTTP responses *)

Definition StatusOK : Z := 200.
Definition StatusAccepted : Z := 202.
Definition StatusBadRequest : Z := 400.
Definition StatusConflict : Z := 409.
Definition StatusInternalServerError : Z := 500.

(** [c.JSON(code, gin.H{...})]: the body is a Go map from field name to
    value. *)
Record response : Type := JSON {
  code : Z;
  body : gmap string string
}.

Definition H (fields : list (string * string)) : gmap string string :=
  list_to_map fields.

(** [containsAny] of the Saga handlers: a hand-written substring scan. *)
Definition slice (s : string) (i j : nat) : string := String.substring i (j - i) s.

Definition containsAny (s : string) (substrs : list string) : bool :=
  existsb
    (fun substr =>
       (String.length substr <=? String.length s)%nat &&
       existsb
         (fun i => String.eqb (slice s i (i + String.length substr)) substr)
         (seq 0 (String.length s - String.length substr + 1)))
    substrs.

(** * TCC participants *)

(** ** TCC inventory service *)

Module TccInventory.

(** [CREATE TYPE movement_status AS ENUM ('pending', 'completed', 'rejected')] *)
Inductive movement_status : Type := pending | completed | rejected.

Definition movement_status_eqb (a b : movement_status) : bool :=
  match a, b with
  | pending, pending | completed, completed | rejected, rejected => true
  | _, _ => false
  end.

(** The text scanned into a Go [string]. *)
Definition status_text (s : movement_status) : string :=
  match s with
  | pending => "pending"
  | completed => "completed"
  | rejected => "rejected"
  end.

(** A row of [products_inventory], keyed by [product_id]. *)
Record ProductInventory : Type := {
  CurrentStock : Z;
  StockAvailable : Z
}.

(** A row of [inventory_movements]. *)
Record InventoryMovement : Type := {
  mv_product_id : string;
  mv_order_id : string;
  mv_movement_type : string;
  mv_status : movement_status
}.

Record DB : Type := {
  products_inventory : gmap string ProductInventory;
  inventory_movements : list InventoryMovement
}.

Record TCCActionRequest : Type := {
  OrderID : string;
  UserID : string;
  ProductID : string;
  TotalPrice : Z
}.

Definition ErrInsufficientStock : string := "insufficient stock".

(** The column constraints of [products_inventory]:
    [CHECK (current_stock >= 0)], [CHECK (stock_available >= 0)] and
    [check_available_lte_current]. *)
Definition row_checks (r : ProductInventory) : bool :=
  (0 <=? CurrentStock r) && (0 <=? StockAvailable r) &&
  (StockAvailable r <=? CurrentStock r).

(** [UPDATE products_inventory SET ... WHERE product_id = $1]: no row
    matching is not an error; a new row outside the column range or
    against a [CHECK] is. *)
Definition update_product (d : DB) (productID : string)
    (set : ProductInventory -> ProductInventory) : result DB :=
  match products_inventory d !! productID with
  | None => Ok d
  | Some r =>
      let r' := set r in
      if negb (in_int4 (CurrentStock r') && in_int4 (StockAvailable r'))
      then Fail pg_integer_out_of_range
      else if negb (row_checks r') then Fail pg_check_violation
      else Ok {| products_inventory := <[productID := r']> (products_inventory d);
                 inventory_movements := inventory_movements d |}
  end.

(** [INSERT INTO inventory_movements ...] under [UNIQUE (order_id)] and
    the foreign key on [product_id]. *)
Definition insert_movement (d : DB) (m : InventoryMovement) : result DB :=
  if existsb (fun x => String.eqb (mv_order_id x) (mv_order_id m)) (inventory_movements d)
  then Fail pg_unique_violation
  else match products_inventory d !! mv_product_id m with
       | None => Fail pg_fk_violation
       | Some _ =>
           Ok {| products_inventory := products_inventory d;
                 inventory_movements := (inventory_movements d ++ [m])%list |}
       end.

(** [UPDATE inventory_movements SET status = s WHERE order_id = $1 AND
    status = 'pending'] *)
Definition update_pending_status (d : DB) (orderID : string) (s : movement_status) : DB :=
  {| products_inventory := products_inventory d;
     inventory_movements :=
       map (fun m =>
              if String.eqb (mv_order_id m) orderID && movement_status_eqb (mv_status m) pending
              then {| mv_product_id := mv_product_id m; mv_order_id := mv_order_id m;
                      mv_movement_type := mv_movement_type m; mv_status := s |}
              else m)
           (inventory_movements d) |}.

(** *** Repository *)

Definition GetProductForUpdate (d : DB) (productID : string) : result ProductInventory :=
  match products_inventory d !! productID with
  | Some r => Ok r
  | None => Fail ("product not found: " ++ productID)
  end.

Definition TryReserveStock (d : DB) (productID orderID : string) : result DB :=
  match wrap "failed to update stock_available: "
          (update_product d productID
             (fun r => {| CurrentStock := CurrentStock r;
                          StockAvailable := StockAvailable r - 1 |})) with
  | Fail e => Fail e
  | Ok d1 =>
      wrap "failed to create movement: "
        (insert_movement d1
           {| mv_product_id := productID; mv_order_id := orderID;
              mv_movement_type := "decrease"; mv_status := pending |})
  end.

(** [SELECT status ... WHERE order_id = $1 ORDER BY created_at DESC LIMIT 1];
    no row gives the empty string. *)
Definition GetInventoryMovementStatusByOrderID (d : DB) (orderID : string) : string :=
  match find (fun m => String.eqb (mv_order_id m) orderID) (rev (inventory_movements d)) with
  | Some m => status_text (mv_status m)
  | None => ""
  end.

Definition GetInventoryMovementByOrderIDAndStatus (d : DB) (orderID : string)
    (status : movement_status) : bool :=
  existsb (fun m => String.eqb (mv_order_id m) orderID && movement_status_eqb (mv_status m) status)
    (inventory_movements d).

Definition ConfirmReserveStock (d : DB) (productID orderID : string) : result DB :=
  match wrap "failed to update current_stock: "
          (update_product d productID
             (fun r => {| CurrentStock := CurrentStock r - 1;
                          StockAvailable := StockAvailable r |})) with
  | Fail e => Fail e
  | Ok d1 => Ok (update_pending_status d1 orderID completed)
  end.

Definition CancelReserveStock (d : DB) (productID orderID : string) : result DB :=
  match wrap "failed to update stock_available: "
          (update_product d productID
             (fun r => {| CurrentStock := CurrentStock r;
                          StockAvailable := StockAvailable r + 1 |})) with
  | Fail e => Fail e
  | Ok d1 => Ok (update_pending_status d1 orderID rejected)
  end.

(** *** Use cases *)

Definition TryDecreaseStock (d : DB) (req : TCCActionRequest) : DB * goerror :=
  run_tx d (fun tx =>
    match GetProductForUpdate tx (ProductID req) with
    | Fail e => Return (ErrMsg e)
    | Ok product =>
        if StockAvailable product <? 1 then Return (ErrMsg ErrInsufficientStock)
        else if GetInventoryMovementByOrderIDAndStatus tx (OrderID req) pending
        then Return ErrNil
        else match TryReserveStock tx (ProductID req) (OrderID req) with
             | Fail e => Return (ErrMsg e)
             | Ok tx' => Commit tx'
             end
    end).

Definition ConfirmDecreaseStock (d : DB) (req : TCCActionRequest) : DB * goerror :=
  run_tx d (fun tx =>
    match GetProductForUpdate tx (ProductID req) with
    | Fail e => Return (ErrMsg e)
    | Ok _ =>
        if GetInventoryMovementByOrderIDAndStatus tx (OrderID req) completed
        then Return ErrNil
        else match ConfirmReserveStock tx (ProductID req) (OrderID req) with
             | Fail e => Return (ErrMsg e)
             | Ok tx' => Commit tx'
             end
    end).

Definition CancelDecreaseStock (d : DB) (req : TCCActionRequest) : DB * goerror :=
  run_tx d (fun tx =>
    match GetProductForUpdate tx (ProductID req) with
    | Fail e => Return (ErrMsg e)
    | Ok _ =>
        let status := GetInventoryMovementStatusByOrderID tx (OrderID req) in
        if String.eqb status "" then Return ErrNil
        else if String.eqb status "rejected" then Return ErrNil
        else if String.eqb status "completed" then Return (ErrMsg "invalid status to cancel")
        else match CancelReserveStock tx (ProductID req) (OrderID req) with
             | Fail e => Return (ErrMsg e)
             | Ok tx' => Commit tx'
             end
    end).

(** *** Handlers.  [bound] is the outcome of [c.ShouldBindJSON]. *)

Definition handle (useCase : DB -> TCCActionRequest -> DB * goerror) (success : string)
    (d : DB) (bound : option TCCActionRequest) : DB * response :=
  match bound with
  | None => (d, JSON StatusBadRequest (H [("error", "Invalid request body")]))
  | Some req =>
      match useCase d req with
      | (d', ErrMsg e) => (d', JSON StatusInternalServerError (H [("error", e)]))
      | (d', ErrNil) => (d', JSON StatusOK (H [("status", success); ("order_id", OrderID req)]))
      end
  end.

Definition HandleTryDecreaseStock := handle TryDecreaseStock "try_success".
Definition HandleConfirmDecreaseStock := handle ConfirmDecreaseStock "confirm_success".
Definition HandleCancelDecreaseStock := handle CancelDecreaseStock "cancel_success".

End TccInventory.

(** ** TCC payment service *)

Module TccPayment.

(** [CREATE TYPE transaction_status AS ENUM ('pending', 'completed', 'rejected')] *)
Inductive transaction_status : Type := pending | completed | rejected.

Definition transaction_status_eqb (a b : transaction_status) : bool :=
  match a, b with
  | pending, pending | completed, completed | rejected, rejected => true
  | _, _ => false
  end.

Definition status_text (s : transaction_status) : string :=
  match s with
  | pending => "pending"
  | completed => "completed"
  | rejected => "rejected"
  end.

(** A row of [wallets], keyed by [user_id]. *)
Record Wallet : Type := {
  CurrentAmount : Z;
  AvailableAmount : Z
}.

(** A row of [payment_transactions]. *)
Record PaymentTransaction : Type := {
  pt_user_id : string;
  pt_order_id : string;
  pt_amount : Z;
  pt_transaction_type : string;
  pt_status : transaction_status
}.

Record DB : Type := {
  wallets : gmap string Wallet;
  payment_transactions : list PaymentTransaction
}.

Record TCCActionRequest : Type := {
  OrderID : string;
  UserID : string;
  ProductID : string;
  Quantity : Z;
  TotalPrice : Z
}.

Definition ErrInvalidAmount : string := "amount must be greater than 0".
Definition ErrInsufficientBalance : string := "insufficient balance".

(** [CHECK (current_amount >= 0)], [CHECK (available_amount >= 0)] and
    [check_available_lte_current]. *)
Definition row_checks (w : Wallet) : bool :=
  (0 <=? CurrentAmount w) && (0 <=? AvailableAmount w) &&
  (AvailableAmount w <=? CurrentAmount w).

(** [UPDATE wallets SET ... $1 ... WHERE user_id = $2] *)
Definition update_wallet (d : DB) (userID : string) (amount : Z)
    (set : Z -> Wallet -> Wallet) : result DB :=
  match int4_arg amount with
  | Fail e => Fail e
  | Ok a =>
      match wallets d !! userID with
      | None => Ok d
      | Some w =>
          let w' := set a w in
          if negb (in_int4 (CurrentAmount w') && in_int4 (AvailableAmount w'))
          then Fail pg_integer_out_of_range
          else if negb (row_checks w') then Fail pg_check_violation
          else Ok {| wallets := <[userID := w']> (wallets d);
                     payment_transactions := payment_transactions d |}
      end
  end.

(** [INSERT INTO payment_transactions ...] under [UNIQUE (order_id)] and
    the foreign key on [user_id]. *)
Definition insert_transaction (d : DB) (t : PaymentTransaction) : result DB :=
  match int4_arg (pt_amount t) with
  | Fail e => Fail e
  | Ok _ =>
      if existsb (fun x => String.eqb (pt_order_id x) (pt_order_id t)) (payment_transactions d)
      then Fail pg_unique_violation
      else match wallets d !! pt_user_id t with
           | None => Fail pg_fk_violation
           | Some _ =>
               Ok {| wallets := wallets d;
                     payment_transactions := (payment_transactions d ++ [t])%list |}
           end
  end.

(** [UPDATE payment_transactions SET status = s WHERE order_id = $1 AND
    status = 'pending'] *)
Definition update_pending_status (d : DB) (orderID : string) (s : transaction_status) : DB :=
  {| wallets := wallets d;
     payment_transactions :=
       map (fun t =>
              if String.eqb (pt_order_id t) orderID && transaction_status_eqb (pt_status t) pending
              then {| pt_user_id := pt_user_id t; pt_order_id := pt_order_id t;
                      pt_amount := pt_amount t; pt_transaction_type := pt_transaction_type t;
                      pt_status := s |}
              else t)
           (payment_transactions d) |}.

(** *** Repository *)

Definition GetWalletForUpdate (d : DB) (userID : string) : result Wallet :=
  match wallets d !! userID with
  | Some w => Ok w
  | None => Fail ("user not found: " ++ userID)
  end.

Definition TryReserveBalance (d : DB) (userID orderID : string) (amount : Z) : result DB :=
  match wrap "failed to update available_amount: "
          (update_wallet d userID amount
             (fun a w => {| CurrentAmount := CurrentAmount w;
                            AvailableAmount := AvailableAmount w - a |})) with
  | Fail e => Fail e
  | Ok d1 =>
      wrap "failed to create transaction: "
        (insert_transaction d1
           {| pt_user_id := userID; pt_order_id := orderID; pt_amount := amount;
              pt_transaction_type := "debit"; pt_status := pending |})
  end.

Definition ConfirmDebit (d : DB) (userID orderID : string) (amount : Z) : result DB :=
  match wrap "failed to update current_amount: "
          (update_wallet d userID amount
             (fun a w => {| CurrentAmount := CurrentAmount w - a;
                            AvailableAmount := AvailableAmount w |})) with
  | Fail e => Fail e
  | Ok d1 => Ok (update_pending_status d1 orderID completed)
  end.

Definition CancelReserveBalance (d : DB) (userID orderID : string) (amount : Z) : result DB :=
  match wrap "failed to update available_amount: "
          (update_wallet d userID amount
             (fun a w => {| CurrentAmount := CurrentAmount w;
                            AvailableAmount := AvailableAmount w + a |})) with
  | Fail e => Fail e
  | Ok d1 => Ok (update_pending_status d1 orderID rejected)
  end.

Definition GetPaymentTransactionByOrderIDAndStatus (d : DB) (orderID : string)
    (status : transaction_status) : bool :=
  existsb (fun t => String.eqb (pt_order_id t) orderID && transaction_status_eqb (pt_status t) status)
    (payment_transactions d).

(** [SELECT status FROM payment_transactions WHERE order_id = $1]; no row
    gives the empty string. *)
Definition GetPaymentTransactionStatusByOrderID (d : DB) (orderID : string) : string :=
  match find (fun t => String.eqb (pt_order_id t) orderID) (payment_transactions d) with
  | Some t => status_text (pt_status t)
  | None => ""
  end.

(** *** Use cases *)

Definition TryDebitWallet (d : DB) (req : TCCActionRequest) : DB * goerror :=
  if TotalPrice req <=? 0 then (d, ErrMsg ErrInvalidAmount)
  else
  run_tx d (fun tx =>
    match GetWalletForUpdate tx (UserID req) with
    | Fail e => Return (ErrMsg e)
    | Ok wallet =>
        if GetPaymentTransactionByOrderIDAndStatus tx (OrderID req) pending
        then Return ErrNil
        else if AvailableAmount wallet <? TotalPrice req
        then Return (ErrMsg ErrInsufficientBalance)
        else match TryReserveBalance tx (UserID req) (OrderID req) (TotalPrice req) with
             | Fail e => Return (ErrMsg e)
             | Ok tx' => Commit tx'
             end
    end).

Definition ConfirmDebitWallet (d : DB) (req : TCCActionRequest) : DB * goerror :=
  run_tx d (fun tx =>
    match GetWalletForUpdate tx (UserID req) with
    | Fail e => Return (ErrMsg e)
    | Ok _ =>
        if GetPaymentTransactionByOrderIDAndStatus tx (OrderID req) completed
        then Return ErrNil
        else match ConfirmDebit tx (UserID req) (OrderID req) (TotalPrice req) with
             | Fail e => Return (ErrMsg e)
             | Ok tx' => Commit tx'
             end
    end).

Definition CancelDebitWallet (d : DB) (req : TCCActionRequest) : DB * goerror :=
  run_tx d (fun tx =>
    match GetWalletForUpdate tx (UserID req) with
    | Fail e => Return (ErrMsg e)
    | Ok _ =>
        let status := GetPaymentTransactionStatusByOrderID tx (OrderID req) in
        if String.eqb status "" then Return ErrNil
        else if String.eqb status "rejected" then Return ErrNil
        else if String.eqb status "completed"
        then Return (ErrMsg ("cannot cancel completed transaction for order " ++ OrderID req))
        else match CancelReserveBalance tx (UserID req) (OrderID req) (TotalPrice req) with
             | Fail e => Return (ErrMsg e)
             | Ok tx' => Commit tx'
             end
    end).

(** *** Handlers *)

Definition handle (useCase : DB -> TCCActionRequest -> DB * goerror) (success : string)
    (d : DB) (bound : option TCCActionRequest) : DB * response :=
  match bound with
  | None => (d, JSON StatusBadRequest (H [("error", "Invalid request body")]))
  | Some req =>
      match useCase d req with
      | (d', ErrMsg e) => (d', JSON StatusInternalServerError (H [("error", e)]))
      | (d', ErrNil) => (d', JSON StatusOK (H [("status", success); ("order_id", OrderID req)]))
      end
  end.

Definition HandleTryDebitWallet := handle TryDebitWallet "try_success".
Definition HandleConfirmDebitWallet := handle ConfirmDebitWallet "confirm_success".
Definition HandleCancelDebitWallet := handle CancelDebitWallet "cancel_success".

End TccPayment.

(** * Saga participants *)

(** ** Saga inventory service *)

Module SagaInventory.

(** [CREATE TYPE movement_type AS ENUM ('increased', 'decreased')] *)
Inductive movement_type : Type := increased | decreased.

Definition movement_type_eqb (a b : movement_type) : bool :=
  match a, b with
  | increased, increased | decreased, decreased => true
  | _, _ => false
  end.

(** A row of [products_inventory], keyed by [id]. *)
Record ProductInventory : Type := {
  CurrentStock : Z
}.

(** A row of [inventory_movements]. *)
Record InventoryMovement : Type := {
  InventoryID : string;
  mv_order_id : string;
  ChangeQuantity : Z;
  MovementType : movement_type
}.

Record DB : Type := {
  products_inventory : gmap string ProductInventory;
  inventory_movements : list InventoryMovement
}.

Record SagaActionRequest : Type := {
  OrderID : string;
  UserID : string;
  ProductID : string;
  Amount : Z
}.

(** [CHECK (current_stock >= 0)] *)
Definition row_checks (r : ProductInventory) : bool := 0 <=? CurrentStock r.

(** [UPDATE products_inventory SET current_stock = ... WHERE id = $1] *)
Definition update_product (d : DB) (productID : string)
    (set : ProductInventory -> ProductInventory) : result DB :=
  match products_inventory d !! productID with
  | None => Ok d
  | Some r =>
      let r' := set r in
      if negb (in_int4 (CurrentStock r')) then Fail pg_integer_out_of_range
      else if negb (row_checks r') then Fail pg_check_violation
      else Ok {| products_inventory := <[productID := r']> (products_inventory d);
                 inventory_movements := inventory_movements d |}
  end.

(** [INSERT INTO inventory_movements ...] under the unique index on
    [(order_id, movement_type)] and the foreign key on [inventory_id]. *)
Definition insert_movement (d : DB) (m : InventoryMovement) : result DB :=
  if existsb (fun x => String.eqb (mv_order_id x) (mv_order_id m) &&
                       movement_type_eqb (MovementType x) (MovementType m))
       (inventory_movements d)
  then Fail pg_unique_violation
  else match products_inventory d !! InventoryID m with
       | None => Fail pg_fk_violation
       | Some _ =>
           Ok {| products_inventory := products_inventory d;
                 inventory_movements := (inventory_movements d ++ [m])%list |}
       end.

(** *** Repository *)

Module PostgresInventoryRepository.

Definition GetMovementByOrderIDAndType (d : DB) (orderID : string)
    (movementType : movement_type) : bool :=
  existsb (fun m => String.eqb (mv_order_id m) orderID &&
                    movement_type_eqb (MovementType m) movementType)
    (inventory_movements d).

Definition GetProductForUpdate (d : DB) (productID : string) : result ProductInventory :=
  match products_inventory d !! productID with
  | Some r => Ok r
  | None => Fail ("failed to get product with lock: " ++ pgx_ErrNoRows)
  end.

Definition DecreaseStock (d : DB) (productID orderID : string) : result DB :=
  match wrap "failed to decrease stock: "
          (update_product d productID
             (fun r => {| CurrentStock := CurrentStock r - 1 |})) with
  | Fail e => Fail e
  | Ok d1 =>
      wrap "failed to insert movement record: "
        (insert_movement d1
           {| InventoryID := productID; mv_order_id := orderID;
              ChangeQuantity := 1; MovementType := decreased |})
  end.

Definition IncreaseStock (d : DB) (productID orderID : string) : result DB :=
  match wrap "failed to increase stock: "
          (update_product d productID
             (fun r => {| CurrentStock := CurrentStock r + 1 |})) with
  | Fail e => Fail e
  | Ok d1 =>
      wrap "failed to insert movement record: "
        (insert_movement d1
           {| InventoryID := productID; mv_order_id := orderID;
              ChangeQuantity := 1; MovementType := increased |})
  end.

End PostgresInventoryRepository.

(** *** Use cases *)

Module InventoryUseCase.
Import PostgresInventoryRepository.

Definition DecreaseStock (d : DB) (req : SagaActionRequest) : DB * goerror :=
  run_tx d (fun tx =>
    match GetProductForUpdate tx (ProductID req) with
    | Fail e => Return (ErrMsg e)
    | Ok product =>
        if GetMovementByOrderIDAndType tx (OrderID req) decreased then Return ErrNil
        else if CurrentStock product <? 1
        then Return (ErrMsg ("insufficient stock for product " ++ ProductID req))
        else match PostgresInventoryRepository.DecreaseStock tx (ProductID req) (OrderID req) with
             | Fail e => Return (ErrMsg e)
             | Ok tx' => Commit tx'
             end
    end).

Definition CompensateStock (d : DB) (req : SagaActionRequest) : DB * goerror :=
  run_tx d (fun tx =>
    match GetProductForUpdate tx (ProductID req) with
    | Fail e => Return (ErrMsg e)
    | Ok _ =>
        if GetMovementByOrderIDAndType tx (OrderID req) increased then Return ErrNil
        else match IncreaseStock tx (ProductID req) (OrderID req) with
             | Fail e => Return (ErrMsg e)
             | Ok tx' => Commit tx'
             end
    end).

End InventoryUseCase.

(** *** Handlers.  [bound] is the outcome of [c.ShouldBindJSON], with the
    binder's message on failure. *)

Module InventoryHandler.

Definition DecreaseStock (d : DB) (bound : result SagaActionRequest) : DB * response :=
  match bound with
  | Fail e => (d, JSON StatusBadRequest (H [("error", e)]))
  | Ok req =>
      match InventoryUseCase.DecreaseStock d req with
      | (d', ErrMsg e) =>
          if containsAny e ["product not found"; "insufficient stock"]
          then (d', JSON StatusBadRequest (H [("error", e)]))
          else (d', JSON StatusInternalServerError (H [("error", "Failed to decrease stock")]))
      | (d', ErrNil) => (d', JSON StatusOK (H [("result", "success")]))
      end
  end.

Definition CompensateStock (d : DB) (bound : result SagaActionRequest) : DB * response :=
  match bound with
  | Fail e => (d, JSON StatusBadRequest (H [("error", e)]))
  | Ok req =>
      match InventoryUseCase.CompensateStock d req with
      | (d', ErrMsg e) =>
          if containsAny e ["version conflict"; "max retries exceeded"]
          then (d', JSON StatusConflict (H [("error", e)]))
          else (d', JSON StatusInternalServerError (H [("error", "Failed to compensate stock")]))
      | (d', ErrNil) => (d', JSON StatusOK (H [("result", "success")]))
      end
  end.

End InventoryHandler.

End SagaInventory.

(** ** Saga payments service *)

Module SagaPayments.

(** [CREATE TYPE payment_type AS ENUM ('credit', 'debit')] *)
Inductive payment_type : Type := credit | debit.

Definition payment_type_eqb (a b : payment_type) : bool :=
  match a, b with
  | credit, credit | debit, debit => true
  | _, _ => false
  end.

(** A row of [wallets], keyed by its unique [user_id]. *)
Record Wallet : Type := {
  ID : string;
  CurrentAmount : Z
}.

(** A row of [user_payments]. *)
Record UserPayment : Type := {
  WalletID : string;
  up_order_id : string;
  up_amount : Z;
  Type_ : payment_type
}.

Record DB : Type := {
  wallets : gmap string Wallet;
  user_payments : list UserPayment
}.

Record SagaActionRequest : Type := {
  OrderID : string;
  UserID : string;
  ProductID : string;
  Amount : Z
}.

(** [CHECK (current_amount >= 0)] *)
Definition row_checks (w : Wallet) : bool := 0 <=? CurrentAmount w.

(** [UPDATE wallets SET current_amount = ... $1 ... WHERE user_id = $2] *)
Definition update_wallet (d : DB) (userID : string) (amount : Z)
    (set : Z -> Wallet -> Wallet) : result DB :=
  match int4_arg amount with
  | Fail e => Fail e
  | Ok a =>
      match wallets d !! userID with
      | None => Ok d
      | Some w =>
          let w' := set a w in
          if negb (in_int4 (CurrentAmount w')) then Fail pg_integer_out_of_range
          else if negb (row_checks w') then Fail pg_check_violation
          else Ok {| wallets := <[userID := w']> (wallets d);
                     user_payments := user_payments d |}
      end
  end.

(** [INSERT INTO user_payments ...] under [CHECK (amount > 0)] and the
    unique index on [(order_id, type)].  The wallet id comes from the
    wallet row read just before, so the foreign key holds. *)
Definition insert_payment (d : DB) (p : UserPayment) : result DB :=
  match int4_arg (up_amount p) with
  | Fail e => Fail e
  | Ok _ =>
      if negb (0 <? up_amount p) then Fail pg_check_violation
      else if existsb (fun x => String.eqb (up_order_id x) (up_order_id p) &&
                                payment_type_eqb (Type_ x) (Type_ p))
                (user_payments d)
      then Fail pg_unique_violation
      else Ok {| wallets := wallets d;
                 user_payments := (user_payments d ++ [p])%list |}
  end.

(** [SELECT id FROM wallets WHERE user_id = $1] *)
Definition select_wallet_id (d : DB) (userID : string) : result string :=
  match wallets d !! userID with
  | Some w => Ok (ID w)
  | None => Fail pgx_ErrNoRows
  end.

(** *** Repository *)

Module PostgresPaymentRepository.

Definition GetWalletForUpdate (d : DB) (userID : string) : result Wallet :=
  match wallets d !! userID with
  | Some w => Ok w
  | None => Fail ("failed to get wallet with lock: " ++ pgx_ErrNoRows)
  end.

Definition DebitWallet (d : DB) (userID orderID : string) (amount : Z) : result DB :=
  match wrap "failed to debit wallet: "
          (update_wallet d userID amount
             (fun a w => {| ID := ID w; CurrentAmount := CurrentAmount w - a |})) with
  | Fail e => Fail e
  | Ok d1 =>
      match wrap "failed to get wallet id: " (select_wallet_id d1 userID) with
      | Fail e => Fail e
      | Ok walletID =>
          wrap "failed to insert payment record: "
            (insert_payment d1
               {| WalletID := walletID; up_order_id := orderID;
                  up_amount := amount; Type_ := debit |})
      end
  end.

Definition CreditWallet (d : DB) (userID orderID : string) (amount : Z) : result DB :=
  match wrap "failed to credit wallet: "
          (update_wallet d userID amount
             (fun a w => {| ID := ID w; CurrentAmount := CurrentAmount w + a |})) with
  | Fail e => Fail e
  | Ok d1 =>
      match wrap "failed to get wallet id: " (select_wallet_id d1 userID) with
      | Fail e => Fail e
      | Ok walletID =>
          wrap "failed to insert payment record: "
            (insert_payment d1
               {| WalletID := walletID; up_order_id := orderID;
                  up_amount := amount; Type_ := credit |})
      end
  end.

Definition GetPaymentByOrderIDAndType (d : DB) (orderID : string)
    (paymentType : payment_type) : bool :=
  existsb (fun p => String.eqb (up_order_id p) orderID &&
                    payment_type_eqb (Type_ p) paymentType)
    (user_payments d).

End PostgresPaymentRepository.

(** *** Use cases *)

Module PaymentUseCase.
Import PostgresPaymentRepository.

Definition DebitPayment (d : DB) (req : SagaActionRequest) : DB * goerror :=
  run_tx d (fun tx =>
    match GetWalletForUpdate tx (UserID req) with
    | Fail e => Return (ErrMsg e)
    | Ok wallet =>
        if GetPaymentByOrderIDAndType tx (OrderID req) debit then Return ErrNil
        else if CurrentAmount wallet <? Amount req
        then Return (ErrMsg "insufficient funds")
        else match DebitWallet tx (UserID req) (OrderID req) (Amount req) with
             | Fail e => Return (ErrMsg e)
             | Ok tx' => Commit tx'
             end
    end).

Definition CompensatePayment (d : DB) (req : SagaActionRequest) : DB * goerror :=
  run_tx d (fun tx =>
    match GetWalletForUpdate tx (UserID req) with
    | Fail e => Return (ErrMsg e)
    | Ok _ =>
        if GetPaymentByOrderIDAndType tx (OrderID req) credit then Return ErrNil
        else match CreditWallet tx (UserID req) (OrderID req) (Amount req) with
             | Fail e => Return (ErrMsg e)
             | Ok tx' => Commit tx'
             end
    end).

End PaymentUseCase.

(** *** Handlers *)

Module PaymentHandler.

Definition DebitPayment (d : DB) (bound : result SagaActionRequest) : DB * response :=
  match bound with
  | Fail e => (d, JSON StatusBadRequest (H [("error", e)]))
  | Ok req =>
      match PaymentUseCase.DebitPayment d req with
      | (d', ErrMsg e) =>
          if containsAny e ["wallet not found"; "insufficient funds"]
          then (d', JSON StatusBadRequest (H [("error", e)]))
          else (d', JSON StatusInternalServerError (H [("error", "Failed to debit payment")]))
      | (d', ErrNil) => (d', JSON StatusOK (H [("result", "success")]))
      end
  end.

Definition CompensatePayment (d : DB) (bound : result SagaActionRequest) : DB * response :=
  match bound with
  | Fail e => (d, JSON StatusBadRequest (H [("error", e)]))
  | Ok req =>
      match PaymentUseCase.CompensatePayment d req with
      | (d', ErrMsg e) =>
          if containsAny e ["version conflict"; "max retries exceeded"]
          then (d', JSON StatusConflict (H [("error", e)]))
          else (d', JSON StatusInternalServerError (H [("error", "Failed to compensate payment")]))
      | (d', ErrNil) => (d', JSON StatusOK (H [("result", "success")]))
      end
  end.

End PaymentHandler.

End SagaPayments.

(** ** Saga orders service *)

Module SagaOrders.

Definition OrderStatusPending : string := "pending".
Definition OrderStatusCompleted : string := "completed".
Definition OrderStatusRejected : string := "rejected".

(** A row of [orders], keyed by [id].  The [status] column has the enum
    type [order_status]; its value is kept as the label text. *)
Record Order : Type := {
  UserID : string;
  ProductID : string;
  Amount : Z;
  Status : string
}.

Record SagaActionRequest : Type := {
  req_OrderID : string;
  req_UserID : string;
  req_ProductID : string;
  req_Amount : Z
}.

(** [CREATE TYPE order_status AS ENUM ('pending', 'completed', 'rejected')] *)
Definition order_status_label (s : string) : bool :=
  String.eqb s "pending" || String.eqb s "completed" || String.eqb s "rejected".

Definition pg_invalid_enum : string := "ERROR: invalid input value for enum order_status (SQLSTATE 22P02)".

(** [Order.Fail] of the entity: only a pending order becomes rejected. *)
Definition Fail_ (o : Order) : result Order :=
  if negb (String.eqb (Status o) OrderStatusPending)
  then Fail "only pending orders can be marked as failed"
  else Ok {| UserID := UserID o; ProductID := ProductID o; Amount := Amount o;
             Status := OrderStatusRejected |}.

Definition NewOrder (userID productID : string) (amount : Z) : Order :=
  {| UserID := userID; ProductID := productID; Amount := amount; Status := "pending" |}.

Module OrderRepository.

(** [INSERT INTO orders ...] under the primary key and [CHECK (amount > 0)]. *)
Definition CreateOrder (d : gmap string Order) (id : string) (order : Order)
    : result (gmap string Order) :=
  match int4_arg (Amount order) with
  | Fail e => Fail e
  | Ok _ =>
      if negb (order_status_label (Status order)) then Fail pg_invalid_enum
      else if negb (0 <? Amount order) then Fail pg_check_violation
      else match d !! id with
           | Some _ => Fail pg_unique_violation
           | None => Ok (<[id := order]> d)
           end
  end.

(** [UPDATE orders SET status = $1, updated_at = NOW()
     WHERE id = $2 AND status != $1] *)
Definition UpdateOrderStatus (d : gmap string Order) (orderID status : string)
    : result (gmap string Order) :=
  if negb (order_status_label status) then Fail pg_invalid_enum
  else match d !! orderID with
       | Some o =>
           if negb (String.eqb (Status o) status)
           then Ok (<[orderID := {| UserID := UserID o; ProductID := ProductID o;
                                    Amount := Amount o; Status := status |}]> d)
           else Ok d
       | None => Ok d
       end.

End OrderRepository.

Module OrderUseCase.

Definition CompleteOrder (d : gmap string Order) (req : SagaActionRequest)
    : gmap string Order * goerror :=
  match OrderRepository.UpdateOrderStatus d (req_OrderID req) OrderStatusCompleted with
  | Fail e => (d, ErrMsg ("failed to complete order: " ++ e))
  | Ok d' => (d', ErrNil)
  end.

Definition CancelOrder (d : gmap string Order) (req : SagaActionRequest)
    : gmap string Order * goerror :=
  match OrderRepository.UpdateOrderStatus d (req_OrderID req) OrderStatusRejected with
  | Fail e => (d, ErrMsg ("failed to compensate order: " ++ e))
  | Ok d' => (d', ErrNil)
  end.

(** [CreateOrder], the Saga action that inserts the pending order. *)
Definition CreateOrder (d : gmap string Order) (req : SagaActionRequest)
    : gmap string Order * goerror :=
  match OrderRepository.CreateOrder d (req_OrderID req)
          (NewOrder (req_UserID req) (req_ProductID req) (req_Amount req)) with
  | Fail e => (d, ErrMsg ("failed to create order: " ++ e))
  | Ok d' => (d', ErrNil)
  end.

End OrderUseCase.

Record CreateOrderRequest : Type := {
  co_UserID : string;
  co_ProductID : string;
  co_Amount : Z
}.

Module OrderHandler.

(** The three Saga actions of the orders service share one shape: 400 for
    a body that does not bind, 500 with the error text for a failed use
    case, 200 otherwise. *)
Definition action
    (useCase : gmap string Order -> SagaActionRequest -> gmap string Order * goerror)
    (d : gmap string Order) (bound : result SagaActionRequest)
    : gmap string Order * response :=
  match bound with
  | Fail e => (d, JSON StatusBadRequest (H [("error", e)]))
  | Ok req =>
      match useCase d req with
      | (d', ErrMsg e) => (d', JSON StatusInternalServerError (H [("error", e)]))
      | (d', ErrNil) => (d', JSON StatusOK (H [("result", "success")]))
      end
  end.

Definition CreateOrder := action OrderUseCase.CreateOrder.
Definition CompleteOrder := action OrderUseCase.CompleteOrder.
Definition CompensateOrder := action OrderUseCase.CancelOrder.

(** [POST /api/orders].  The use case, which talks to the coordinator, is
    the handler's [OrderUseCaseInterface] field; it yields the order id,
    the global transaction id and an error. *)
Definition CreateOrderSaga
    (useCase : CreateOrderRequest -> string * string * goerror)
    (bound : result CreateOrderRequest) : response :=
  match bound with
  | Fail e => JSON StatusBadRequest (H [("error", e)])
  | Ok req =>
      match useCase req with
      | (_, _, ErrMsg e) => JSON StatusInternalServerError (H [("error", e)])
      | (orderID, gid, ErrNil) =>
          JSON StatusOK (H [("order_id", orderID); ("saga_gid", gid);
                            ("message", "Order SAGA initiated successfully")])
      end
  end.

End OrderHandler.

End SagaOrders.

(** ** TCC orders service *)

Module TccOrders.

(** A row of [orders], keyed by [order_id]. *)
Record Order : Type := {
  UserID : string;
  ProductID : string;
  TotalPrice : Z;
  Status : string
}.

Record TCCActionRequest : Type := {
  req_OrderID : string;
  req_UserID : string;
  req_ProductID : string;
  req_TotalPrice : Z
}.

Record CreateOrderRequest : Type := {
  co_UserID : string;
  co_ProductID : string;
  co_TotalPrice : Z
}.

(** [CHECK (status IN ('pending', 'completed', 'cancelled'))] *)
Definition status_check (s : string) : bool :=
  String.eqb s "pending" || String.eqb s "completed" || String.eqb s "cancelled".

(** [INSERT INTO orders ...] under the primary key,
    [CHECK (total_price > 0)] and the status check. *)
Definition CreateOrder (d : gmap string Order) (orderID : string) (order : Order)
    : result (gmap string Order) :=
  match int4_arg (TotalPrice order) with
  | Fail e => Fail e
  | Ok _ =>
      if negb (0 <? TotalPrice order) || negb (status_check (Status order))
      then Fail pg_check_violation
      else match d !! orderID with
           | Some _ => Fail pg_unique_violation
           | None => Ok (<[orderID := order]> d)
           end
  end.

(** [UPDATE orders SET status = $1, updated_at = NOW() WHERE order_id = $2] *)
Definition UpdateOrderStatus (d : gmap string Order) (orderID status : string)
    : result (gmap string Order) :=
  match d !! orderID with
  | Some o =>
      if negb (status_check status) then Fail pg_check_violation
      else Ok (<[orderID := {| UserID := UserID o; ProductID := ProductID o;
                               TotalPrice := TotalPrice o; Status := status |}]> d)
  | None => Ok d
  end.

Definition TryCreateOrder (d : gmap string Order) (req : TCCActionRequest)
    : gmap string Order * goerror :=
  match CreateOrder d (req_OrderID req)
          {| UserID := req_UserID req; ProductID := req_ProductID req;
             TotalPrice := req_TotalPrice req; Status := "pending" |} with
  | Fail e => (d, ErrMsg e)
  | Ok d' => (d', ErrNil)
  end.

Definition ConfirmCreateOrder (d : gmap string Order) (req : TCCActionRequest)
    : gmap string Order * goerror :=
  match UpdateOrderStatus d (req_OrderID req) "completed" with
  | Fail e => (d, ErrMsg e)
  | Ok d' => (d', ErrNil)
  end.

Definition CancelCreateOrder (d : gmap string Order) (req : TCCActionRequest)
    : gmap string Order * goerror :=
  match UpdateOrderStatus d (req_OrderID req) "cancelled" with
  | Fail e => (d, ErrMsg e)
  | Ok d' => (d', ErrNil)
  end.

(** [POST /api/orders]; [useCase] is [OrderUseCase.CreateOrder], which
    registers the branches with the coordinator. *)
Definition HandleCreateOrder
    (useCase : CreateOrderRequest -> string * string * goerror)
    (bound : result CreateOrderRequest) : response :=
  match bound with
  | Fail e => JSON StatusBadRequest (H [("error", "Invalid request body"); ("details", e)])
  | Ok req =>
      match useCase req with
      | (_, _, ErrMsg e) =>
          JSON StatusInternalServerError
            (H [("error", "Failed to register TCC branches"); ("details", e)])
      | (orderID, traceID, ErrNil) =>
          JSON StatusAccepted
            (H [("order_id", orderID); ("trace_id", traceID); ("status", "processing");
                ("message", "Order is being processed asynchronously via TCC")])
      end
  end.

(** The handlers of the three phases.  [bound] is the outcome of
    [c.ShouldBindJSON]; the error of a failed phase is logged, not sent. *)
Definition handle
    (useCase : gmap string Order -> TCCActionRequest -> gmap string Order * goerror)
    (phase : string) (d : gmap string Order) (bound : option TCCActionRequest)
    : gmap string Order * response :=
  match bound with
  | None => (d, JSON StatusBadRequest (H [("error", "Invalid request body")]))
  | Some req =>
      match useCase d req with
      | (d', ErrMsg _) =>
          (d', JSON StatusInternalServerError (H [("error", phase ++ " phase failed")]))
      | (d', ErrNil) => (d', JSON StatusOK (H [("status", phase ++ " success")]))
      end
  end.

Definition HandleTryCreateOrder := handle TryCreateOrder "TRY".
Definition HandleConfirmCreateOrder := handle ConfirmCreateOrder "CONFIRM".
Definition HandleCancelCreateOrder := handle CancelCreateOrder "CANCEL".

End TccOrders.

(** * 2PC/XA participants *)

(** The DTM client's [XaLocalTransaction] runs the branch callback inside
    an XA transaction on the participant's store: a callback that returns
    [nil] leaves its writes prepared, one that returns an error has them
    rolled back. *)
Definition XaLocalTransaction {S : Type} (d : S) (xaFunc : S -> result S) : S * goerror :=
  match xaFunc d with
  | Ok d' => (d', ErrNil)
  | Fail e => (d, ErrMsg e)
  end.

(** ** XA inventory service *)

Module XaInventory.

Record ProductInventory : Type := {
  CurrentStock : Z
}.

Record InventoryMovement : Type := {
  mv_product_id : string;
  mv_order_id : string;
  mv_movement_type : string
}.

Record DB : Type := {
  products_inventory : gmap string ProductInventory;
  inventory_movements : list InventoryMovement
}.

Record XAActionRequest : Type := {
  OrderID : string;
  UserID : string;
  ProductID : string;
  TotalPrice : Z
}.

(** [CHECK (current_stock >= 0)] *)
Definition row_checks (r : ProductInventory) : bool := 0 <=? CurrentStock r.

(** [UPDATE products_inventory SET current_stock = current_stock - 1
     WHERE product_id = $1 AND current_stock >= 1], with the number of
    rows affected. *)
Definition update_decrease (d : DB) (productID : string) : result (DB * Z) :=
  match products_inventory d !! productID with
  | None => Ok (d, 0)
  | Some r =>
      if 1 <=? CurrentStock r then
        let r' := {| CurrentStock := CurrentStock r - 1 |} in
        if negb (in_int4 (CurrentStock r')) then Fail pg_integer_out_of_range
        else if negb (row_checks r') then Fail pg_check_violation
        else Ok ({| products_inventory := <[productID := r']> (products_inventory d);
                    inventory_movements := inventory_movements d |}, 1)
      else Ok (d, 0)
  end.

(** [INSERT INTO inventory_movements ...] under the foreign key on
    [product_id]; the XA schema has no unique index on [order_id]. *)
Definition insert_movement (d : DB) (m : InventoryMovement) : result DB :=
  match products_inventory d !! mv_product_id m with
  | None => Fail pg_fk_violation
  | Some _ =>
      Ok {| products_inventory := products_inventory d;
            inventory_movements := (inventory_movements d ++ [m])%list |}
  end.

Module PostgresInventoryRepository.

Definition DecreaseStockXA (d : DB) (productID orderID : string) : result DB :=
  match wrap "failed to decrease stock: " (update_decrease d productID) with
  | Fail e => Fail e
  | Ok (d1, rowsAffected) =>
      if rowsAffected =? 0
      then Fail ("insufficient stock or product not found: " ++ productID)
      else wrap "failed to create movement: "
             (insert_movement d1
                {| mv_product_id := productID; mv_order_id := orderID;
                   mv_movement_type := "decrease" |})
  end.

End PostgresInventoryRepository.

Module InventoryUseCase.

Definition DecreaseStockXA (d : DB) (req : XAActionRequest) : result DB :=
  PostgresInventoryRepository.DecreaseStockXA d (ProductID req) (OrderID req).

End InventoryUseCase.

(** The prepare call of [POST /api/inventory/xa]; [bound] is the decoded
    body. *)
Definition HandleXADecreaseStock (d : DB) (bound : result XAActionRequest) : DB * response :=
  match XaLocalTransaction d
          (fun db => match bound with
                     | Fail e => Fail e
                     | Ok req => InventoryUseCase.DecreaseStockXA db req
                     end) with
  | (d', ErrMsg e) => (d', JSON StatusInternalServerError (H [("error", e)]))
  | (d', ErrNil) => (d', JSON StatusOK (H [("status", "xa_success")]))
  end.

End XaInventory.

(** ** XA payment service *)

Module XaPayment.

Record Wallet : Type := {
  CurrentAmount : Z
}.

Record PaymentTransaction : Type := {
  pt_user_id : string;
  pt_order_id : string;
  pt_amount : Z;
  pt_transaction_type : string
}.

Record DB : Type := {
  wallets : gmap string Wallet;
  payment_transactions : list PaymentTransaction
}.

Record XAActionRequest : Type := {
  OrderID : string;
  UserID : string;
  ProductID : string;
  TotalPrice : Z
}.

Definition ErrInvalidAmount : string := "amount must be greater than 0".

(** [CHECK (current_amount >= 0)] *)
Definition row_checks (w : Wallet) : bool := 0 <=? CurrentAmount w.

(** [UPDATE wallets SET current_amount = current_amount - $1
     WHERE user_id = $2 AND current_amount >= $1], with the number of
    rows affected. *)
Definition update_debit (d : DB) (amount : Z) (userID : string) : result (DB * Z) :=
  match int4_arg amount with
  | Fail e => Fail e
  | Ok a =>
      match wallets d !! userID with
      | None => Ok (d, 0)
      | Some w =>
          if a <=? CurrentAmount w then
            let w' := {| CurrentAmount := CurrentAmount w - a |} in
            if negb (in_int4 (CurrentAmount w')) then Fail pg_integer_out_of_range
            else if negb (row_checks w') then Fail pg_check_violation
            else Ok ({| wallets := <[userID := w']> (wallets d);
                        payment_transactions := payment_transactions d |}, 1)
          else Ok (d, 0)
      end
  end.

(** [INSERT INTO payment_transactions ...] under the foreign key on
    [user_id]. *)
Definition insert_transaction (d : DB) (t : PaymentTransaction) : result DB :=
  match int4_arg (pt_amount t) with
  | Fail e => Fail e
  | Ok _ =>
      match wallets d !! pt_user_id t with
      | None => Fail pg_fk_violation
      | Some _ =>
          Ok {| wallets := wallets d;
                payment_transactions := (payment_transactions d ++ [t])%list |}
      end
  end.

Module PostgresPaymentRepository.

Definition DebitBalanceXA (d : DB) (userID orderID : string) (amount : Z) : result DB :=
  match wrap "failed to debit balance: " (update_debit d amount userID) with
  | Fail e => Fail e
  | Ok (d1, rowsAffected) =>
      if rowsAffected =? 0
      then Fail ("insufficient balance or user not found: " ++ userID)
      else wrap "failed to create transaction: "
             (insert_transaction d1
                {| pt_user_id := userID; pt_order_id := orderID; pt_amount := amount;
                   pt_transaction_type := "debit" |})
  end.

End PostgresPaymentRepository.

Module PaymentUseCase.

Definition DebitWalletXA (d : DB) (req : XAActionRequest) : result DB :=
  if TotalPrice req <=? 0 then Fail ErrInvalidAmount
  else PostgresPaymentRepository.DebitBalanceXA d (UserID req) (OrderID req) (TotalPrice req).

End PaymentUseCase.

End XaPayment.

(** ** XA orders service: the caller-facing endpoint *)

Module XaOrders.

Record CreateOrderRequest : Type := {
  UserID : string;
  ProductID : string;
  Amount : Z
}.

(** [POST /api/orders]; [useCase] is [OrderUseCase.CreateOrder], which
    returns once the coordinator has committed or rolled back. *)
Definition HandleCreateOrder
    (useCase : CreateOrderRequest -> string * string * goerror)
    (bound : result CreateOrderRequest) : response :=
  match bound with
  | Fail e => JSON StatusBadRequest (H [("error", "Invalid request body"); ("details", e)])
  | Ok req =>
      match useCase req with
      | (_, _, ErrMsg e) =>
          JSON StatusInternalServerError (H [("error", "Failed to create order"); ("details", e)])
      | (orderID, traceID, ErrNil) =>
          JSON StatusOK
            (H [("order_id", orderID); ("trace_id", traceID); ("status", "completed");
                ("message", "Order created successfully via 2PC/XA")])
      end
  end.

Definition ErrInvalidPrice : string := "amount must be greater than 0".

Record XAActionRequest : Type := {
  req_OrderID : string;
  req_UserID : string;
  req_ProductID : string;
  req_TotalPrice : Z
}.

(** A row of [orders], keyed by [order_id]. *)
Record Order : Type := {
  ord_UserID : string;
  ord_ProductID : string;
  ord_TotalPrice : Z;
  ord_Status : string
}.

(** [CHECK (status IN ('pending', 'completed', 'cancelled'))] *)
Definition status_check (s : string) : bool :=
  String.eqb s "pending" || String.eqb s "completed" || String.eqb s "cancelled".

(** What a call into the DTM client gives: the value it returns, or a
    run-time panic. *)
Inductive call (A : Type) : Type :=
| Returned (a : A)
| Panicked.
Arguments Returned {A} a.
Arguments Panicked {A}.

Module PostgresOrderRepository.

(** [INSERT INTO orders ...] under the primary key,
    [CHECK (total_price > 0)] and the status check. *)
Definition CreateOrderXA (d : gmap string Order) (orderID : string) (order : Order)
    : result (gmap string Order) :=
  wrap "failed to create order: "
    (match int4_arg (ord_TotalPrice order) with
     | Fail e => Fail e
     | Ok _ =>
         if negb (0 <? ord_TotalPrice order) || negb (status_check (ord_Status order))
         then Fail pg_check_violation
         else match d !! orderID with
              | Some _ => Fail pg_unique_violation
              | None => Ok (<[orderID := order]> d)
              end
     end).

End PostgresOrderRepository.

(** [DTMXAOrchestrator]: the calls into the DTM client are the section's
    variables. *)
Module DTMXAOrchestrator.
Section Client.

(** [uuid.New().String()] *)
Variable newUUID : string.
(** [dtmcli.MustGenGid(server)] *)
Variable MustGenGid : call string.
(** The trace id of the incoming context, empty when it has none. *)
Variable traceID : string.
(** [dtmcli.XaGlobalTransaction2(server, gid, custom, xaFunc)]: it runs
    [xaFunc], which posts the branches through [xa.CallBranch], then has
    the coordinator commit or roll back, and returns the error. *)
Variable XaGlobalTransaction2 :
  string -> ((XAActionRequest -> string -> result unit) -> result unit) -> call goerror.
Variables ordersServiceURL inventoryServiceURL paymentServiceURL : string.

(** The function handed to [XaGlobalTransaction2]: the three branches, in
    order, stopping at the first that fails. *)
Definition branches (payload : XAActionRequest)
    (CallBranch : XAActionRequest -> string -> result unit) : result unit :=
  match CallBranch payload (ordersServiceURL ++ "/api/orders/xa") with
  | Fail e => Fail ("orders XA branch failed: " ++ e)
  | Ok _ =>
      match CallBranch payload (inventoryServiceURL ++ "/api/inventory/xa") with
      | Fail e => Fail ("inventory XA branch failed: " ++ e)
      | Ok _ =>
          match CallBranch payload (paymentServiceURL ++ "/api/payment/xa") with
          | Fail e => Fail ("payment XA branch failed: " ++ e)
          | Ok _ => Ok tt
          end
      end
  end.

(** [CreateOrderXA].  Its results are unnamed, so when the deferred
    [recover] catches a panic the function returns their zero values:
    two empty strings and a [nil] error. *)
Definition CreateOrderXA (req : CreateOrderRequest) : string * string * goerror :=
  let orderID := newUUID in
  match MustGenGid with
  | Panicked => ("", "", ErrNil)
  | Returned gid =>
      if String.eqb gid "" then (orderID, "", ErrMsg "internal error: failed to generate GID")
      else
        let payload := {| req_OrderID := orderID; req_UserID := UserID req;
                          req_ProductID := ProductID req; req_TotalPrice := Amount req |} in
        match XaGlobalTransaction2 gid (branches payload) with
        | Panicked => ("", "", ErrNil)
        | Returned (ErrMsg e) => (orderID, traceID, ErrMsg ("XA transaction failed: " ++ e))
        | Returned ErrNil => (orderID, traceID, ErrNil)
        end
  end.

End Client.
End DTMXAOrchestrator.

Module OrderUseCase.

(** [CreateOrder]; [xaOrchestrator] is the use case's [XAOrchestrator]
    field. *)
Definition CreateOrder (xaOrchestrator : CreateOrderRequest -> string * string * goerror)
    (req : CreateOrderRequest) : string * string * goerror :=
  if Amount req <=? 0 then ("", "", ErrMsg ErrInvalidPrice)
  else
    match xaOrchestrator req with
    | (orderID, traceID, ErrMsg e) => (orderID, traceID, ErrMsg e)
    | (orderID, traceID, ErrNil) => (orderID, traceID, ErrNil)
    end.

(** [CreateOrderXA]: the order is inserted as completed. *)
Definition CreateOrderXA (d : gmap string Order) (req : XAActionRequest)
    : result (gmap string Order) :=
  PostgresOrderRepository.CreateOrderXA d (req_OrderID req)
    {| ord_UserID := req_UserID req; ord_ProductID := req_ProductID req;
       ord_TotalPrice := req_TotalPrice req; ord_Status := "completed" |}.

End OrderUseCase.

(** The prepare call of [POST /api/orders/xa]; [bound] is the decoded
    body. *)
Definition HandleXACreateOrder (d : gmap string Order) (bound : result XAActionRequest)
    : gmap string Order * response :=
  match XaLocalTransaction d
          (fun db => match bound with
                     | Fail e => Fail e
                     | Ok req => OrderUseCase.CreateOrderXA db req
                     end) with
  | (d', ErrMsg e) =>
      (d', JSON StatusInternalServerError (H [("error", "XA operation failed"); ("details", e)]))
  | (d', ErrNil) => (d', JSON StatusOK (H [("status", "xa_success")]))
  end.

End XaOrders.

(** * Specification predicates *)

(** The three TCC phases and the use case each service runs for them. *)
Inductive tcc_phase : Type := Try | Confirm | Cancel.

Definition inventory_phase (ph : tcc_phase)
    : TccInventory.DB -> TccInventory.TCCActionRequest -> TccInventory.DB * goerror :=
  match ph with
  | Try => TccInventory.TryDecreaseStock
  | Confirm => TccInventory.ConfirmDecreaseStock
  | Cancel => TccInventory.CancelDecreaseStock
  end.

Definition payment_phase (ph : tcc_phase)
    : TccPayment.DB -> TccPayment.TCCActionRequest -> TccPayment.DB * goerror :=
  match ph with
  | Try => TccPayment.TryDebitWallet
  | Confirm => TccPayment.ConfirmDebitWallet
  | Cancel => TccPayment.CancelDebitWallet
  end.

(** The reservation invariant: [stock_available <= current_stock] on every
    product row, [available_amount <= current_amount] on every wallet. *)
Definition stock_reservation_invariant (d : TccInventory.DB) : Prop :=
  forall productID r,
    TccInventory.products_inventory d !! productID = Some r ->
    TccInventory.StockAvailable r <= TccInventory.CurrentStock r.

Definition balance_reservation_invariant (d : TccPayment.DB) : Prop :=
  forall userID w,
    TccPayment.wallets d !! userID = Some w ->
    TccPayment.AvailableAmount w <= TccPayment.CurrentAmount w.

(** No ledger row at all for an order: no Try ever ran for it. *)
Definition no_movement_for (d : TccInventory.DB) (orderID : string) : Prop :=
  forall m, In m (TccInventory.inventory_movements d) -> TccInventory.mv_order_id m <> orderID.

Definition no_transaction_for (d : TccPayment.DB) (orderID : string) : Prop :=
  forall t, In t (TccPayment.payment_transactions d) -> TccPayment.pt_order_id t <> orderID.

(** The ledger row a Cancel looks at for an order, if any. *)
Definition movement_for (d : TccInventory.DB) (orderID : string)
    : option TccInventory.InventoryMovement :=
  find (fun m => String.eqb (TccInventory.mv_order_id m) orderID)
    (rev (TccInventory.inventory_movements d)).

Definition transaction_for (d : TccPayment.DB) (orderID : string)
    : option TccPayment.PaymentTransaction :=
  find (fun t => String.eqb (TccPayment.pt_order_id t) orderID)
    (TccPayment.payment_transactions d).

(** The store a Cancel of a pending reservation commits: the reserved
    quantity is back in the available column and the order's pending row
    reads [rejected]. *)
Definition stock_released (d : TccInventory.DB) (productID orderID : string)
    (r : TccInventory.ProductInventory) : TccInventory.DB :=
  {| TccInventory.products_inventory :=
       <[productID := {| TccInventory.CurrentStock := TccInventory.CurrentStock r;
                         TccInventory.StockAvailable := TccInventory.StockAvailable r + 1 |}]>
         (TccInventory.products_inventory d);
     TccInventory.inventory_movements :=
       map (fun m =>
              if String.eqb (TccInventory.mv_order_id m) orderID &&
                 TccInventory.movement_status_eqb (TccInventory.mv_status m) TccInventory.pending
              then {| TccInventory.mv_product_id := TccInventory.mv_product_id m;
                      TccInventory.mv_order_id := TccInventory.mv_order_id m;
                      TccInventory.mv_movement_type := TccInventory.mv_movement_type m;
                      TccInventory.mv_status := TccInventory.rejected |}
              else m)
           (TccInventory.inventory_movements d) |}.

Definition balance_released (d : TccPayment.DB) (userID orderID : string)
    (w : TccPayment.Wallet) (reserved : Z) : TccPayment.DB :=
  {| TccPayment.wallets :=
       <[userID := {| TccPayment.CurrentAmount := TccPayment.CurrentAmount w;
                      TccPayment.AvailableAmount := TccPayment.AvailableAmount w + reserved |}]>
         (TccPayment.wallets d);
     TccPayment.payment_transactions :=
       map (fun t =>
              if String.eqb (TccPayment.pt_order_id t) orderID &&
                 TccPayment.transaction_status_eqb (TccPayment.pt_status t) TccPayment.pending
              then {| TccPayment.pt_user_id := TccPayment.pt_user_id t;
                      TccPayment.pt_order_id := TccPayment.pt_order_id t;
                      TccPayment.pt_amount := TccPayment.pt_amount t;
                      TccPayment.pt_transaction_type := TccPayment.pt_transaction_type t;
                      TccPayment.pt_status := TccPayment.rejected |}
              else t)
           (TccPayment.payment_transactions d) |}.

(** Non-negative balances in the XA stores. *)
Definition xa_stock_nonneg (d : XaInventory.DB) : Prop :=
  forall productID r,
    XaInventory.products_inventory d !! productID = Some r -> 0 <= XaInventory.CurrentStock r.

Definition xa_balance_nonneg (d : XaPayment.DB) : Prop :=
  forall userID w,
    XaPayment.wallets d !! userID = Some w -> 0 <= XaPayment.CurrentAmount w.

(** The store an XA stock decrement prepares. *)
Definition xa_stock_decreased (d : XaInventory.DB) (productID orderID : string)
    (r : XaInventory.ProductInventory) : XaInventory.DB :=
  {| XaInventory.products_inventory :=
       <[productID := {| XaInventory.CurrentStock := XaInventory.CurrentStock r - 1 |}]>
         (XaInventory.products_inventory d);
     XaInventory.inventory_movements :=
       (XaInventory.inventory_movements d ++
        [{| XaInventory.mv_product_id := productID; XaInventory.mv_order_id := orderID;
            XaInventory.mv_movement_type := "decrease" |}])%list |}.

(** The store an XA wallet debit prepares. *)
Definition xa_wallet_debited (d : XaPayment.DB) (userID orderID : string) (amount : Z)
    (w : XaPayment.Wallet) : XaPayment.DB :=
  {| XaPayment.wallets :=
       <[userID := {| XaPayment.CurrentAmount := XaPayment.CurrentAmount w - amount |}]>
         (XaPayment.wallets d);
     XaPayment.payment_transactions :=
       (XaPayment.payment_transactions d ++
        [{| XaPayment.pt_user_id := userID; XaPayment.pt_order_id := orderID;
            XaPayment.pt_amount := amount; XaPayment.pt_transaction_type := "debit" |}])%list |}.

(** The Saga ledger rows of one order. *)
Definition movements_of (d : SagaInventory.DB) (orderID : string)
    : list SagaInventory.InventoryMovement :=
  List.filter (fun m => String.eqb (SagaInventory.mv_order_id m) orderID)
    (SagaInventory.inventory_movements d).

Definition payments_of (d : SagaPayments.DB) (orderID : string)
    : list SagaPayments.UserPayment :=
  List.filter (fun p => String.eqb (SagaPayments.up_order_id p) orderID)
    (SagaPayments.user_payments d).

Definition saga_movement (productID orderID : string) (ty : SagaInventory.movement_type)
    : SagaInventory.InventoryMovement :=
  {| SagaInventory.InventoryID := productID; SagaInventory.mv_order_id := orderID;
     SagaInventory.ChangeQuantity := 1; SagaInventory.MovementType := ty |}.

Definition saga_payment (walletID orderID : string) (amount : Z) (ty : SagaPayments.payment_type)
    : SagaPayments.UserPayment :=
  {| SagaPayments.WalletID := walletID; SagaPayments.up_order_id := orderID;
     SagaPayments.up_amount := amount; SagaPayments.Type_ := ty |}.

(** The store a Saga stock compensation commits when it does run. *)
Definition stock_compensated (d : SagaInventory.DB) (productID orderID : string)
    (r : SagaInventory.ProductInventory) : SagaInventory.DB :=
  {| SagaInventory.products_inventory :=
       <[productID := {| SagaInventory.CurrentStock := SagaInventory.CurrentStock r + 1 |}]>
         (SagaInventory.products_inventory d);
     SagaInventory.inventory_movements :=
       (SagaInventory.inventory_movements d ++
        [saga_movement productID orderID SagaInventory.increased])%list |}.

Definition stock_decreased (d : SagaInventory.DB) (productID orderID : string)
    (r : SagaInventory.ProductInventory) : SagaInventory.DB :=
  {| SagaInventory.products_inventory :=
       <[productID := {| SagaInventory.CurrentStock := SagaInventory.CurrentStock r - 1 |}]>
         (SagaInventory.products_inventory d);
     SagaInventory.inventory_movements :=
       (SagaInventory.inventory_movements d ++
        [saga_movement productID orderID SagaInventory.decreased])%list |}.

Definition payment_compensated (d : SagaPayments.DB) (userID orderID : string) (amount : Z)
    (w : SagaPayments.Wallet) : SagaPayments.DB :=
  {| SagaPayments.wallets :=
       <[userID := {| SagaPayments.ID := SagaPayments.ID w;
                      SagaPayments.CurrentAmount := SagaPayments.CurrentAmount w + amount |}]>
         (SagaPayments.wallets d);
     SagaPayments.user_payments :=
       (SagaPayments.user_payments d ++
        [saga_payment (SagaPayments.ID w) orderID amount SagaPayments.credit])%list |}.

Definition payment_debited (d : SagaPayments.DB) (userID orderID : string) (amount : Z)
    (w : SagaPayments.Wallet) : SagaPayments.DB :=
  {| SagaPayments.wallets :=
       <[userID := {| SagaPayments.ID := SagaPayments.ID w;
                      SagaPayments.CurrentAmount := SagaPayments.CurrentAmount w - amount |}]>
         (SagaPayments.wallets d);
     SagaPayments.user_payments :=
       (SagaPayments.user_payments d ++
        [saga_payment (SagaPayments.ID w) orderID amount SagaPayments.debit])%list |}.

(** The effect of a status update on the orders table: the order [id], if
    it exists, now has status [target] and is otherwise the row it was;
    every other order is untouched. *)
Definition status_set_to {O : Type} (with_status : string -> O -> O)
    (target id : string) (d d' : gmap string O) : Prop :=
  d' !! id = with_status target <$> d !! id /\
  forall other, other <> id -> d' !! other = d !! other.

Definition saga_with_status (s : string) (o : SagaOrders.Order) : SagaOrders.Order :=
  {| SagaOrders.UserID := SagaOrders.UserID o; SagaOrders.ProductID := SagaOrders.ProductID o;
     SagaOrders.Amount := SagaOrders.Amount o; SagaOrders.Status := s |}.

Definition tcc_with_status (s : string) (o : TccOrders.Order) : TccOrders.Order :=
  {| TccOrders.UserID := TccOrders.UserID o; TccOrders.ProductID := TccOrders.ProductID o;
     TccOrders.TotalPrice := TccOrders.TotalPrice o; TccOrders.Status := s |}.

(** The status mapping in the words of the interface description:
    400 for a business refusal, 409 for a conflict, 500 otherwise. *)
Inductive failure_class : Type := BusinessRefusal | ConflictingState | OtherFailure.

Definition described_status (c : failure_class) : Z :=
  match c with
  | BusinessRefusal => StatusBadRequest
  | ConflictingState => StatusConflict
  | OtherFailure => StatusInternalServerError
  end.

Definition orders_phase (ph : tcc_phase)
    : gmap string TccOrders.Order -> TccOrders.TCCActionRequest
      -> gmap string TccOrders.Order * goerror :=
  match ph with
  | Try => TccOrders.TryCreateOrder
  | Confirm => TccOrders.ConfirmCreateOrder
  | Cancel => TccOrders.CancelCreateOrder
  end.

Definition orders_endpoint (ph : tcc_phase)
    : gmap string TccOrders.Order -> option TccOrders.TCCActionRequest
      -> gmap string TccOrders.Order * response :=
  match ph with
  | Try => TccOrders.HandleTryCreateOrder
  | Confirm => TccOrders.HandleConfirmCreateOrder
  | Cancel => TccOrders.HandleCancelCreateOrder
  end.

(** The endpoint of each TCC phase. *)
Definition inventory_endpoint (ph : tcc_phase)
    : TccInventory.DB -> option TccInventory.TCCActionRequest -> TccInventory.DB * response :=
  match ph with
  | Try => TccInventory.HandleTryDecreaseStock
  | Confirm => TccInventory.HandleConfirmDecreaseStock
  | Cancel => TccInventory.HandleCancelDecreaseStock
  end.

Definition payment_endpoint (ph : tcc_phase)
    : TccPayment.DB -> option TccPayment.TCCActionRequest -> TccPayment.DB * response :=
  match ph with
  | Try => TccPayment.HandleTryDebitWallet
  | Confirm => TccPayment.HandleConfirmDebitWallet
  | Cancel => TccPayment.HandleCancelDebitWallet
  end.

(** * Further specification predicates *)

(** [sub] occurs in [s]. *)
Definition substring_of (sub s : string) : Prop :=
  exists pre post, s = pre ++ sub ++ post.

(** The TCC ledger row an inventory Try writes, in a given state. *)
Definition stock_row_of (productID orderID : string) (s : TccInventory.movement_status)
    : TccInventory.InventoryMovement :=
  {| TccInventory.mv_product_id := productID; TccInventory.mv_order_id := orderID;
     TccInventory.mv_movement_type := "decrease"; TccInventory.mv_status := s |}.

(** The TCC ledger row a balance Try writes, in a given state. *)
Definition balance_row_of (userID orderID : string) (amount : Z)
    (s : TccPayment.transaction_status) : TccPayment.PaymentTransaction :=
  {| TccPayment.pt_user_id := userID; TccPayment.pt_order_id := orderID;
     TccPayment.pt_amount := amount; TccPayment.pt_transaction_type := "debit";
     TccPayment.pt_status := s |}.

(** The inventory store with the row of one product replaced and one
    ledger row added at the end. *)
Definition stock_store (d : TccInventory.DB) (productID : string) (current available : Z)
    (added : TccInventory.InventoryMovement) : TccInventory.DB :=
  {| TccInventory.products_inventory :=
       <[productID := {| TccInventory.CurrentStock := current;
                         TccInventory.StockAvailable := available |}]>
         (TccInventory.products_inventory d);
     TccInventory.inventory_movements := (TccInventory.inventory_movements d ++ [added])%list |}.

Definition balance_store (d : TccPayment.DB) (userID : string) (current available : Z)
    (added : TccPayment.PaymentTransaction) : TccPayment.DB :=
  {| TccPayment.wallets :=
       <[userID := {| TccPayment.CurrentAmount := current;
                      TccPayment.AvailableAmount := available |}]>
         (TccPayment.wallets d);
     TccPayment.payment_transactions := (TccPayment.payment_transactions d ++ [added])%list |}.

(** The TCC orders table with the order of a request in it, under the
    given status. *)
Definition tcc_order_placed (d : gmap string TccOrders.Order) (req : TccOrders.TCCActionRequest)
    (status : string) : gmap string TccOrders.Order :=
  <[TccOrders.req_OrderID req :=
      {| TccOrders.UserID := TccOrders.req_UserID req;
         TccOrders.ProductID := TccOrders.req_ProductID req;
         TccOrders.TotalPrice := TccOrders.req_TotalPrice req;
         TccOrders.Status := status |}]> d.

(** * Concrete stores and requests used by the examples below *)

Module Fixtures.

(** TCC inventory: one product [P] with the given stock columns. *)
Definition tcc_stock (current available : Z)
    (ledger : list TccInventory.InventoryMovement) : TccInventory.DB :=
  {| TccInventory.products_inventory :=
       {[ "P" := {| TccInventory.CurrentStock := current;
                    TccInventory.StockAvailable := available |} ]};
     TccInventory.inventory_movements := ledger |}.

Definition tcc_stock_req (orderID : string) : TccInventory.TCCActionRequest :=
  {| TccInventory.OrderID := orderID; TccInventory.UserID := "U";
     TccInventory.ProductID := "P"; TccInventory.TotalPrice := 100 |}.

(** TCC payment: one wallet [U] with the given balance columns. *)
Definition tcc_wallet (current available : Z)
    (ledger : list TccPayment.PaymentTransaction) : TccPayment.DB :=
  {| TccPayment.wallets :=
       {[ "U" := {| TccPayment.CurrentAmount := current;
                    TccPayment.AvailableAmount := available |} ]};
     TccPayment.payment_transactions := ledger |}.

Definition tcc_wallet_req (orderID : string) (amount : Z) : TccPayment.TCCActionRequest :=
  {| TccPayment.OrderID := orderID; TccPayment.UserID := "U";
     TccPayment.ProductID := "P"; TccPayment.Quantity := 1;
     TccPayment.TotalPrice := amount |}.

Definition tcc_movement (orderID : string) (s : TccInventory.movement_status)
    : TccInventory.InventoryMovement :=
  {| TccInventory.mv_product_id := "P"; TccInventory.mv_order_id := orderID;
     TccInventory.mv_movement_type := "decrease"; TccInventory.mv_status := s |}.

Definition tcc_transaction (orderID : string) (amount : Z) (s : TccPayment.transaction_status)
    : TccPayment.PaymentTransaction :=
  {| TccPayment.pt_user_id := "U"; TccPayment.pt_order_id := orderID;
     TccPayment.pt_amount := amount; TccPayment.pt_transaction_type := "debit";
     TccPayment.pt_status := s |}.

(** Saga inventory: one product [P]. *)
Definition saga_stock (current : Z)
    (ledger : list SagaInventory.InventoryMovement) : SagaInventory.DB :=
  {| SagaInventory.products_inventory := {[ "P" := {| SagaInventory.CurrentStock := current |} ]};
     SagaInventory.inventory_movements := ledger |}.

Definition saga_stock_req (orderID productID : string) : SagaInventory.SagaActionRequest :=
  {| SagaInventory.OrderID := orderID; SagaInventory.UserID := "U";
     SagaInventory.ProductID := productID; SagaInventory.Amount := 100 |}.

(** Saga payments: one wallet [W] owned by user [U]. *)
Definition saga_wallet (current : Z)
    (ledger : list SagaPayments.UserPayment) : SagaPayments.DB :=
  {| SagaPayments.wallets :=
       {[ "U" := {| SagaPayments.ID := "W"; SagaPayments.CurrentAmount := current |} ]};
     SagaPayments.user_payments := ledger |}.

Definition saga_wallet_req (orderID : string) (amount : Z) : SagaPayments.SagaActionRequest :=
  {| SagaPayments.OrderID := orderID; SagaPayments.UserID := "U";
     SagaPayments.ProductID := "P"; SagaPayments.Amount := amount |}.

(** XA stores: one product [P], one wallet [U]. *)
Definition xa_stock (current : Z) : XaInventory.DB :=
  {| XaInventory.products_inventory := {[ "P" := {| XaInventory.CurrentStock := current |} ]};
     XaInventory.inventory_movements := [] |}.

Definition xa_stock_req (orderID : string) : XaInventory.XAActionRequest :=
  {| XaInventory.OrderID := orderID; XaInventory.UserID := "U";
     XaInventory.ProductID := "P"; XaInventory.TotalPrice := 100 |}.

Definition xa_wallet (current : Z) : XaPayment.DB :=
  {| XaPayment.wallets := {[ "U" := {| XaPayment.CurrentAmount := current |} ]};
     XaPayment.payment_transactions := [] |}.

Definition xa_wallet_req (orderID : string) (amount : Z) : XaPayment.XAActionRequest :=
  {| XaPayment.OrderID := orderID; XaPayment.UserID := "U";
     XaPayment.ProductID := "P"; XaPayment.TotalPrice := amount |}.

(** Orders tables holding the single order [o1]. *)
Definition saga_orders (status : string) : gmap string SagaOrders.Order :=
  {[ "o1" := {| SagaOrders.UserID := "U"; SagaOrders.ProductID := "P";
                SagaOrders.Amount := 100; SagaOrders.Status := status |} ]}.

Definition saga_order_req : SagaOrders.SagaActionRequest :=
  {| SagaOrders.req_OrderID := "o1"; SagaOrders.req_UserID := "U";
     SagaOrders.req_ProductID := "P"; SagaOrders.req_Amount := 100 |}.

Definition tcc_orders (status : string) : gmap string TccOrders.Order :=
  {[ "o1" := {| TccOrders.UserID := "U"; TccOrders.ProductID := "P";
                TccOrders.TotalPrice := 100; TccOrders.Status := status |} ]}.

Definition tcc_order_req : TccOrders.TCCActionRequest :=
  {| TccOrders.req_OrderID := "o1"; TccOrders.req_UserID := "U";
     TccOrders.req_ProductID := "P"; TccOrders.req_TotalPrice := 100 |}.

(** The XA orders table holding the completed order [o1]. *)
Definition xa_orders : gmap string XaOrders.Order :=
  {[ "o1" := {| XaOrders.ord_UserID := "U"; XaOrders.ord_ProductID := "P";
                XaOrders.ord_TotalPrice := 100; XaOrders.ord_Status := "completed" |} ]}.

Definition xa_order_req (orderID : string) (amount : Z) : XaOrders.XAActionRequest :=
  {| XaOrders.req_OrderID := orderID; XaOrders.req_UserID := "U";
     XaOrders.req_ProductID := "P"; XaOrders.req_TotalPrice := amount |}.

Definition xa_create_req (amount : Z) : XaOrders.CreateOrderRequest :=
  {| XaOrders.UserID := "U"; XaOrders.ProductID := "P"; XaOrders.Amount := amount |}.

End Fixtures.

(** * Theorems *)

(** ** Shared facts about the store helpers *)

Lemma in_int4_bounds z : in_int4 z = true <-> int4_min <= z <= int4_max.
Proof. unfold in_int4. rewrite andb_true_iff, !Z.leb_le. tauto. Qed.

Lemma wrap_ok {A : Type} prefix (r : result A) a : wrap prefix r = Ok a -> r = Ok a.
Proof. destruct r; simpl; congruence. Qed.

Lemma in_int4_intro z : int4_min <= z <= int4_max -> in_int4 z = true.
Proof. apply in_int4_bounds. Qed.

Lemma find_map_same_key {A : Type} (key : A -> bool) (f : A -> A) (l : list A) :
  (forall x, key (f x) = key x) ->
  find key (map f l) = option_map f (find key l).
Proof.
  intros Hk. induction l as [|x l IH]; simpl; [reflexivity|].
  rewrite Hk. destruct (key x); [reflexivity|exact IH].
Qed.

Lemma filter_nil_existsb {A : Type} (key extra : A -> bool) (l : list A) :
  List.filter key l = [] -> existsb (fun x => key x && extra x) l = false.
Proof.
  induction l as [|x l IH]; simpl; [reflexivity|].
  destruct (key x); [discriminate|]. intros Hf. simpl. auto.
Qed.

Section TccInventoryFacts.
Import TccInventory.

Lemma tcc_update_product_invariant d productID set d' :
  update_product d productID set = Ok d' ->
  stock_reservation_invariant d -> stock_reservation_invariant d'.
Proof.
  unfold update_product. intros Hu Hinv.
  destruct (products_inventory d !! productID) as [r|] eqn:Hr;
    [|injection Hu as <-; exact Hinv].
  destruct (negb _); [discriminate|].
  destruct (negb (row_checks _)) eqn:Hc; [discriminate|].
  injection Hu as <-. intros p r' Hp. simpl in Hp.
  rewrite lookup_insert in Hp. case_decide.
  - injection Hp as <-. apply negb_false_iff in Hc. unfold row_checks in Hc.
    rewrite !andb_true_iff, !Z.leb_le in Hc. lia.
  - eauto.
Qed.

Lemma tcc_update_product_movements d productID set d' :
  update_product d productID set = Ok d' ->
  inventory_movements d' = inventory_movements d.
Proof.
  unfold update_product. intros Hu.
  repeat case_match; simplify_eq; reflexivity.
Qed.

Lemma tcc_insert_movement_products d m d' :
  insert_movement d m = Ok d' -> products_inventory d' = products_inventory d.
Proof.
  unfold insert_movement. intros Hi. repeat case_match; simplify_eq; reflexivity.
Qed.

Lemma TryReserveStock_invariant d productID orderID d' :
  TryReserveStock d productID orderID = Ok d' ->
  stock_reservation_invariant d -> stock_reservation_invariant d'.
Proof.
  unfold TryReserveStock. intros Ht Hinv.
  destruct (wrap _ (update_product _ _ _)) as [d1|] eqn:Hu; [|discriminate].
  apply wrap_ok in Hu. apply wrap_ok in Ht.
  apply tcc_update_product_invariant in Hu; [|assumption].
  apply tcc_insert_movement_products in Ht.
  intros p r Hp. rewrite Ht in Hp. eauto.
Qed.

Lemma ConfirmReserveStock_invariant d productID orderID d' :
  ConfirmReserveStock d productID orderID = Ok d' ->
  stock_reservation_invariant d -> stock_reservation_invariant d'.
Proof.
  unfold ConfirmReserveStock. intros Ht Hinv.
  destruct (wrap _ (update_product _ _ _)) as [d1|] eqn:Hu; [|discriminate].
  apply wrap_ok in Hu. injection Ht as <-.
  apply tcc_update_product_invariant in Hu; [|assumption].
  exact Hu.
Qed.

Lemma CancelReserveStock_invariant d productID orderID d' :
  CancelReserveStock d productID orderID = Ok d' ->
  stock_reservation_invariant d -> stock_reservation_invariant d'.
Proof.
  unfold CancelReserveStock. intros Ht Hinv.
  destruct (wrap _ (update_product _ _ _)) as [d1|] eqn:Hu; [|discriminate].
  apply wrap_ok in Hu. injection Ht as <-.
  apply tcc_update_product_invariant in Hu; [|assumption].
  exact Hu.
Qed.

Lemma inventory_phase_invariant ph d req :
  stock_reservation_invariant d ->
  stock_reservation_invariant (fst (inventory_phase ph d req)).
Proof.
  intros Hinv.
  destruct ph; simpl;
    unfold TryDecreaseStock, ConfirmDecreaseStock, CancelDecreaseStock, run_tx;
    repeat case_match; simplify_eq; simpl; try assumption;
    eauto using TryReserveStock_invariant, ConfirmReserveStock_invariant,
      CancelReserveStock_invariant.
Qed.

End TccInventoryFacts.

Section TccPaymentFacts.
Import TccPayment.

Lemma tcc_update_wallet_invariant d userID amount set d' :
  update_wallet d userID amount set = Ok d' ->
  balance_reservation_invariant d -> balance_reservation_invariant d'.
Proof.
  unfold update_wallet. intros Hu Hinv.
  destruct (int4_arg amount) as [a|]; [|discriminate].
  destruct (wallets d !! userID) as [w|] eqn:Hw;
    [|injection Hu as <-; exact Hinv].
  destruct (negb _); [discriminate|].
  destruct (negb (row_checks _)) eqn:Hc; [discriminate|].
  injection Hu as <-. intros u w' Hu. simpl in Hu.
  rewrite lookup_insert in Hu. case_decide.
  - injection Hu as <-. apply negb_false_iff in Hc. unfold row_checks in Hc.
    rewrite !andb_true_iff, !Z.leb_le in Hc. lia.
  - eauto.
Qed.

Lemma tcc_insert_transaction_wallets d t d' :
  insert_transaction d t = Ok d' -> wallets d' = wallets d.
Proof.
  unfold insert_transaction. intros Hi. repeat case_match; simplify_eq; reflexivity.
Qed.

Lemma TryReserveBalance_invariant d userID orderID amount d' :
  TryReserveBalance d userID orderID amount = Ok d' ->
  balance_reservation_invariant d -> balance_reservation_invariant d'.
Proof.
  unfold TryReserveBalance. intros Ht Hinv.
  destruct (wrap _ (update_wallet _ _ _ _)) as [d1|] eqn:Hu; [|discriminate].
  apply wrap_ok in Hu. apply wrap_ok in Ht.
  apply tcc_update_wallet_invariant in Hu; [|assumption].
  apply tcc_insert_transaction_wallets in Ht.
  intros u w Hw. rewrite Ht in Hw. eauto.
Qed.

Lemma ConfirmDebit_invariant d userID orderID amount d' :
  ConfirmDebit d userID orderID amount = Ok d' ->
  balance_reservation_invariant d -> balance_reservation_invariant d'.
Proof.
  unfold ConfirmDebit. intros Ht Hinv.
  destruct (wrap _ (update_wallet _ _ _ _)) as [d1|] eqn:Hu; [|discriminate].
  apply wrap_ok in Hu. injection Ht as <-.
  apply tcc_update_wallet_invariant in Hu; [|assumption].
  exact Hu.
Qed.

Lemma CancelReserveBalance_invariant d userID orderID amount d' :
  CancelReserveBalance d userID orderID amount = Ok d' ->
  balance_reservation_invariant d -> balance_reservation_invariant d'.
Proof.
  unfold CancelReserveBalance. intros Ht Hinv.
  destruct (wrap _ (update_wallet _ _ _ _)) as [d1|] eqn:Hu; [|discriminate].
  apply wrap_ok in Hu. injection Ht as <-.
  apply tcc_update_wallet_invariant in Hu; [|assumption].
  exact Hu.
Qed.

Lemma payment_phase_invariant ph d req :
  balance_reservation_invariant d ->
  balance_reservation_invariant (fst (payment_phase ph d req)).
Proof.
  intros Hinv.
  destruct ph; simpl;
    unfold TryDebitWallet, ConfirmDebitWallet, CancelDebitWallet, run_tx;
    repeat case_match; simplify_eq; simpl; try assumption;
    eauto using TryReserveBalance_invariant, ConfirmDebit_invariant,
      CancelReserveBalance_invariant.
Qed.

End TccPaymentFacts.

(** ** C1: the TCC phases keep the reservation invariant *)

(** C1.  Each of Try, Confirm and Cancel, on the inventory store and on
    the payment store, takes a store where available never exceeds current
    to a store with the same property, whatever the request and whatever
    the ledger holds for its order, so also for a Confirm whose order has
    no ledger row. *)
Theorem tcc_phases_preserve_reservation_invariant
    (ph : tcc_phase)
    (di : TccInventory.DB) (ri : TccInventory.TCCActionRequest)
    (dp : TccPayment.DB) (rp : TccPayment.TCCActionRequest) :
  stock_reservation_invariant di ->
  balance_reservation_invariant dp ->
  stock_reservation_invariant (fst (inventory_phase ph di ri)) /\
  balance_reservation_invariant (fst (payment_phase ph dp rp)).
Proof.
  intros Hi Hp. split.
  - apply inventory_phase_invariant; assumption.
  - apply payment_phase_invariant; assumption.
Qed.

Lemma tcc_phases_preserve_reservation_invariant_witness :
  stock_reservation_invariant
    (fst (inventory_phase Confirm (Fixtures.tcc_stock 5 4 []) (Fixtures.tcc_stock_req "o1"))) /\
  balance_reservation_invariant
    (fst (payment_phase Confirm (Fixtures.tcc_wallet 1000 900 [])
            (Fixtures.tcc_wallet_req "o1" 100))).
Proof.
  apply tcc_phases_preserve_reservation_invariant.
  - intros p r Hp. simpl in Hp. apply lookup_singleton_Some in Hp as [_ <-]. simpl. lia.
  - intros u w Hu. simpl in Hu. apply lookup_singleton_Some in Hu as [_ <-]. simpl. lia.
Defined.

(** What a Confirm without a Try does.  With nothing reserved on the row
    the [check_available_lte_current] constraint refuses the decrement and
    the use case fails, leaving the store as it was. *)
Example confirm_without_try_refused_by_check :
  TccInventory.ConfirmDecreaseStock (Fixtures.tcc_stock 5 5 []) (Fixtures.tcc_stock_req "o1")
  = (Fixtures.tcc_stock 5 5 [],
     ErrMsg ("failed to update current_stock: " ++ pg_check_violation)).
Proof. reflexivity. Qed.

(** With another order's reservation outstanding the same Confirm goes
    through: it lowers [current_stock] and touches no ledger row, so the
    invariant holds while the other order's reservation is used up. *)
Example confirm_without_try_uses_other_reservation :
  let other := {| TccInventory.mv_product_id := "P"; TccInventory.mv_order_id := "o2";
                  TccInventory.mv_movement_type := "decrease";
                  TccInventory.mv_status := TccInventory.pending |} in
  TccInventory.ConfirmDecreaseStock (Fixtures.tcc_stock 5 4 [other]) (Fixtures.tcc_stock_req "o1")
  = (Fixtures.tcc_stock 4 4 [other], ErrNil).
Proof. vm_compute. reflexivity. Qed.

Example confirm_debit_without_try_refused_by_check :
  TccPayment.ConfirmDebitWallet (Fixtures.tcc_wallet 1000 1000 [])
    (Fixtures.tcc_wallet_req "o1" 100)
  = (Fixtures.tcc_wallet 1000 1000 [],
     ErrMsg ("failed to update current_amount: " ++ pg_check_violation)).
Proof. reflexivity. Qed.

(** ** C2: order status transitions *)

(** C2 as stated fails: a completed Saga order becomes rejected under
    [CancelOrder], a rejected one becomes completed under [CompleteOrder],
    and the TCC orders table is overwritten the same way. *)
Lemma terminal_order_status_overwritten :
  SagaOrders.OrderUseCase.CancelOrder (Fixtures.saga_orders "completed") Fixtures.saga_order_req
  = (Fixtures.saga_orders "rejected", ErrNil) /\
  SagaOrders.OrderUseCase.CompleteOrder (Fixtures.saga_orders "rejected") Fixtures.saga_order_req
  = (Fixtures.saga_orders "completed", ErrNil) /\
  TccOrders.CancelCreateOrder (Fixtures.tcc_orders "completed") Fixtures.tcc_order_req
  = (Fixtures.tcc_orders "cancelled", ErrNil) /\
  TccOrders.ConfirmCreateOrder (Fixtures.tcc_orders "cancelled") Fixtures.tcc_order_req
  = (Fixtures.tcc_orders "completed", ErrNil).
Proof. vm_compute. repeat split; reflexivity. Qed.

Lemma saga_update_status_effect d orderID status :
  SagaOrders.order_status_label status = true ->
  exists d', SagaOrders.OrderRepository.UpdateOrderStatus d orderID status = Ok d' /\
             status_set_to saga_with_status status orderID d d'.
Proof.
  intros Hl. unfold SagaOrders.OrderRepository.UpdateOrderStatus. rewrite Hl. simpl.
  destruct (d !! orderID) as [o|] eqn:Ho.
  - destruct (String.eqb_spec (SagaOrders.Status o) status) as [Heq|Hne]; simpl.
    + exists d. split; [reflexivity|]. split; [|reflexivity].
      rewrite Ho. simpl. f_equal. destruct o; simpl in *. subst. reflexivity.
    + eexists. split; [reflexivity|]. split.
      * rewrite lookup_insert_eq, Ho. reflexivity.
      * intros other Hother. apply lookup_insert_ne. congruence.
  - exists d. split; [reflexivity|]. split; [|reflexivity]. rewrite Ho. reflexivity.
Qed.

Lemma tcc_update_status_effect d orderID status :
  TccOrders.status_check status = true ->
  exists d', TccOrders.UpdateOrderStatus d orderID status = Ok d' /\
             status_set_to tcc_with_status status orderID d d'.
Proof.
  intros Hl. unfold TccOrders.UpdateOrderStatus. rewrite Hl. simpl.
  destruct (d !! orderID) as [o|] eqn:Ho.
  - eexists. split; [reflexivity|]. split.
    + rewrite lookup_insert_eq, Ho. reflexivity.
    + intros other Hother. apply lookup_insert_ne. congruence.
  - exists d. split; [reflexivity|]. split; [|reflexivity]. rewrite Ho. reflexivity.
Qed.

(** C2, amended.  Each of the four calls succeeds and sets the status of
    the order it names, when that order exists, to the call's own target
    (completed for [CompleteOrder] and [ConfirmCreateOrder], rejected for
    [CancelOrder], cancelled for [CancelCreateOrder]) whatever the status
    was; it touches no other order and never writes pending.  So a
    pending order moves to completed or to rejected|cancelled and a
    repeated call changes nothing. *)
Theorem order_status_set_to_target :
  (forall d req,
     snd (SagaOrders.OrderUseCase.CompleteOrder d req) = ErrNil /\
     status_set_to saga_with_status "completed" (SagaOrders.req_OrderID req) d
       (fst (SagaOrders.OrderUseCase.CompleteOrder d req))) /\
  (forall d req,
     snd (SagaOrders.OrderUseCase.CancelOrder d req) = ErrNil /\
     status_set_to saga_with_status "rejected" (SagaOrders.req_OrderID req) d
       (fst (SagaOrders.OrderUseCase.CancelOrder d req))) /\
  (forall d req,
     snd (TccOrders.ConfirmCreateOrder d req) = ErrNil /\
     status_set_to tcc_with_status "completed" (TccOrders.req_OrderID req) d
       (fst (TccOrders.ConfirmCreateOrder d req))) /\
  (forall d req,
     snd (TccOrders.CancelCreateOrder d req) = ErrNil /\
     status_set_to tcc_with_status "cancelled" (TccOrders.req_OrderID req) d
       (fst (TccOrders.CancelCreateOrder d req))).
Proof.
  repeat split.
  - unfold SagaOrders.OrderUseCase.CompleteOrder.
    destruct (saga_update_status_effect d (SagaOrders.req_OrderID req)
                SagaOrders.OrderStatusCompleted eq_refl) as (d' & -> & _). reflexivity.
  - unfold SagaOrders.OrderUseCase.CompleteOrder.
    destruct (saga_update_status_effect d (SagaOrders.req_OrderID req)
                SagaOrders.OrderStatusCompleted eq_refl) as (d' & -> & [He _]). exact He.
  - unfold SagaOrders.OrderUseCase.CompleteOrder.
    destruct (saga_update_status_effect d (SagaOrders.req_OrderID req)
                SagaOrders.OrderStatusCompleted eq_refl) as (d' & -> & [_ Ho]). exact Ho.
  - unfold SagaOrders.OrderUseCase.CancelOrder.
    destruct (saga_update_status_effect d (SagaOrders.req_OrderID req)
                SagaOrders.OrderStatusRejected eq_refl) as (d' & -> & _). reflexivity.
  - unfold SagaOrders.OrderUseCase.CancelOrder.
    destruct (saga_update_status_effect d (SagaOrders.req_OrderID req)
                SagaOrders.OrderStatusRejected eq_refl) as (d' & -> & [He _]). exact He.
  - unfold SagaOrders.OrderUseCase.CancelOrder.
    destruct (saga_update_status_effect d (SagaOrders.req_OrderID req)
                SagaOrders.OrderStatusRejected eq_refl) as (d' & -> & [_ Ho]). exact Ho.
  - unfold TccOrders.ConfirmCreateOrder.
    destruct (tcc_update_status_effect d (TccOrders.req_OrderID req) "completed" eq_refl)
      as (d' & -> & _). reflexivity.
  - unfold TccOrders.ConfirmCreateOrder.
    destruct (tcc_update_status_effect d (TccOrders.req_OrderID req) "completed" eq_refl)
      as (d' & -> & [He _]). exact He.
  - unfold TccOrders.ConfirmCreateOrder.
    destruct (tcc_update_status_effect d (TccOrders.req_OrderID req) "completed" eq_refl)
      as (d' & -> & [_ Ho]). exact Ho.
  - unfold TccOrders.CancelCreateOrder.
    destruct (tcc_update_status_effect d (TccOrders.req_OrderID req) "cancelled" eq_refl)
      as (d' & -> & _). reflexivity.
  - unfold TccOrders.CancelCreateOrder.
    destruct (tcc_update_status_effect d (TccOrders.req_OrderID req) "cancelled" eq_refl)
      as (d' & -> & [He _]). exact He.
  - unfold TccOrders.CancelCreateOrder.
    destruct (tcc_update_status_effect d (TccOrders.req_OrderID req) "cancelled" eq_refl)
      as (d' & -> & [_ Ho]). exact Ho.
Qed.

(** ** C3: re-posting a phase *)

(** C3 (the code departs from it).  On a product with one unit left, a
    first Try for order [o1] succeeds and records a pending row; the same
    Try posted again is refused with "insufficient stock", because the
    stock test runs before the look-up of the pending row. *)
Theorem tcc_inventory_try_repost_refused :
  let d0 := Fixtures.tcc_stock 1 1 [] in
  let req := Fixtures.tcc_stock_req "o1" in
  let d1 := fst (TccInventory.TryDecreaseStock d0 req) in
  snd (TccInventory.TryDecreaseStock d0 req) = ErrNil /\
  TccInventory.GetInventoryMovementByOrderIDAndStatus d1 "o1" TccInventory.pending = true /\
  TccInventory.TryDecreaseStock d1 req = (d1, ErrMsg "insufficient stock") /\
  code (snd (TccInventory.HandleTryDecreaseStock d1 (Some req))) = StatusInternalServerError.
Proof. vm_compute. repeat split; reflexivity. Qed.

(** The payment Try looks the pending row up first: with such a row in
    the ledger it returns success and leaves the store alone, whatever the
    balance. *)
Lemma tcc_payment_try_repost (d : TccPayment.DB) (req : TccPayment.TCCActionRequest) w :
  0 < TccPayment.TotalPrice req ->
  TccPayment.wallets d !! TccPayment.UserID req = Some w ->
  TccPayment.GetPaymentTransactionByOrderIDAndStatus d (TccPayment.OrderID req)
    TccPayment.pending = true ->
  TccPayment.TryDebitWallet d req = (d, ErrNil).
Proof.
  intros Hpos Hw Hex. unfold TccPayment.TryDebitWallet.
  destruct (Z.leb_spec (TccPayment.TotalPrice req) 0); [lia|].
  unfold run_tx, TccPayment.GetWalletForUpdate. rewrite Hw, Hex. reflexivity.
Qed.

(** *** The paths on which a re-posted phase is idempotent *)

Section SagaRepost.

Lemma saga_decrease_repo_marks d productID orderID d' :
  SagaInventory.PostgresInventoryRepository.DecreaseStock d productID orderID = Ok d' ->
  is_Some (SagaInventory.products_inventory d' !! productID) /\
  SagaInventory.PostgresInventoryRepository.GetMovementByOrderIDAndType d' orderID
    SagaInventory.decreased = true.
Proof.
  unfold SagaInventory.PostgresInventoryRepository.DecreaseStock,
    SagaInventory.update_product, SagaInventory.insert_movement,
    SagaInventory.PostgresInventoryRepository.GetMovementByOrderIDAndType, wrap.
  intros Hd. repeat case_match; simplify_eq; simpl in *.
  all: split; [eauto|].
  all: rewrite existsb_app; simpl; rewrite String.eqb_refl; simpl;
    apply orb_true_r.
Qed.

Lemma saga_increase_repo_marks d productID orderID d' :
  SagaInventory.PostgresInventoryRepository.IncreaseStock d productID orderID = Ok d' ->
  is_Some (SagaInventory.products_inventory d' !! productID) /\
  SagaInventory.PostgresInventoryRepository.GetMovementByOrderIDAndType d' orderID
    SagaInventory.increased = true.
Proof.
  unfold SagaInventory.PostgresInventoryRepository.IncreaseStock,
    SagaInventory.update_product, SagaInventory.insert_movement,
    SagaInventory.PostgresInventoryRepository.GetMovementByOrderIDAndType, wrap.
  intros Hd. repeat case_match; simplify_eq; simpl in *.
  all: split; [eauto|].
  all: rewrite existsb_app; simpl; rewrite String.eqb_refl; simpl;
    apply orb_true_r.
Qed.

Lemma saga_decrease_repost d req d' :
  SagaInventory.InventoryUseCase.DecreaseStock d req = (d', ErrNil) ->
  SagaInventory.InventoryUseCase.DecreaseStock d' req = (d', ErrNil).
Proof.
  unfold SagaInventory.InventoryUseCase.DecreaseStock, run_tx,
    SagaInventory.PostgresInventoryRepository.GetProductForUpdate.
  intros Hd.
  destruct (SagaInventory.products_inventory d !! _) as [r|] eqn:Hr; [|discriminate].
  destruct (SagaInventory.PostgresInventoryRepository.GetMovementByOrderIDAndType d _ _)
    eqn:Hex.
  - injection Hd as <-. rewrite Hr, Hex. reflexivity.
  - destruct (_ <? 1); [discriminate|].
    destruct (SagaInventory.PostgresInventoryRepository.DecreaseStock d _ _) as [tx|e]
      eqn:Hrepo; [|discriminate].
    injection Hd as <-.
    destruct (saga_decrease_repo_marks _ _ _ _ Hrepo) as [[r' ->] ->]. reflexivity.
Qed.

Lemma saga_compensate_stock_repost d req d' :
  SagaInventory.InventoryUseCase.CompensateStock d req = (d', ErrNil) ->
  SagaInventory.InventoryUseCase.CompensateStock d' req = (d', ErrNil).
Proof.
  unfold SagaInventory.InventoryUseCase.CompensateStock, run_tx,
    SagaInventory.PostgresInventoryRepository.GetProductForUpdate.
  intros Hd.
  destruct (SagaInventory.products_inventory d !! _) as [r|] eqn:Hr; [|discriminate].
  destruct (SagaInventory.PostgresInventoryRepository.GetMovementByOrderIDAndType d _ _)
    eqn:Hex.
  - injection Hd as <-. rewrite Hr, Hex. reflexivity.
  - destruct (SagaInventory.PostgresInventoryRepository.IncreaseStock d _ _) as [tx|e]
      eqn:Hrepo; [|discriminate].
    injection Hd as <-.
    destruct (saga_increase_repo_marks _ _ _ _ Hrepo) as [[r' ->] ->]. reflexivity.
Qed.

Lemma saga_debit_repo_marks d userID orderID amount d' :
  SagaPayments.PostgresPaymentRepository.DebitWallet d userID orderID amount = Ok d' ->
  is_Some (SagaPayments.wallets d' !! userID) /\
  SagaPayments.PostgresPaymentRepository.GetPaymentByOrderIDAndType d' orderID
    SagaPayments.debit = true.
Proof.
  unfold SagaPayments.PostgresPaymentRepository.DebitWallet,
    SagaPayments.update_wallet, SagaPayments.select_wallet_id, SagaPayments.insert_payment,
    SagaPayments.PostgresPaymentRepository.GetPaymentByOrderIDAndType, int4_arg, wrap.
  intros Hd. repeat case_match; simplify_eq; simpl in *.
  all: split; [eauto|].
  all: rewrite existsb_app; simpl; rewrite String.eqb_refl; simpl;
    apply orb_true_r.
Qed.

Lemma saga_credit_repo_marks d userID orderID amount d' :
  SagaPayments.PostgresPaymentRepository.CreditWallet d userID orderID amount = Ok d' ->
  is_Some (SagaPayments.wallets d' !! userID) /\
  SagaPayments.PostgresPaymentRepository.GetPaymentByOrderIDAndType d' orderID
    SagaPayments.credit = true.
Proof.
  unfold SagaPayments.PostgresPaymentRepository.CreditWallet,
    SagaPayments.update_wallet, SagaPayments.select_wallet_id, SagaPayments.insert_payment,
    SagaPayments.PostgresPaymentRepository.GetPaymentByOrderIDAndType, int4_arg, wrap.
  intros Hd. repeat case_match; simplify_eq; simpl in *.
  all: split; [eauto|].
  all: rewrite existsb_app; simpl; rewrite String.eqb_refl; simpl;
    apply orb_true_r.
Qed.

Lemma saga_debit_repost d req d' :
  SagaPayments.PaymentUseCase.DebitPayment d req = (d', ErrNil) ->
  SagaPayments.PaymentUseCase.DebitPayment d' req = (d', ErrNil).
Proof.
  unfold SagaPayments.PaymentUseCase.DebitPayment, run_tx,
    SagaPayments.PostgresPaymentRepository.GetWalletForUpdate.
  intros Hd.
  destruct (SagaPayments.wallets d !! _) as [w|] eqn:Hw; [|discriminate].
  destruct (SagaPayments.PostgresPaymentRepository.GetPaymentByOrderIDAndType d _ _) eqn:Hex.
  - injection Hd as <-. rewrite Hw, Hex. reflexivity.
  - destruct (_ <? _); [discriminate|].
    destruct (SagaPayments.PostgresPaymentRepository.DebitWallet d _ _ _) as [tx|e]
      eqn:Hrepo; [|discriminate].
    injection Hd as <-.
    destruct (saga_debit_repo_marks _ _ _ _ _ Hrepo) as [[w' ->] ->]. reflexivity.
Qed.

Lemma saga_compensate_payment_repost d req d' :
  SagaPayments.PaymentUseCase.CompensatePayment d req = (d', ErrNil) ->
  SagaPayments.PaymentUseCase.CompensatePayment d' req = (d', ErrNil).
Proof.
  unfold SagaPayments.PaymentUseCase.CompensatePayment, run_tx,
    SagaPayments.PostgresPaymentRepository.GetWalletForUpdate.
  intros Hd.
  destruct (SagaPayments.wallets d !! _) as [w|] eqn:Hw; [|discriminate].
  destruct (SagaPayments.PostgresPaymentRepository.GetPaymentByOrderIDAndType d _ _) eqn:Hex.
  - injection Hd as <-. rewrite Hw, Hex. reflexivity.
  - destruct (SagaPayments.PostgresPaymentRepository.CreditWallet d _ _ _) as [tx|e]
      eqn:Hrepo; [|discriminate].
    injection Hd as <-.
    destruct (saga_credit_repo_marks _ _ _ _ _ Hrepo) as [[w' ->] ->]. reflexivity.
Qed.

End SagaRepost.

Section TccRepost.

Lemma tcc_try_balance_marks d userID orderID amount d' :
  TccPayment.TryReserveBalance d userID orderID amount = Ok d' ->
  is_Some (TccPayment.wallets d' !! userID) /\
  TccPayment.GetPaymentTransactionByOrderIDAndStatus d' orderID TccPayment.pending = true.
Proof.
  unfold TccPayment.TryReserveBalance, TccPayment.update_wallet,
    TccPayment.insert_transaction, TccPayment.GetPaymentTransactionByOrderIDAndStatus,
    int4_arg, wrap.
  intros Hd. repeat case_match; simplify_eq; simpl in *.
  all: split; [eauto|].
  all: rewrite existsb_app; simpl; rewrite String.eqb_refl; simpl;
    apply orb_true_r.
Qed.

Lemma tcc_payment_try_repost_after_success d req d' :
  TccPayment.TryDebitWallet d req = (d', ErrNil) ->
  TccPayment.TryDebitWallet d' req = (d', ErrNil).
Proof.
  unfold TccPayment.TryDebitWallet, run_tx, TccPayment.GetWalletForUpdate.
  intros Hd. destruct (_ <=? 0); [discriminate|].
  destruct (TccPayment.wallets d !! _) as [w|] eqn:Hw; [|discriminate].
  destruct (TccPayment.GetPaymentTransactionByOrderIDAndStatus d _ _) eqn:Hex.
  - injection Hd as <-. rewrite Hw, Hex. reflexivity.
  - destruct (_ <? _); [discriminate|].
    destruct (TccPayment.TryReserveBalance d _ _ _) as [tx|e] eqn:Hrepo; [|discriminate].
    injection Hd as <-.
    destruct (tcc_try_balance_marks _ _ _ _ _ Hrepo) as [[w' ->] ->]. reflexivity.
Qed.

Lemma stock_status_pending s :
  String.eqb (TccInventory.status_text s) "" = false /\
  (String.eqb (TccInventory.status_text s) "rejected" = false ->
   String.eqb (TccInventory.status_text s) "completed" = false ->
   s = TccInventory.pending).
Proof. destruct s; simpl; split; congruence. Qed.

Lemma payment_status_pending s :
  String.eqb (TccPayment.status_text s) "" = false /\
  (String.eqb (TccPayment.status_text s) "rejected" = false ->
   String.eqb (TccPayment.status_text s) "completed" = false ->
   s = TccPayment.pending).
Proof. destruct s; simpl; split; congruence. Qed.

Lemma tcc_update_product_keeps_row d productID set d' :
  TccInventory.update_product d productID set = Ok d' ->
  is_Some (TccInventory.products_inventory d !! productID) ->
  is_Some (TccInventory.products_inventory d' !! productID).
Proof.
  unfold TccInventory.update_product. intros Hu [r Hr]. rewrite Hr in Hu.
  repeat case_match; simplify_eq; simpl. rewrite lookup_insert_eq. eauto.
Qed.

Lemma tcc_update_wallet_keeps_row d userID amount set d' :
  TccPayment.update_wallet d userID amount set = Ok d' ->
  is_Some (TccPayment.wallets d !! userID) ->
  is_Some (TccPayment.wallets d' !! userID).
Proof.
  unfold TccPayment.update_wallet. intros Hu [w Hw]. rewrite Hw in Hu.
  repeat case_match; simplify_eq; simpl. rewrite lookup_insert_eq. eauto.
Qed.

Lemma tcc_cancel_stock_repost d req d' :
  TccInventory.CancelDecreaseStock d req = (d', ErrNil) ->
  TccInventory.CancelDecreaseStock d' req = (d', ErrNil).
Proof.
  unfold TccInventory.CancelDecreaseStock, run_tx, TccInventory.GetProductForUpdate.
  intros Hd.
  destruct (TccInventory.products_inventory d !! _) as [r|] eqn:Hr; [|discriminate].
  unfold TccInventory.GetInventoryMovementStatusByOrderID in Hd at 1 2 3.
  destruct (find _ (rev (TccInventory.inventory_movements d))) as [m|] eqn:Hm.
  - destruct (stock_status_pending (TccInventory.mv_status m)) as [He Hp].
    rewrite He in Hd.
    destruct (String.eqb (TccInventory.status_text _) "rejected") eqn:Hrej.
    { injection Hd as <-. rewrite Hr.
      unfold TccInventory.GetInventoryMovementStatusByOrderID. rewrite Hm, He, Hrej.
      reflexivity. }
    destruct (String.eqb (TccInventory.status_text _) "completed") eqn:Hcom; [discriminate|].
    specialize (Hp eq_refl eq_refl).
    destruct (TccInventory.CancelReserveStock d _ _) as [tx|e] eqn:Hc; [|discriminate].
    injection Hd as <-.
    unfold TccInventory.CancelReserveStock in Hc.
    destruct (wrap _ _) as [d1|] eqn:Hu; [|discriminate]. apply wrap_ok in Hu.
    injection Hc as <-.
    destruct (tcc_update_product_keeps_row _ _ _ _ Hu (ex_intro _ r Hr)) as [r' Hr'].
    simpl. rewrite Hr'.
    unfold TccInventory.GetInventoryMovementStatusByOrderID, TccInventory.update_pending_status.
    simpl. rewrite (tcc_update_product_movements _ _ _ _ Hu).
    rewrite <- map_rev, find_map_same_key by (intros x; destruct (_ && _); reflexivity).
    rewrite Hm. simpl. pose proof (find_some _ _ Hm) as [_ Hk]. rewrite Hk, Hp. reflexivity.
  - injection Hd as <-. rewrite Hr.
    unfold TccInventory.GetInventoryMovementStatusByOrderID. rewrite Hm. reflexivity.
Qed.

Lemma tcc_cancel_balance_repost d req d' :
  TccPayment.CancelDebitWallet d req = (d', ErrNil) ->
  TccPayment.CancelDebitWallet d' req = (d', ErrNil).
Proof.
  unfold TccPayment.CancelDebitWallet, run_tx, TccPayment.GetWalletForUpdate.
  intros Hd.
  destruct (TccPayment.wallets d !! _) as [w|] eqn:Hw; [|discriminate].
  unfold TccPayment.GetPaymentTransactionStatusByOrderID in Hd at 1 2 3.
  destruct (find _ (TccPayment.payment_transactions d)) as [t|] eqn:Ht.
  - destruct (payment_status_pending (TccPayment.pt_status t)) as [He Hp].
    rewrite He in Hd.
    destruct (String.eqb (TccPayment.status_text _) "rejected") eqn:Hrej.
    { injection Hd as <-. rewrite Hw.
      unfold TccPayment.GetPaymentTransactionStatusByOrderID. rewrite Ht, He, Hrej.
      reflexivity. }
    destruct (String.eqb (TccPayment.status_text _) "completed") eqn:Hcom; [discriminate|].
    specialize (Hp eq_refl eq_refl).
    destruct (TccPayment.CancelReserveBalance d _ _ _) as [tx|e] eqn:Hc; [|discriminate].
    injection Hd as <-.
    unfold TccPayment.CancelReserveBalance in Hc.
    destruct (wrap _ _) as [d1|] eqn:Hu; [|discriminate]. apply wrap_ok in Hu.
    injection Hc as <-.
    destruct (tcc_update_wallet_keeps_row _ _ _ _ _ Hu (ex_intro _ w Hw)) as [w' Hw'].
    simpl. rewrite Hw'.
    unfold TccPayment.GetPaymentTransactionStatusByOrderID, TccPayment.update_pending_status.
    simpl.
    assert (Hl : TccPayment.payment_transactions d1 = TccPayment.payment_transactions d).
    { unfold TccPayment.update_wallet in Hu. repeat case_match; simplify_eq; reflexivity. }
    rewrite Hl, find_map_same_key by (intros x; destruct (_ && _); reflexivity).
    rewrite Ht. simpl. pose proof (find_some _ _ Ht) as [_ Hk]. rewrite Hk, Hp. reflexivity.
  - injection Hd as <-. rewrite Hw.
    unfold TccPayment.GetPaymentTransactionStatusByOrderID. rewrite Ht. reflexivity.
Qed.

End TccRepost.

Section TccConfirmRepost.

Lemma stock_pending_rows_completed orderID (l : list TccInventory.InventoryMovement) :
  existsb (fun m => String.eqb (TccInventory.mv_order_id m) orderID &&
                    TccInventory.movement_status_eqb (TccInventory.mv_status m)
                      TccInventory.pending) l = true ->
  existsb (fun m => String.eqb (TccInventory.mv_order_id m) orderID &&
                    TccInventory.movement_status_eqb (TccInventory.mv_status m)
                      TccInventory.completed)
    (map (fun m =>
            if String.eqb (TccInventory.mv_order_id m) orderID &&
               TccInventory.movement_status_eqb (TccInventory.mv_status m) TccInventory.pending
            then {| TccInventory.mv_product_id := TccInventory.mv_product_id m;
                    TccInventory.mv_order_id := TccInventory.mv_order_id m;
                    TccInventory.mv_movement_type := TccInventory.mv_movement_type m;
                    TccInventory.mv_status := TccInventory.completed |}
            else m) l) = true.
Proof.
  induction l as [|m l IH]; simpl; [discriminate|].
  intros Hp. apply orb_true_iff in Hp as [Hp|Hp]; apply orb_true_iff.
  - left. rewrite Hp. simpl. apply andb_true_iff in Hp as [-> _]. reflexivity.
  - right. auto.
Qed.

Lemma balance_pending_rows_completed orderID (l : list TccPayment.PaymentTransaction) :
  existsb (fun t => String.eqb (TccPayment.pt_order_id t) orderID &&
                    TccPayment.transaction_status_eqb (TccPayment.pt_status t)
                      TccPayment.pending) l = true ->
  existsb (fun t => String.eqb (TccPayment.pt_order_id t) orderID &&
                    TccPayment.transaction_status_eqb (TccPayment.pt_status t)
                      TccPayment.completed)
    (map (fun t =>
            if String.eqb (TccPayment.pt_order_id t) orderID &&
               TccPayment.transaction_status_eqb (TccPayment.pt_status t) TccPayment.pending
            then {| TccPayment.pt_user_id := TccPayment.pt_user_id t;
                    TccPayment.pt_order_id := TccPayment.pt_order_id t;
                    TccPayment.pt_amount := TccPayment.pt_amount t;
                    TccPayment.pt_transaction_type := TccPayment.pt_transaction_type t;
                    TccPayment.pt_status := TccPayment.completed |}
            else t) l) = true.
Proof.
  induction l as [|t l IH]; simpl; [discriminate|].
  intros Hp. apply orb_true_iff in Hp as [Hp|Hp]; apply orb_true_iff.
  - left. rewrite Hp. simpl. apply andb_true_iff in Hp as [-> _]. reflexivity.
  - right. auto.
Qed.

Lemma tcc_confirm_stock_repost d req d' :
  TccInventory.GetInventoryMovementByOrderIDAndStatus d (TccInventory.OrderID req)
    TccInventory.pending = true ->
  TccInventory.ConfirmDecreaseStock d req = (d', ErrNil) ->
  TccInventory.ConfirmDecreaseStock d' req = (d', ErrNil).
Proof.
  unfold TccInventory.ConfirmDecreaseStock, run_tx, TccInventory.GetProductForUpdate.
  intros Hpend Hd.
  destruct (TccInventory.products_inventory d !! _) as [r|] eqn:Hr; [|discriminate].
  destruct (TccInventory.GetInventoryMovementByOrderIDAndStatus d _ TccInventory.completed)
    eqn:Hex.
  - injection Hd as <-. rewrite Hr, Hex. reflexivity.
  - destruct (TccInventory.ConfirmReserveStock d _ _) as [tx|e] eqn:Hc; [|discriminate].
    injection Hd as <-.
    unfold TccInventory.ConfirmReserveStock in Hc.
    destruct (wrap _ _) as [d1|] eqn:Hu; [|discriminate]. apply wrap_ok in Hu.
    injection Hc as <-.
    destruct (tcc_update_product_keeps_row _ _ _ _ Hu (ex_intro _ r Hr)) as [r' Hr'].
    simpl. rewrite Hr'.
    assert (Hdone : TccInventory.GetInventoryMovementByOrderIDAndStatus
                      (TccInventory.update_pending_status d1 (TccInventory.OrderID req)
                         TccInventory.completed)
                      (TccInventory.OrderID req) TccInventory.completed = true).
    { unfold TccInventory.GetInventoryMovementByOrderIDAndStatus,
        TccInventory.update_pending_status in *. simpl.
      rewrite (tcc_update_product_movements _ _ _ _ Hu).
      apply stock_pending_rows_completed. exact Hpend. }
    rewrite Hdone. reflexivity.
Qed.

Lemma tcc_confirm_balance_repost d req d' :
  TccPayment.GetPaymentTransactionByOrderIDAndStatus d (TccPayment.OrderID req)
    TccPayment.pending = true ->
  TccPayment.ConfirmDebitWallet d req = (d', ErrNil) ->
  TccPayment.ConfirmDebitWallet d' req = (d', ErrNil).
Proof.
  unfold TccPayment.ConfirmDebitWallet, run_tx, TccPayment.GetWalletForUpdate.
  intros Hpend Hd.
  destruct (TccPayment.wallets d !! _) as [w|] eqn:Hw; [|discriminate].
  destruct (TccPayment.GetPaymentTransactionByOrderIDAndStatus d _ TccPayment.completed)
    eqn:Hex.
  - injection Hd as <-. rewrite Hw, Hex. reflexivity.
  - destruct (TccPayment.ConfirmDebit d _ _ _) as [tx|e] eqn:Hc; [|discriminate].
    injection Hd as <-.
    unfold TccPayment.ConfirmDebit in Hc.
    destruct (wrap _ _) as [d1|] eqn:Hu; [|discriminate]. apply wrap_ok in Hu.
    injection Hc as <-.
    destruct (tcc_update_wallet_keeps_row _ _ _ _ _ Hu (ex_intro _ w Hw)) as [w' Hw'].
    simpl. rewrite Hw'.
    assert (Hl : TccPayment.payment_transactions d1 = TccPayment.payment_transactions d).
    { unfold TccPayment.update_wallet in Hu. repeat case_match; simplify_eq; reflexivity. }
    assert (Hdone : TccPayment.GetPaymentTransactionByOrderIDAndStatus
                      (TccPayment.update_pending_status d1 (TccPayment.OrderID req)
                         TccPayment.completed)
                      (TccPayment.OrderID req) TccPayment.completed = true).
    { unfold TccPayment.GetPaymentTransactionByOrderIDAndStatus,
        TccPayment.update_pending_status in *. simpl. rewrite Hl.
      apply balance_pending_rows_completed. exact Hpend. }
    rewrite Hdone. reflexivity.
Qed.

(** Without a pending row the Confirm is not idempotent: posted twice for
    an order that was never tried, it takes two units off the stock. *)
Example confirm_without_try_repeats :
  let d0 := Fixtures.tcc_stock 5 3 [Fixtures.tcc_movement "o2" TccInventory.pending;
                                    Fixtures.tcc_movement "o3" TccInventory.pending] in
  let req := Fixtures.tcc_stock_req "o1" in
  let d1 := fst (TccInventory.ConfirmDecreaseStock d0 req) in
  TccInventory.ConfirmDecreaseStock d0 req
  = (Fixtures.tcc_stock 4 3 (TccInventory.inventory_movements d0), ErrNil) /\
  TccInventory.ConfirmDecreaseStock d1 req
  = (Fixtures.tcc_stock 3 3 (TccInventory.inventory_movements d0), ErrNil).
Proof. vm_compute. split; reflexivity. Qed.

End TccConfirmRepost.

(** ** C4: Saga debit with insufficient funds *)

Lemma saga_debit_refused
    (d : SagaPayments.DB) (req : SagaPayments.SagaActionRequest) (w : SagaPayments.Wallet) :
  SagaPayments.wallets d !! SagaPayments.UserID req = Some w ->
  SagaPayments.PostgresPaymentRepository.GetPaymentByOrderIDAndType d
    (SagaPayments.OrderID req) SagaPayments.debit = false ->
  SagaPayments.CurrentAmount w < SagaPayments.Amount req ->
  SagaPayments.PaymentUseCase.DebitPayment d req = (d, ErrMsg "insufficient funds") /\
  SagaPayments.PaymentHandler.DebitPayment d (Ok req)
  = (d, JSON StatusBadRequest (H [("error", "insufficient funds")])).
Proof.
  intros Hw Hnone Hlt.
  assert (Huc : SagaPayments.PaymentUseCase.DebitPayment d req
                = (d, ErrMsg "insufficient funds")).
  { unfold SagaPayments.PaymentUseCase.DebitPayment, run_tx,
      SagaPayments.PostgresPaymentRepository.GetWalletForUpdate.
    rewrite Hw, Hnone.
    destruct (Z.ltb_spec (SagaPayments.CurrentAmount w) (SagaPayments.Amount req)); [|lia].
    reflexivity. }
  split; [exact Huc|].
  unfold SagaPayments.PaymentHandler.DebitPayment. rewrite Huc. reflexivity.
Qed.

(** C4.  A Saga debit for an existing wallet, with no debit row yet for
    the order and a balance below the amount, fails with "insufficient
    funds"; the store (wallet and ledger) is the one it started from, and
    the endpoint answers 400 with that message. *)
Theorem saga_debit_insufficient_funds
    (d : SagaPayments.DB) (req : SagaPayments.SagaActionRequest) (w : SagaPayments.Wallet) :
  SagaPayments.wallets d !! SagaPayments.UserID req = Some w ->
  SagaPayments.PostgresPaymentRepository.GetPaymentByOrderIDAndType d
    (SagaPayments.OrderID req) SagaPayments.debit = false ->
  SagaPayments.CurrentAmount w < SagaPayments.Amount req ->
  SagaPayments.PaymentUseCase.DebitPayment d req = (d, ErrMsg "insufficient funds") /\
  SagaPayments.PaymentHandler.DebitPayment d (Ok req)
  = (d, JSON StatusBadRequest (H [("error", "insufficient funds")])).
Proof. exact (saga_debit_refused d req w). Qed.

Lemma saga_debit_insufficient_funds_witness :
  SagaPayments.PaymentUseCase.DebitPayment (Fixtures.saga_wallet 50 [])
    (Fixtures.saga_wallet_req "o1" 100)
  = (Fixtures.saga_wallet 50 [], ErrMsg "insufficient funds") /\
  SagaPayments.PaymentHandler.DebitPayment (Fixtures.saga_wallet 50 [])
    (Ok (Fixtures.saga_wallet_req "o1" 100))
  = (Fixtures.saga_wallet 50 [], JSON StatusBadRequest (H [("error", "insufficient funds")])).
Proof.
  apply (saga_debit_insufficient_funds (Fixtures.saga_wallet 50 [])
           (Fixtures.saga_wallet_req "o1" 100)
           {| SagaPayments.ID := "W"; SagaPayments.CurrentAmount := 50 |}).
  - reflexivity.
  - reflexivity.
  - simpl. lia.
Defined.

(** ** C5: status codes of failed participant calls *)

(** C5 as stated fails: the TCC inventory Try refused for lack of stock, a
    business refusal, is answered with 500, and the Cancel that meets a
    completed ledger row, a conflict, is answered with 500 too. *)
Lemma refusal_and_conflict_answered_500 :
  snd (TccInventory.TryDecreaseStock (Fixtures.tcc_stock 0 0 []) (Fixtures.tcc_stock_req "o1"))
  = ErrMsg "insufficient stock" /\
  code (snd (TccInventory.HandleTryDecreaseStock (Fixtures.tcc_stock 0 0 [])
               (Some (Fixtures.tcc_stock_req "o1"))))
  <> described_status BusinessRefusal /\
  snd (TccInventory.CancelDecreaseStock
         (Fixtures.tcc_stock 5 5 [Fixtures.tcc_movement "o1" TccInventory.completed])
         (Fixtures.tcc_stock_req "o1"))
  = ErrMsg "invalid status to cancel" /\
  code (snd (TccInventory.HandleCancelDecreaseStock
               (Fixtures.tcc_stock 5 5 [Fixtures.tcc_movement "o1" TccInventory.completed])
               (Some (Fixtures.tcc_stock_req "o1"))))
  <> described_status ConflictingState.
Proof. vm_compute. repeat split; congruence. Qed.

Lemma tcc_inventory_handle_failure useCase success d req :
  snd (useCase d req) <> ErrNil ->
  code (snd (TccInventory.handle useCase success d (Some req))) = StatusInternalServerError.
Proof.
  intros Hne. unfold TccInventory.handle.
  destruct (useCase d req) as [d' [|e]]; simpl in *; [congruence|reflexivity].
Qed.

Lemma tcc_payment_handle_failure useCase success d req :
  snd (useCase d req) <> ErrNil ->
  code (snd (TccPayment.handle useCase success d (Some req))) = StatusInternalServerError.
Proof.
  intros Hne. unfold TccPayment.handle.
  destruct (useCase d req) as [d' [|e]]; simpl in *; [congruence|reflexivity].
Qed.

Lemma insufficient_stock_matched productID :
  containsAny ("insufficient stock for product " ++ productID)
    ["product not found"; "insufficient stock"] = true.
Proof.
  unfold containsAny. cbn [existsb]. apply orb_true_iff. right.
  apply orb_true_iff. left. apply andb_true_iff. split.
  - cbn. reflexivity.
  - cbn. reflexivity.
Qed.

Lemma saga_decrease_insufficient d req r :
  SagaInventory.products_inventory d !! SagaInventory.ProductID req = Some r ->
  SagaInventory.PostgresInventoryRepository.GetMovementByOrderIDAndType d
    (SagaInventory.OrderID req) SagaInventory.decreased = false ->
  SagaInventory.CurrentStock r < 1 ->
  SagaInventory.InventoryHandler.DecreaseStock d (Ok req)
  = (d, JSON StatusBadRequest
          (H [("error", "insufficient stock for product " ++ SagaInventory.ProductID req)])).
Proof.
  intros Hr Hno Hlt.
  unfold SagaInventory.InventoryHandler.DecreaseStock,
    SagaInventory.InventoryUseCase.DecreaseStock, run_tx,
    SagaInventory.PostgresInventoryRepository.GetProductForUpdate.
  rewrite Hr, Hno. destruct (Z.ltb_spec (SagaInventory.CurrentStock r) 1); [|lia].
  rewrite insufficient_stock_matched. reflexivity.
Qed.

Lemma tcc_orders_handle_failure useCase phase d req :
  snd (useCase d req) <> ErrNil ->
  code (snd (TccOrders.handle useCase phase d (Some req))) = StatusInternalServerError.
Proof.
  intros Hne. unfold TccOrders.handle.
  destruct (useCase d req) as [d' [|e]]; simpl in *; [congruence|reflexivity].
Qed.

Lemma saga_orders_action_failure useCase d req :
  snd (useCase d req) <> ErrNil ->
  code (snd (SagaOrders.OrderHandler.action useCase d (Ok req))) = StatusInternalServerError.
Proof.
  intros Hne. unfold SagaOrders.OrderHandler.action.
  destruct (useCase d req) as [d' [|e]]; simpl in *; [congruence|reflexivity].
Qed.

(** C5, amended.  Every TCC participant endpoint (orders, inventory,
    payments) answers a failed use case with 500, business refusals and
    the Cancel of a completed row included; so do the XA orders and
    inventory endpoints and the three Saga actions of the orders service.
    For the orders handlers this is also stated for whatever their use
    case returns, since the status updates have no failing path of their
    own on a store that can be reached.
    The Saga inventory and payments endpoints choose the status from the
    error text: a forward call answers 400 when the text names a missing
    entity or an insufficient balance, as it does on every refusal for
    lack of stock or of funds, and 500 otherwise; a compensation answers
    409 when the text names a version conflict or exhausted retries, and
    500 otherwise. *)
Theorem participant_failure_status_codes :
  (forall ph d req,
     snd (inventory_phase ph d req) <> ErrNil ->
     code (snd (inventory_endpoint ph d (Some req))) = StatusInternalServerError) /\
  (forall ph d req,
     snd (payment_phase ph d req) <> ErrNil ->
     code (snd (payment_endpoint ph d (Some req))) = StatusInternalServerError) /\
  (forall ph d req,
     snd (orders_phase ph d req) <> ErrNil ->
     code (snd (orders_endpoint ph d (Some req))) = StatusInternalServerError) /\
  (forall useCase phase d req,
     snd (useCase d req) <> ErrNil ->
     code (snd (TccOrders.handle useCase phase d (Some req))) = StatusInternalServerError) /\
  (forall d req e,
     XaInventory.InventoryUseCase.DecreaseStockXA d req = Fail e ->
     code (snd (XaInventory.HandleXADecreaseStock d (Ok req))) = StatusInternalServerError) /\
  (forall d req e,
     XaOrders.OrderUseCase.CreateOrderXA d req = Fail e ->
     code (snd (XaOrders.HandleXACreateOrder d (Ok req))) = StatusInternalServerError) /\
  (forall d req,
     (snd (SagaOrders.OrderUseCase.CreateOrder d req) <> ErrNil ->
      code (snd (SagaOrders.OrderHandler.CreateOrder d (Ok req)))
      = StatusInternalServerError) /\
     (snd (SagaOrders.OrderUseCase.CompleteOrder d req) <> ErrNil ->
      code (snd (SagaOrders.OrderHandler.CompleteOrder d (Ok req)))
      = StatusInternalServerError) /\
     (snd (SagaOrders.OrderUseCase.CancelOrder d req) <> ErrNil ->
      code (snd (SagaOrders.OrderHandler.CompensateOrder d (Ok req)))
      = StatusInternalServerError)) /\
  (forall useCase d req,
     snd (useCase d req) <> ErrNil ->
     code (snd (SagaOrders.OrderHandler.action useCase d (Ok req)))
     = StatusInternalServerError) /\
  (forall d req r,
     SagaInventory.products_inventory d !! SagaInventory.ProductID req = Some r ->
     SagaInventory.PostgresInventoryRepository.GetMovementByOrderIDAndType d
       (SagaInventory.OrderID req) SagaInventory.decreased = false ->
     SagaInventory.CurrentStock r < 1 ->
     code (snd (SagaInventory.InventoryHandler.DecreaseStock d (Ok req))) = StatusBadRequest) /\
  (forall d req w,
     SagaPayments.wallets d !! SagaPayments.UserID req = Some w ->
     SagaPayments.PostgresPaymentRepository.GetPaymentByOrderIDAndType d
       (SagaPayments.OrderID req) SagaPayments.debit = false ->
     SagaPayments.CurrentAmount w < SagaPayments.Amount req ->
     code (snd (SagaPayments.PaymentHandler.DebitPayment d (Ok req))) = StatusBadRequest) /\
  (forall d req e,
     snd (SagaInventory.InventoryUseCase.DecreaseStock d req) = ErrMsg e ->
     code (snd (SagaInventory.InventoryHandler.DecreaseStock d (Ok req)))
     = if containsAny e ["product not found"; "insufficient stock"]
       then StatusBadRequest else StatusInternalServerError) /\
  (forall d req e,
     snd (SagaPayments.PaymentUseCase.DebitPayment d req) = ErrMsg e ->
     code (snd (SagaPayments.PaymentHandler.DebitPayment d (Ok req)))
     = if containsAny e ["wallet not found"; "insufficient funds"]
       then StatusBadRequest else StatusInternalServerError) /\
  (forall d req e,
     snd (SagaInventory.InventoryUseCase.CompensateStock d req) = ErrMsg e ->
     code (snd (SagaInventory.InventoryHandler.CompensateStock d (Ok req)))
     = if containsAny e ["version conflict"; "max retries exceeded"]
       then StatusConflict else StatusInternalServerError) /\
  (forall d req e,
     snd (SagaPayments.PaymentUseCase.CompensatePayment d req) = ErrMsg e ->
     code (snd (SagaPayments.PaymentHandler.CompensatePayment d (Ok req)))
     = if containsAny e ["version conflict"; "max retries exceeded"]
       then StatusConflict else StatusInternalServerError).
Proof.
  split; [|split; [|split; [|split; [|split; [|split; [|split; [|split; [|split;
    [|split; [|split; [|split; [|split]]]]]]]]]]]].
  - intros ph d req Hne. destruct ph; apply tcc_inventory_handle_failure; exact Hne.
  - intros ph d req Hne. destruct ph; apply tcc_payment_handle_failure; exact Hne.
  - intros ph d req Hne. destruct ph; apply tcc_orders_handle_failure; exact Hne.
  - apply tcc_orders_handle_failure.
  - intros d req e He. unfold XaInventory.HandleXADecreaseStock, XaLocalTransaction.
    rewrite He. reflexivity.
  - intros d req e He. unfold XaOrders.HandleXACreateOrder, XaLocalTransaction.
    rewrite He. reflexivity.
  - intros d req. split; [|split]; apply saga_orders_action_failure.
  - apply saga_orders_action_failure.
  - intros d req r Hr Hno Hlt. rewrite (saga_decrease_insufficient d req r); auto.
  - intros d req w Hw Hno Hlt.
    destruct (saga_debit_refused d req w Hw Hno Hlt) as [_ ->]. reflexivity.
  - intros d req e He. unfold SagaInventory.InventoryHandler.DecreaseStock.
    destruct (SagaInventory.InventoryUseCase.DecreaseStock d req) as [d' err].
    simpl in He. subst err. destruct (containsAny e _); reflexivity.
  - intros d req e He. unfold SagaPayments.PaymentHandler.DebitPayment.
    destruct (SagaPayments.PaymentUseCase.DebitPayment d req) as [d' err].
    simpl in He. subst err. destruct (containsAny e _); reflexivity.
  - intros d req e He. unfold SagaInventory.InventoryHandler.CompensateStock.
    destruct (SagaInventory.InventoryUseCase.CompensateStock d req) as [d' err].
    simpl in He. subst err. destruct (containsAny e _); reflexivity.
  - intros d req e He. unfold SagaPayments.PaymentHandler.CompensatePayment.
    destruct (SagaPayments.PaymentUseCase.CompensatePayment d req) as [d' err].
    simpl in He. subst err. destruct (containsAny e _); reflexivity.
Qed.

Lemma participant_failure_status_codes_witness :
  code (snd (inventory_endpoint Try (Fixtures.tcc_stock 0 0 [])
               (Some (Fixtures.tcc_stock_req "o1")))) = StatusInternalServerError /\
  code (snd (SagaInventory.InventoryHandler.DecreaseStock (Fixtures.saga_stock 0 [])
               (Ok (Fixtures.saga_stock_req "o1" "P")))) = StatusBadRequest /\
  code (snd (XaOrders.HandleXACreateOrder Fixtures.xa_orders
               (Ok (Fixtures.xa_order_req "o1" 100)))) = StatusInternalServerError.
Proof.
  destruct participant_failure_status_codes
    as (Htcc & _ & _ & _ & _ & Hxa & _ & _ & Hsaga & _).
  split; [|split].
  - apply Htcc. vm_compute. discriminate.
  - apply (Hsaga _ _ {| SagaInventory.CurrentStock := 0 |}).
    + reflexivity.
    + reflexivity.
    + simpl. lia.
  - apply (Hxa _ _ ("failed to create order: " ++ pg_unique_violation)). reflexivity.
Defined.

(** ** C6: answers of the caller-facing endpoint *)

(** C6 as stated fails: on success the Saga orders endpoint answers 200,
    not 202, and its body has neither a [status] nor a [trace_id] field. *)
Lemma saga_create_order_answers_200 :
  let resp := SagaOrders.OrderHandler.CreateOrderSaga
                (fun _ => ("order-1", "gid-1", ErrNil))
                (Ok {| SagaOrders.co_UserID := "U"; SagaOrders.co_ProductID := "P";
                       SagaOrders.co_Amount := 100 |}) in
  code resp = StatusOK /\ code resp <> StatusAccepted /\
  body resp !! "status" = None /\ body resp !! "trace_id" = None.
Proof. vm_compute. repeat split; congruence. Qed.

(** The XA use case passes on what its orchestrator returns: it reports
    success exactly for a positive amount on which the orchestrator
    returned no error. *)
Lemma xa_create_order_use_case xaOrchestrator req orderID traceID :
  XaOrders.OrderUseCase.CreateOrder xaOrchestrator req = (orderID, traceID, ErrNil)
  <-> 0 < XaOrders.Amount req /\ xaOrchestrator req = (orderID, traceID, ErrNil).
Proof.
  unfold XaOrders.OrderUseCase.CreateOrder.
  destruct (Z.leb_spec (XaOrders.Amount req) 0) as [Hle|Hgt].
  - split; [discriminate|]. intros [Hpos _]. lia.
  - destruct (xaOrchestrator req) as [[o t] [|e]]; split.
    + intros Heq. split; [exact Hgt|exact Heq].
    + intros [_ Heq]. exact Heq.
    + discriminate.
    + intros [_ Heq]. discriminate.
Qed.

(** Once a global transaction id has been obtained, the orchestrator
    returns what [XaGlobalTransaction2] returned, under the fresh order
    id. *)
Lemma xa_orchestrator_returns newUUID gid traceID XaGlobalTransaction2 ou iu pu req err :
  gid <> "" ->
  XaGlobalTransaction2 gid
    (XaOrders.DTMXAOrchestrator.branches ou iu pu
       {| XaOrders.req_OrderID := newUUID; XaOrders.req_UserID := XaOrders.UserID req;
          XaOrders.req_ProductID := XaOrders.ProductID req;
          XaOrders.req_TotalPrice := XaOrders.Amount req |})
  = XaOrders.Returned err ->
  XaOrders.DTMXAOrchestrator.CreateOrderXA newUUID (XaOrders.Returned gid) traceID
    XaGlobalTransaction2 ou iu pu req
  = (newUUID, traceID,
     match err with
     | ErrNil => ErrNil
     | ErrMsg e => ErrMsg ("XA transaction failed: " ++ e)
     end).
Proof.
  intros Hgid Hcall. unfold XaOrders.DTMXAOrchestrator.CreateOrderXA.
  destruct (String.eqb_spec gid "") as [->|_]; [congruence|].
  rewrite Hcall. destruct err; reflexivity.
Qed.

(** When [MustGenGid] panics (the coordinator cannot be reached), the
    deferred [recover] makes the orchestrator return two empty strings and
    no error without ever calling [XaGlobalTransaction2]; the use case
    passes that on and the endpoint answers 200 with [status] = completed
    and an empty [order_id]. *)
Example xa_create_order_without_global_transaction
    newUUID traceID XaGlobalTransaction2 ou iu pu :
  let resp :=
    XaOrders.HandleCreateOrder
      (XaOrders.OrderUseCase.CreateOrder
         (XaOrders.DTMXAOrchestrator.CreateOrderXA newUUID XaOrders.Panicked traceID
            XaGlobalTransaction2 ou iu pu))
      (Ok (Fixtures.xa_create_req 100)) in
  code resp = StatusOK /\
  body resp !! "status" = Some "completed" /\
  body resp !! "order_id" = Some "" /\
  body resp !! "trace_id" = Some "".
Proof. vm_compute. repeat split. Qed.

(** C6, amended.  When the use case returns without error, the TCC orders
    endpoint answers 202 with [order_id], [trace_id] and [status] =
    processing, the XA one answers 200 with [order_id], [trace_id] and
    [status] = completed, and the Saga one answers 200 with [order_id],
    [saga_gid] and a [message], without [trace_id] or [status].  Once the
    XA orchestrator has obtained a global transaction id and
    [XaGlobalTransaction2] has returned, the XA endpoint answers 200
    exactly when the amount is positive and that call returned no error,
    and then with the fresh order id and the trace id. *)
Theorem create_order_success_responses :
  (forall useCase req orderID traceID,
     useCase req = (orderID, traceID, ErrNil) ->
     let resp := TccOrders.HandleCreateOrder useCase (Ok req) in
     code resp = StatusAccepted /\
     body resp !! "order_id" = Some orderID /\
     body resp !! "trace_id" = Some traceID /\
     body resp !! "status" = Some "processing") /\
  (forall useCase req orderID traceID,
     useCase req = (orderID, traceID, ErrNil) ->
     let resp := XaOrders.HandleCreateOrder useCase (Ok req) in
     code resp = StatusOK /\
     body resp !! "order_id" = Some orderID /\
     body resp !! "trace_id" = Some traceID /\
     body resp !! "status" = Some "completed") /\
  (forall useCase req orderID gid,
     useCase req = (orderID, gid, ErrNil) ->
     let resp := SagaOrders.OrderHandler.CreateOrderSaga useCase (Ok req) in
     code resp = StatusOK /\
     body resp !! "order_id" = Some orderID /\
     body resp !! "saga_gid" = Some gid /\
     body resp !! "message" = Some "Order SAGA initiated successfully" /\
     body resp !! "trace_id" = None /\
     body resp !! "status" = None) /\
  (forall xaOrchestrator req orderID traceID,
     XaOrders.OrderUseCase.CreateOrder xaOrchestrator req = (orderID, traceID, ErrNil)
     <-> 0 < XaOrders.Amount req /\ xaOrchestrator req = (orderID, traceID, ErrNil)) /\
  (forall newUUID gid traceID XaGlobalTransaction2 ou iu pu req err,
     gid <> "" ->
     XaGlobalTransaction2 gid
       (XaOrders.DTMXAOrchestrator.branches ou iu pu
          {| XaOrders.req_OrderID := newUUID; XaOrders.req_UserID := XaOrders.UserID req;
             XaOrders.req_ProductID := XaOrders.ProductID req;
             XaOrders.req_TotalPrice := XaOrders.Amount req |})
     = XaOrders.Returned err ->
     let resp :=
       XaOrders.HandleCreateOrder
         (XaOrders.OrderUseCase.CreateOrder
            (XaOrders.DTMXAOrchestrator.CreateOrderXA newUUID (XaOrders.Returned gid) traceID
               XaGlobalTransaction2 ou iu pu))
         (Ok req) in
     (code resp = StatusOK <-> 0 < XaOrders.Amount req /\ err = ErrNil) /\
     (code resp = StatusOK ->
      body resp !! "order_id" = Some newUUID /\
      body resp !! "trace_id" = Some traceID /\
      body resp !! "status" = Some "completed")).
Proof.
  split; [|split; [|split; [|split]]].
  - intros useCase req orderID traceID Huc.
    unfold TccOrders.HandleCreateOrder. rewrite Huc. vm_compute. repeat split.
  - intros useCase req orderID traceID Huc.
    unfold XaOrders.HandleCreateOrder. rewrite Huc. vm_compute. repeat split.
  - intros useCase req orderID gid Huc.
    unfold SagaOrders.OrderHandler.CreateOrderSaga. rewrite Huc. vm_compute. repeat split.
  - apply xa_create_order_use_case.
  - intros newUUID gid traceID XaGT ou iu pu req err Hgid Hcall resp. subst resp.
    unfold XaOrders.HandleCreateOrder, XaOrders.OrderUseCase.CreateOrder.
    rewrite (xa_orchestrator_returns newUUID gid traceID XaGT ou iu pu req err Hgid Hcall).
    destruct (Z.leb_spec (XaOrders.Amount req) 0) as [Hle|Hgt].
    + split.
      * split; [intros Hc; vm_compute in Hc; discriminate|intros [Hpos _]; lia].
      * intros Hc. vm_compute in Hc. discriminate.
    + destruct err as [|e].
      * split; [split; [intros _; split; [exact Hgt|reflexivity]|reflexivity]|].
        intros _. vm_compute. repeat split.
      * split.
        -- split; [intros Hc; vm_compute in Hc; discriminate|intros [_ He]; discriminate].
        -- intros Hc. vm_compute in Hc. discriminate.
Qed.

Lemma create_order_success_responses_witness :
  code (TccOrders.HandleCreateOrder (fun _ => ("order-1", "trace-1", ErrNil))
          (Ok {| TccOrders.co_UserID := "U"; TccOrders.co_ProductID := "P";
                 TccOrders.co_TotalPrice := 100 |})) = StatusAccepted /\
  code (XaOrders.HandleCreateOrder (fun _ => ("order-1", "trace-1", ErrNil))
          (Ok {| XaOrders.UserID := "U"; XaOrders.ProductID := "P";
                 XaOrders.Amount := 100 |})) = StatusOK /\
  code (XaOrders.HandleCreateOrder
          (XaOrders.OrderUseCase.CreateOrder
             (XaOrders.DTMXAOrchestrator.CreateOrderXA "order-1" (XaOrders.Returned "gid-1")
                "trace-1" (fun _ _ => XaOrders.Returned ErrNil) "o" "i" "p"))
          (Ok (Fixtures.xa_create_req 100))) = StatusOK.
Proof.
  destruct create_order_success_responses as (Htcc & Hxa & _ & _ & Horch).
  split; [|split].
  - apply (Htcc (fun _ => ("order-1", "trace-1", ErrNil)) _ "order-1" "trace-1" eq_refl).
  - apply (Hxa (fun _ => ("order-1", "trace-1", ErrNil)) _ "order-1" "trace-1" eq_refl).
  - apply (Horch "order-1" "gid-1" "trace-1" (fun _ _ => XaOrders.Returned ErrNil)
             "o" "i" "p" (Fixtures.xa_create_req 100) ErrNil).
    + discriminate.
    + reflexivity.
    + split; [simpl; lia|reflexivity].
Defined.

(** ** C7: the four cases of a TCC Cancel *)

Section CancelInventory.
Import TccInventory.

Variables (d : DB) (req : TCCActionRequest) (r : ProductInventory).
Hypothesis Hrow : products_inventory d !! ProductID req = Some r.

Lemma cancel_stock_no_row :
  movement_for d (OrderID req) = None -> CancelDecreaseStock d req = (d, ErrNil).
Proof using Hrow.
  intros Hm. unfold CancelDecreaseStock, run_tx, GetProductForUpdate,
    GetInventoryMovementStatusByOrderID.
  unfold movement_for in Hm. rewrite Hrow, Hm. reflexivity.
Qed.

Lemma cancel_stock_by_status m :
  movement_for d (OrderID req) = Some m ->
  CancelDecreaseStock d req =
  match mv_status m with
  | rejected => (d, ErrNil)
  | completed => (d, ErrMsg "invalid status to cancel")
  | pending =>
      match CancelReserveStock d (ProductID req) (OrderID req) with
      | Fail e => (d, ErrMsg e)
      | Ok d' => (d', ErrNil)
      end
  end.
Proof using Hrow.
  intros Hm. unfold CancelDecreaseStock, run_tx, GetProductForUpdate,
    GetInventoryMovementStatusByOrderID.
  unfold movement_for in Hm. rewrite Hrow, Hm.
  destruct (mv_status m); simpl; try reflexivity.
  destruct (CancelReserveStock _ _ _); reflexivity.
Qed.

Lemma cancel_stock_pending m :
  movement_for d (OrderID req) = Some m -> mv_status m = pending ->
  0 <= StockAvailable r -> StockAvailable r + 1 <= CurrentStock r ->
  CurrentStock r <= int4_max ->
  CancelDecreaseStock d req = (stock_released d (ProductID req) (OrderID req) r, ErrNil).
Proof using Hrow.
  intros Hm Hst H0 H1 H2. rewrite (cancel_stock_by_status m Hm), Hst.
  unfold CancelReserveStock, update_product. rewrite Hrow. simpl.
  rewrite !in_int4_intro by (unfold int4_min, int4_max in *; lia).
  unfold row_checks. simpl.
  destruct (Z.leb_spec 0 (CurrentStock r)); [|lia].
  destruct (Z.leb_spec 0 (StockAvailable r + 1)); [|lia].
  destruct (Z.leb_spec (StockAvailable r + 1) (CurrentStock r)); [|lia].
  reflexivity.
Qed.

Lemma stock_released_status m :
  movement_for d (OrderID req) = Some m -> mv_status m = pending ->
  GetInventoryMovementStatusByOrderID (stock_released d (ProductID req) (OrderID req) r)
    (OrderID req) = "rejected".
Proof using Type.
  intros Hm Hst. unfold GetInventoryMovementStatusByOrderID, stock_released. simpl.
  rewrite <- map_rev, find_map_same_key.
  - unfold movement_for in Hm. rewrite Hm. simpl.
    pose proof (find_some _ _ Hm) as [_ Hk]. rewrite Hk, Hst. reflexivity.
  - intros x. destruct (_ && _); reflexivity.
Qed.

Lemma cancel_stock_pending_refused m :
  movement_for d (OrderID req) = Some m -> mv_status m = pending ->
  0 <= StockAvailable r <= CurrentStock r ->
  CurrentStock r < StockAvailable r + 1 ->
  exists e, CancelDecreaseStock d req = (d, ErrMsg e).
Proof using Hrow.
  intros Hm Hst Hwf Hgt. rewrite (cancel_stock_by_status m Hm), Hst.
  unfold CancelReserveStock, update_product. rewrite Hrow. simpl.
  destruct (in_int4 (CurrentStock r) && in_int4 (StockAvailable r + 1)); simpl; [|eauto].
  unfold row_checks. simpl.
  destruct (Z.leb_spec 0 (CurrentStock r)); [|lia].
  destruct (Z.leb_spec 0 (StockAvailable r + 1)); [|lia].
  destruct (Z.leb_spec (StockAvailable r + 1) (CurrentStock r)); [lia|].
  simpl. eauto.
Qed.

End CancelInventory.

Lemma cancel_stock_no_product (d : TccInventory.DB) (req : TccInventory.TCCActionRequest) :
  TccInventory.products_inventory d !! TccInventory.ProductID req = None ->
  TccInventory.CancelDecreaseStock d req
  = (d, ErrMsg ("product not found: " ++ TccInventory.ProductID req)).
Proof.
  intros Hrow. unfold TccInventory.CancelDecreaseStock, run_tx,
    TccInventory.GetProductForUpdate.
  rewrite Hrow. reflexivity.
Qed.

Section CancelPayment.
Import TccPayment.

Variables (d : DB) (req : TCCActionRequest) (w : Wallet).
Hypothesis Hrow : wallets d !! UserID req = Some w.

Lemma cancel_balance_no_row :
  transaction_for d (OrderID req) = None -> CancelDebitWallet d req = (d, ErrNil).
Proof using Hrow.
  intros Hm. unfold CancelDebitWallet, run_tx, GetWalletForUpdate,
    GetPaymentTransactionStatusByOrderID.
  unfold transaction_for in Hm. rewrite Hrow, Hm. reflexivity.
Qed.

Lemma cancel_balance_by_status t :
  transaction_for d (OrderID req) = Some t ->
  CancelDebitWallet d req =
  match pt_status t with
  | rejected => (d, ErrNil)
  | completed =>
      (d, ErrMsg ("cannot cancel completed transaction for order " ++ OrderID req))
  | pending =>
      match CancelReserveBalance d (UserID req) (OrderID req) (TotalPrice req) with
      | Fail e => (d, ErrMsg e)
      | Ok d' => (d', ErrNil)
      end
  end.
Proof using Hrow.
  intros Hm. unfold CancelDebitWallet, run_tx, GetWalletForUpdate,
    GetPaymentTransactionStatusByOrderID.
  unfold transaction_for in Hm. rewrite Hrow, Hm.
  destruct (pt_status t); simpl; try reflexivity.
  destruct (CancelReserveBalance _ _ _ _); reflexivity.
Qed.

Lemma cancel_balance_pending t :
  transaction_for d (OrderID req) = Some t -> pt_status t = pending ->
  TotalPrice req = pt_amount t -> 0 < pt_amount t ->
  0 <= AvailableAmount w -> AvailableAmount w + pt_amount t <= CurrentAmount w ->
  CurrentAmount w <= int4_max ->
  CancelDebitWallet d req
  = (balance_released d (UserID req) (OrderID req) w (pt_amount t), ErrNil).
Proof using Hrow.
  intros Hm Hst Heq Hpos H0 H1 H2. rewrite (cancel_balance_by_status t Hm), Hst, Heq.
  unfold CancelReserveBalance, update_wallet, int4_arg.
  rewrite in_int4_intro by (unfold int4_min, int4_max in *; lia).
  rewrite Hrow. simpl.
  rewrite !in_int4_intro by (unfold int4_min, int4_max in *; lia).
  unfold row_checks. simpl.
  destruct (Z.leb_spec 0 (CurrentAmount w)); [|lia].
  destruct (Z.leb_spec 0 (AvailableAmount w + pt_amount t)); [|lia].
  destruct (Z.leb_spec (AvailableAmount w + pt_amount t) (CurrentAmount w)); [|lia].
  reflexivity.
Qed.

Lemma balance_released_status t :
  transaction_for d (OrderID req) = Some t -> pt_status t = pending ->
  GetPaymentTransactionStatusByOrderID
    (balance_released d (UserID req) (OrderID req) w (pt_amount t)) (OrderID req)
  = "rejected".
Proof using Type.
  intros Hm Hst. unfold GetPaymentTransactionStatusByOrderID, balance_released. simpl.
  rewrite find_map_same_key.
  - unfold transaction_for in Hm. rewrite Hm. simpl.
    pose proof (find_some _ _ Hm) as [_ Hk]. rewrite Hk, Hst. reflexivity.
  - intros x. destruct (_ && _); reflexivity.
Qed.

(** The payment Cancel gives back the [total_price] of the request, not
    the amount of the ledger row. *)
Lemma cancel_balance_pending_amount t :
  transaction_for d (OrderID req) = Some t -> pt_status t = pending ->
  0 <= AvailableAmount w <= CurrentAmount w -> CurrentAmount w <= int4_max ->
  int4_min <= TotalPrice req <= int4_max ->
  0 <= AvailableAmount w + TotalPrice req <= CurrentAmount w ->
  CancelDebitWallet d req
  = (balance_released d (UserID req) (OrderID req) w (TotalPrice req), ErrNil).
Proof using Hrow.
  intros Hm Hst Hwf Hmax Ha Hadm. rewrite (cancel_balance_by_status t Hm), Hst.
  unfold CancelReserveBalance, update_wallet, int4_arg.
  rewrite in_int4_intro by exact Ha.
  rewrite Hrow. simpl.
  rewrite !in_int4_intro by (unfold int4_min, int4_max in *; lia).
  unfold row_checks. simpl.
  destruct (Z.leb_spec 0 (CurrentAmount w)); [|lia].
  destruct (Z.leb_spec 0 (AvailableAmount w + TotalPrice req)); [|lia].
  destruct (Z.leb_spec (AvailableAmount w + TotalPrice req) (CurrentAmount w)); [|lia].
  reflexivity.
Qed.

Lemma cancel_balance_pending_refused t :
  transaction_for d (OrderID req) = Some t -> pt_status t = pending ->
  0 <= AvailableAmount w <= CurrentAmount w ->
  ~ (int4_min <= TotalPrice req <= int4_max /\
     0 <= AvailableAmount w + TotalPrice req <= CurrentAmount w) ->
  exists e, CancelDebitWallet d req = (d, ErrMsg e).
Proof using Hrow.
  intros Hm Hst Hwf Hno. rewrite (cancel_balance_by_status t Hm), Hst.
  unfold CancelReserveBalance, update_wallet, int4_arg.
  destruct (in_int4 (TotalPrice req)) eqn:Hin; simpl; [|eauto].
  apply in_int4_bounds in Hin.
  rewrite Hrow. simpl.
  destruct (in_int4 (CurrentAmount w) && in_int4 (AvailableAmount w + TotalPrice req));
    simpl; [|eauto].
  unfold row_checks. simpl.
  destruct (Z.leb_spec 0 (CurrentAmount w)); [|lia].
  destruct (Z.leb_spec 0 (AvailableAmount w + TotalPrice req)); simpl; [|eauto].
  destruct (Z.leb_spec (AvailableAmount w + TotalPrice req) (CurrentAmount w)); simpl;
    [|eauto].
  exfalso. apply Hno. lia.
Qed.

Lemma balance_released_status_amount t a :
  transaction_for d (OrderID req) = Some t -> pt_status t = pending ->
  GetPaymentTransactionStatusByOrderID
    (balance_released d (UserID req) (OrderID req) w a) (OrderID req)
  = "rejected".
Proof using Type.
  intros Hm Hst. unfold GetPaymentTransactionStatusByOrderID, balance_released. simpl.
  rewrite find_map_same_key.
  - unfold transaction_for in Hm. rewrite Hm. simpl.
    pose proof (find_some _ _ Hm) as [_ Hk]. rewrite Hk, Hst. reflexivity.
  - intros x. destruct (_ && _); reflexivity.
Qed.

End CancelPayment.

Lemma cancel_balance_no_wallet (d : TccPayment.DB) (req : TccPayment.TCCActionRequest) :
  TccPayment.wallets d !! TccPayment.UserID req = None ->
  TccPayment.CancelDebitWallet d req
  = (d, ErrMsg ("user not found: " ++ TccPayment.UserID req)).
Proof.
  intros Hrow. unfold TccPayment.CancelDebitWallet, run_tx, TccPayment.GetWalletForUpdate.
  rewrite Hrow. reflexivity.
Qed.

(** C7 as stated fails.  A Cancel for an order with no ledger row that
    names a missing product is refused, not an empty rollback.  A payment
    Cancel gives back the [total_price] it carries, not the reserved
    amount: against a reservation of 100, a Cancel carrying 40 commits
    available 900 -> 940.  And a Cancel of a pending row whose increment
    the column constraints refuse fails and changes nothing. *)
Lemma tcc_cancel_not_decided_by_ledger_alone :
  TccInventory.CancelDecreaseStock (Fixtures.tcc_stock 5 5 [])
    {| TccInventory.OrderID := "o1"; TccInventory.UserID := "U";
       TccInventory.ProductID := "Q"; TccInventory.TotalPrice := 100 |}
  = (Fixtures.tcc_stock 5 5 [], ErrMsg "product not found: Q") /\
  TccPayment.CancelDebitWallet
    (Fixtures.tcc_wallet 1000 900 [Fixtures.tcc_transaction "o1" 100 TccPayment.pending])
    (Fixtures.tcc_wallet_req "o1" 40)
  = (Fixtures.tcc_wallet 1000 940 [Fixtures.tcc_transaction "o1" 100 TccPayment.rejected],
     ErrNil) /\
  (let out := TccInventory.CancelDecreaseStock
                (Fixtures.tcc_stock 5 5 [Fixtures.tcc_movement "o1" TccInventory.pending])
                (Fixtures.tcc_stock_req "o1") in
   fst out = Fixtures.tcc_stock 5 5 [Fixtures.tcc_movement "o1" TccInventory.pending] /\
   snd out <> ErrNil).
Proof. vm_compute. repeat split. discriminate. Qed.

(** C7, amended.  A Cancel first locks the product row (resp. wallet) the
    request names: when there is none it fails and changes nothing,
    whatever the ledger holds.  On a row that exists it is decided by the
    order's ledger row: none, or one that reads rejected, gives success and
    the same store; one that reads completed gives an error and the same
    store; one that reads pending, on a row within its column constraints,
    commits the store in which one unit (resp. the [total_price] of the
    request) is added to the available column and the row reads rejected,
    when the new row satisfies the constraints, and fails with the store
    unchanged when it does not. *)
Theorem tcc_cancel_by_ledger_status
    (di : TccInventory.DB) (ri : TccInventory.TCCActionRequest)
    (dp : TccPayment.DB) (rp : TccPayment.TCCActionRequest) :
  (TccInventory.products_inventory di !! TccInventory.ProductID ri = None ->
   TccInventory.CancelDecreaseStock di ri
   = (di, ErrMsg ("product not found: " ++ TccInventory.ProductID ri))) /\
  (forall r, TccInventory.products_inventory di !! TccInventory.ProductID ri = Some r ->
     (movement_for di (TccInventory.OrderID ri) = None ->
      TccInventory.CancelDecreaseStock di ri = (di, ErrNil)) /\
     (forall m, movement_for di (TccInventory.OrderID ri) = Some m ->
        (TccInventory.mv_status m = TccInventory.rejected ->
         TccInventory.CancelDecreaseStock di ri = (di, ErrNil)) /\
        (TccInventory.mv_status m = TccInventory.completed ->
         TccInventory.CancelDecreaseStock di ri = (di, ErrMsg "invalid status to cancel")) /\
        (TccInventory.mv_status m = TccInventory.pending ->
         0 <= TccInventory.StockAvailable r <= TccInventory.CurrentStock r ->
         TccInventory.CurrentStock r <= int4_max ->
         (TccInventory.StockAvailable r + 1 <= TccInventory.CurrentStock r ->
          let di' :=
            stock_released di (TccInventory.ProductID ri) (TccInventory.OrderID ri) r in
          TccInventory.CancelDecreaseStock di ri = (di', ErrNil) /\
          TccInventory.GetInventoryMovementStatusByOrderID di' (TccInventory.OrderID ri)
          = "rejected") /\
         (TccInventory.CurrentStock r < TccInventory.StockAvailable r + 1 ->
          exists e, TccInventory.CancelDecreaseStock di ri = (di, ErrMsg e))))) /\
  (TccPayment.wallets dp !! TccPayment.UserID rp = None ->
   TccPayment.CancelDebitWallet dp rp
   = (dp, ErrMsg ("user not found: " ++ TccPayment.UserID rp))) /\
  (forall w, TccPayment.wallets dp !! TccPayment.UserID rp = Some w ->
     (transaction_for dp (TccPayment.OrderID rp) = None ->
      TccPayment.CancelDebitWallet dp rp = (dp, ErrNil)) /\
     (forall t, transaction_for dp (TccPayment.OrderID rp) = Some t ->
        (TccPayment.pt_status t = TccPayment.rejected ->
         TccPayment.CancelDebitWallet dp rp = (dp, ErrNil)) /\
        (TccPayment.pt_status t = TccPayment.completed ->
         TccPayment.CancelDebitWallet dp rp
         = (dp, ErrMsg ("cannot cancel completed transaction for order "
                        ++ TccPayment.OrderID rp))) /\
        (TccPayment.pt_status t = TccPayment.pending ->
         0 <= TccPayment.AvailableAmount w <= TccPayment.CurrentAmount w ->
         TccPayment.CurrentAmount w <= int4_max ->
         (int4_min <= TccPayment.TotalPrice rp <= int4_max /\
          0 <= TccPayment.AvailableAmount w + TccPayment.TotalPrice rp
            <= TccPayment.CurrentAmount w ->
          let dp' := balance_released dp (TccPayment.UserID rp) (TccPayment.OrderID rp) w
                       (TccPayment.TotalPrice rp) in
          TccPayment.CancelDebitWallet dp rp = (dp', ErrNil) /\
          TccPayment.GetPaymentTransactionStatusByOrderID dp' (TccPayment.OrderID rp)
          = "rejected") /\
         (~ (int4_min <= TccPayment.TotalPrice rp <= int4_max /\
             0 <= TccPayment.AvailableAmount w + TccPayment.TotalPrice rp
               <= TccPayment.CurrentAmount w) ->
          exists e, TccPayment.CancelDebitWallet dp rp = (dp, ErrMsg e))))).
Proof.
  split; [|split; [|split]].
  - apply cancel_stock_no_product.
  - intros r Hr. split; [apply (cancel_stock_no_row di ri r Hr)|].
    intros m Hm. split; [|split].
    + intros Hst. rewrite (cancel_stock_by_status di ri r Hr m Hm), Hst. reflexivity.
    + intros Hst. rewrite (cancel_stock_by_status di ri r Hr m Hm), Hst. reflexivity.
    + intros Hst Hwf Hmax. split.
      * intros Hadm. split.
        -- apply (cancel_stock_pending di ri r Hr m Hm Hst); lia.
        -- apply (stock_released_status di ri r m Hm Hst).
      * intros Hgt. apply (cancel_stock_pending_refused di ri r Hr m Hm Hst Hwf Hgt).
  - apply cancel_balance_no_wallet.
  - intros w Hw. split; [apply (cancel_balance_no_row dp rp w Hw)|].
    intros t Ht. split; [|split].
    + intros Hst. rewrite (cancel_balance_by_status dp rp w Hw t Ht), Hst. reflexivity.
    + intros Hst. rewrite (cancel_balance_by_status dp rp w Hw t Ht), Hst. reflexivity.
    + intros Hst Hwf Hmax. split.
      * intros [Ha Hadm]. split.
        -- apply (cancel_balance_pending_amount dp rp w Hw t Ht Hst Hwf Hmax Ha Hadm).
        -- apply (balance_released_status_amount dp rp w t _ Ht Hst).
      * intros Hno. apply (cancel_balance_pending_refused dp rp w Hw t Ht Hst Hwf Hno).
Qed.

Lemma tcc_cancel_by_ledger_status_witness :
  TccInventory.CancelDecreaseStock
    (Fixtures.tcc_stock 5 4 [Fixtures.tcc_movement "o1" TccInventory.pending])
    (Fixtures.tcc_stock_req "o1")
  = (Fixtures.tcc_stock 5 5 [Fixtures.tcc_movement "o1" TccInventory.rejected], ErrNil) /\
  TccPayment.CancelDebitWallet
    (Fixtures.tcc_wallet 1000 900 [Fixtures.tcc_transaction "o1" 100 TccPayment.pending])
    (Fixtures.tcc_wallet_req "o1" 100)
  = (Fixtures.tcc_wallet 1000 1000 [Fixtures.tcc_transaction "o1" 100 TccPayment.rejected],
     ErrNil).
Proof.
  destruct (tcc_cancel_by_ledger_status
              (Fixtures.tcc_stock 5 4 [Fixtures.tcc_movement "o1" TccInventory.pending])
              (Fixtures.tcc_stock_req "o1")
              (Fixtures.tcc_wallet 1000 900
                 [Fixtures.tcc_transaction "o1" 100 TccPayment.pending])
              (Fixtures.tcc_wallet_req "o1" 100)) as (_ & Hi & _ & Hp).
  destruct (Hi {| TccInventory.CurrentStock := 5; TccInventory.StockAvailable := 4 |} eq_refl)
    as (_ & Hm).
  destruct (Hp {| TccPayment.CurrentAmount := 1000; TccPayment.AvailableAmount := 900 |}
              eq_refl) as (_ & Ht).
  destruct (Hm _ eq_refl) as (_ & _ & Hmp).
  destruct (Ht _ eq_refl) as (_ & _ & Htp).
  split.
  - destruct Hmp as [Hok _];
      [reflexivity | simpl; lia | simpl; unfold int4_max; lia |].
    destruct Hok as [-> _]; [simpl; lia|]. vm_compute. reflexivity.
  - destruct Htp as [Hok _];
      [reflexivity | simpl; lia | simpl; unfold int4_max; lia |].
    destruct Hok as [-> _]; [simpl; unfold int4_min, int4_max; lia|].
    vm_compute. reflexivity.
Defined.

(** ** C8: the guarded XA decrements *)

Section XaInventoryFacts.
Import XaInventory.

Lemma xa_decrease_enough d productID orderID r :
  products_inventory d !! productID = Some r ->
  1 <= CurrentStock r <= int4_max ->
  PostgresInventoryRepository.DecreaseStockXA d productID orderID
  = Ok (xa_stock_decreased d productID orderID r).
Proof.
  intros Hr Hrange. unfold PostgresInventoryRepository.DecreaseStockXA, update_decrease.
  rewrite Hr. destruct (Z.leb_spec 1 (CurrentStock r)); [|lia]. simpl.
  rewrite in_int4_intro by (unfold int4_min, int4_max in *; lia).
  unfold row_checks. simpl. destruct (Z.leb_spec 0 (CurrentStock r - 1)); [|lia].
  simpl. unfold insert_movement. simpl. rewrite lookup_insert_eq. reflexivity.
Qed.

Lemma xa_decrease_short d productID orderID r :
  products_inventory d !! productID = Some r ->
  CurrentStock r < 1 ->
  PostgresInventoryRepository.DecreaseStockXA d productID orderID
  = Fail ("insufficient stock or product not found: " ++ productID).
Proof.
  intros Hr Hlt. unfold PostgresInventoryRepository.DecreaseStockXA, update_decrease.
  rewrite Hr. destruct (Z.leb_spec 1 (CurrentStock r)); [lia|]. reflexivity.
Qed.

Lemma xa_decrease_nonneg d productID orderID d' :
  PostgresInventoryRepository.DecreaseStockXA d productID orderID = Ok d' ->
  xa_stock_nonneg d -> xa_stock_nonneg d'.
Proof.
  unfold PostgresInventoryRepository.DecreaseStockXA, update_decrease, insert_movement.
  intros Hd Hn.
  destruct (products_inventory d !! productID) as [r|] eqn:Hr; simpl in Hd; [|discriminate].
  destruct (1 <=? CurrentStock r); simpl in Hd; [|discriminate].
  destruct (negb (in_int4 _)); simpl in Hd; [discriminate|].
  destruct (negb (row_checks _)) eqn:Hc; simpl in Hd; [discriminate|].
  rewrite lookup_insert_eq in Hd. simpl in Hd. injection Hd as <-.
  intros p r' Hp. simpl in Hp. rewrite lookup_insert in Hp. case_decide.
  - injection Hp as <-. apply negb_false_iff in Hc. unfold row_checks in Hc.
    apply Z.leb_le in Hc. exact Hc.
  - eauto.
Qed.

Lemma xa_stock_handler_nonneg d bound :
  xa_stock_nonneg d -> xa_stock_nonneg (fst (HandleXADecreaseStock d bound)).
Proof.
  intros Hn. unfold HandleXADecreaseStock, XaLocalTransaction, InventoryUseCase.DecreaseStockXA.
  destruct bound as [req|e]; simpl; [|exact Hn].
  destruct (PostgresInventoryRepository.DecreaseStockXA _ _ _) eqn:Hd; simpl; [|exact Hn].
  eapply xa_decrease_nonneg; eassumption.
Qed.

End XaInventoryFacts.

Section XaPaymentFacts.
Import XaPayment.

Lemma xa_debit_enough d req w :
  wallets d !! UserID req = Some w ->
  0 < TotalPrice req <= CurrentAmount w -> CurrentAmount w <= int4_max ->
  PaymentUseCase.DebitWalletXA d req
  = Ok (xa_wallet_debited d (UserID req) (OrderID req) (TotalPrice req) w).
Proof.
  intros Hw Hrange Hmax. unfold PaymentUseCase.DebitWalletXA.
  destruct (Z.leb_spec (TotalPrice req) 0); [lia|].
  unfold PostgresPaymentRepository.DebitBalanceXA, update_debit, int4_arg.
  rewrite in_int4_intro by (unfold int4_min, int4_max in *; lia).
  rewrite Hw. destruct (Z.leb_spec (TotalPrice req) (CurrentAmount w)); [|lia]. simpl.
  rewrite in_int4_intro by (unfold int4_min, int4_max in *; lia).
  unfold row_checks. simpl.
  destruct (Z.leb_spec 0 (CurrentAmount w - TotalPrice req)); [|lia].
  simpl. unfold insert_transaction, int4_arg. simpl.
  rewrite in_int4_intro by (unfold int4_min, int4_max in *; lia).
  rewrite lookup_insert_eq. reflexivity.
Qed.

Lemma xa_debit_short d req w :
  wallets d !! UserID req = Some w ->
  0 <= CurrentAmount w <= int4_max ->
  CurrentAmount w < TotalPrice req ->
  exists e, PaymentUseCase.DebitWalletXA d req = Fail e /\
    (TotalPrice req <= int4_max ->
     e = "insufficient balance or user not found: " ++ UserID req).
Proof.
  intros Hw Hrange Hlt. unfold PaymentUseCase.DebitWalletXA.
  destruct (Z.leb_spec (TotalPrice req) 0); [lia|].
  unfold PostgresPaymentRepository.DebitBalanceXA, update_debit, int4_arg.
  destruct (in_int4 (TotalPrice req)) eqn:Hin.
  - rewrite Hw. destruct (Z.leb_spec (TotalPrice req) (CurrentAmount w)); [lia|].
    simpl. eauto.
  - simpl. eexists. split; [reflexivity|].
    intros Hle. rewrite in_int4_intro in Hin; [discriminate|].
    unfold int4_min, int4_max in *; lia.
Qed.

Lemma xa_debit_nonneg d userID orderID amount d' :
  PostgresPaymentRepository.DebitBalanceXA d userID orderID amount = Ok d' ->
  xa_balance_nonneg d -> xa_balance_nonneg d'.
Proof.
  unfold PostgresPaymentRepository.DebitBalanceXA, update_debit, insert_transaction.
  intros Hd Hn.
  destruct (int4_arg amount) as [a|] eqn:Ha; simpl in Hd; [|discriminate].
  destruct (wallets d !! userID) as [w|] eqn:Hw; simpl in Hd; [|discriminate].
  destruct (a <=? CurrentAmount w); simpl in Hd; [|discriminate].
  destruct (negb (in_int4 _)); simpl in Hd; [discriminate|].
  destruct (negb (row_checks _)) eqn:Hc; simpl in Hd; [discriminate|].
  rewrite lookup_insert_eq in Hd. simpl in Hd. rewrite Ha in Hd. simpl in Hd.
  injection Hd as <-.
  intros u w' Hu. simpl in Hu. rewrite lookup_insert in Hu. case_decide.
  - injection Hu as <-. apply negb_false_iff in Hc. unfold row_checks in Hc.
    apply Z.leb_le in Hc. exact Hc.
  - eauto.
Qed.

Lemma xa_debit_branch_nonneg d req :
  xa_balance_nonneg d ->
  xa_balance_nonneg (fst (XaLocalTransaction d (fun db => PaymentUseCase.DebitWalletXA db req))).
Proof.
  intros Hn. unfold XaLocalTransaction, PaymentUseCase.DebitWalletXA.
  destruct (TotalPrice req <=? 0); simpl; [exact Hn|].
  destruct (PostgresPaymentRepository.DebitBalanceXA _ _ _ _) eqn:Hd; simpl; [|exact Hn].
  eapply xa_debit_nonneg; eassumption.
Qed.

End XaPaymentFacts.

(** C8.  On an existing product row the XA stock decrement succeeds exactly
    when [current_stock >= 1], and on an existing wallet the XA debit of a
    positive amount succeeds exactly when [current_amount >= amount].  A
    success prepares the decremented row and one ledger row.  A refusal
    returns an error, so the branch transaction the DTM client runs the
    use case in is rolled back and the store, ledger included, is the one
    the branch started from; the inventory endpoint answers 500.  No XA
    branch takes a store with non-negative balances to one with a negative
    balance. *)
Theorem xa_decrements_guarded
    (di : XaInventory.DB) (ri : XaInventory.XAActionRequest) (r : XaInventory.ProductInventory)
    (dp : XaPayment.DB) (rp : XaPayment.XAActionRequest) (w : XaPayment.Wallet) :
  XaInventory.products_inventory di !! XaInventory.ProductID ri = Some r ->
  0 <= XaInventory.CurrentStock r <= int4_max ->
  XaPayment.wallets dp !! XaPayment.UserID rp = Some w ->
  0 <= XaPayment.CurrentAmount w <= int4_max ->
  0 < XaPayment.TotalPrice rp ->
  ((exists d', XaInventory.InventoryUseCase.DecreaseStockXA di ri = Ok d')
   <-> 1 <= XaInventory.CurrentStock r) /\
  (1 <= XaInventory.CurrentStock r ->
   XaInventory.InventoryUseCase.DecreaseStockXA di ri
   = Ok (xa_stock_decreased di (XaInventory.ProductID ri) (XaInventory.OrderID ri) r)) /\
  (XaInventory.CurrentStock r < 1 ->
   XaInventory.InventoryUseCase.DecreaseStockXA di ri
   = Fail ("insufficient stock or product not found: " ++ XaInventory.ProductID ri) /\
   fst (XaInventory.HandleXADecreaseStock di (Ok ri)) = di /\
   code (snd (XaInventory.HandleXADecreaseStock di (Ok ri))) = StatusInternalServerError) /\
  ((exists d', XaPayment.PaymentUseCase.DebitWalletXA dp rp = Ok d')
   <-> XaPayment.TotalPrice rp <= XaPayment.CurrentAmount w) /\
  (XaPayment.TotalPrice rp <= XaPayment.CurrentAmount w ->
   XaPayment.PaymentUseCase.DebitWalletXA dp rp
   = Ok (xa_wallet_debited dp (XaPayment.UserID rp) (XaPayment.OrderID rp)
           (XaPayment.TotalPrice rp) w)) /\
  (XaPayment.CurrentAmount w < XaPayment.TotalPrice rp ->
   exists e,
     XaPayment.PaymentUseCase.DebitWalletXA dp rp = Fail e /\
     XaLocalTransaction dp (fun db => XaPayment.PaymentUseCase.DebitWalletXA db rp)
     = (dp, ErrMsg e)) /\
  (forall bound, xa_stock_nonneg di ->
                 xa_stock_nonneg (fst (XaInventory.HandleXADecreaseStock di bound))) /\
  (forall req, xa_balance_nonneg dp ->
               xa_balance_nonneg
                 (fst (XaLocalTransaction dp
                         (fun db => XaPayment.PaymentUseCase.DebitWalletXA db req)))).
Proof.
  intros Hr Hrr Hw Hwr Hpos.
  assert (Hs1 : 1 <= XaInventory.CurrentStock r ->
                XaInventory.InventoryUseCase.DecreaseStockXA di ri
                = Ok (xa_stock_decreased di (XaInventory.ProductID ri)
                        (XaInventory.OrderID ri) r)).
  { intros Hge. apply xa_decrease_enough; [assumption|lia]. }
  assert (Hs0 : XaInventory.CurrentStock r < 1 ->
                XaInventory.InventoryUseCase.DecreaseStockXA di ri
                = Fail ("insufficient stock or product not found: "
                        ++ XaInventory.ProductID ri)).
  { intros Hlt. apply (xa_decrease_short _ _ _ r); assumption. }
  assert (Hp1 : XaPayment.TotalPrice rp <= XaPayment.CurrentAmount w ->
                XaPayment.PaymentUseCase.DebitWalletXA dp rp
                = Ok (xa_wallet_debited dp (XaPayment.UserID rp) (XaPayment.OrderID rp)
                        (XaPayment.TotalPrice rp) w)).
  { intros Hge. apply xa_debit_enough; [assumption|lia|lia]. }
  assert (Hp0 : XaPayment.CurrentAmount w < XaPayment.TotalPrice rp ->
                exists e, XaPayment.PaymentUseCase.DebitWalletXA dp rp = Fail e).
  { intros Hlt. destruct (xa_debit_short dp rp w Hw Hwr Hlt) as (e & He & _). eauto. }
  split; [|split; [|split; [|split; [|split; [|split; [|split]]]]]].
  - split.
    + intros [d' Hd]. destruct (Z.le_gt_cases 1 (XaInventory.CurrentStock r)); [assumption|].
      rewrite Hs0 in Hd by lia. discriminate.
    + intros Hge. eauto.
  - exact Hs1.
  - intros Hlt. split; [auto|].
    unfold XaInventory.HandleXADecreaseStock, XaLocalTransaction. rewrite Hs0 by assumption.
    split; reflexivity.
  - split.
    + intros [d' Hd].
      destruct (Z.le_gt_cases (XaPayment.TotalPrice rp) (XaPayment.CurrentAmount w));
        [assumption|].
      destruct Hp0 as [e He]; [lia|]. rewrite He in Hd. discriminate.
    + intros Hge. eauto.
  - exact Hp1.
  - intros Hlt. destruct (Hp0 Hlt) as [e He]. exists e. split; [exact He|].
    unfold XaLocalTransaction. rewrite He. reflexivity.
  - intros bound. apply xa_stock_handler_nonneg.
  - intros req. apply xa_debit_branch_nonneg.
Qed.

Lemma xa_decrements_guarded_witness :
  XaInventory.InventoryUseCase.DecreaseStockXA (Fixtures.xa_stock 0) (Fixtures.xa_stock_req "o1")
  = Fail "insufficient stock or product not found: P" /\
  XaPayment.PaymentUseCase.DebitWalletXA (Fixtures.xa_wallet 1000)
    (Fixtures.xa_wallet_req "o1" 100)
  = Ok (xa_wallet_debited (Fixtures.xa_wallet 1000) "U" "o1" 100
          {| XaPayment.CurrentAmount := 1000 |}).
Proof.
  destruct (xa_decrements_guarded
              (Fixtures.xa_stock 0) (Fixtures.xa_stock_req "o1")
              {| XaInventory.CurrentStock := 0 |}
              (Fixtures.xa_wallet 1000) (Fixtures.xa_wallet_req "o1" 100)
              {| XaPayment.CurrentAmount := 1000 |})
    as (_ & _ & Hs & _ & Hp & _).
  - reflexivity.
  - simpl. unfold int4_max. lia.
  - reflexivity.
  - simpl. unfold int4_max. lia.
  - simpl. lia.
  - split.
    + apply Hs. simpl. lia.
    + apply Hp. simpl. lia.
Defined.

(** ** C9, C10: the Saga forward step and its compensation *)

Section SagaInventoryFacts.
Import SagaInventory.
Import PostgresInventoryRepository.

Lemma saga_no_movement d orderID ty :
  movements_of d orderID = [] -> GetMovementByOrderIDAndType d orderID ty = false.
Proof.
  intros Hn. unfold GetMovementByOrderIDAndType.
  apply (filter_nil_existsb (fun m => String.eqb (mv_order_id m) orderID)
           (fun m => movement_type_eqb (MovementType m) ty)). exact Hn.
Qed.

Lemma saga_compensate_runs d req r :
  products_inventory d !! ProductID req = Some r ->
  0 <= CurrentStock r < int4_max ->
  GetMovementByOrderIDAndType d (OrderID req) increased = false ->
  InventoryUseCase.CompensateStock d req
  = (stock_compensated d (ProductID req) (OrderID req) r, ErrNil).
Proof.
  intros Hr Hrange Hno.
  unfold InventoryUseCase.CompensateStock, run_tx, GetProductForUpdate.
  rewrite Hr, Hno. unfold IncreaseStock, update_product. rewrite Hr. simpl.
  rewrite in_int4_intro by (unfold int4_min, int4_max in *; lia).
  unfold row_checks. simpl. destruct (Z.leb_spec 0 (CurrentStock r + 1)); [|lia].
  simpl. unfold insert_movement. simpl.
  unfold GetMovementByOrderIDAndType in Hno. rewrite Hno, lookup_insert_eq. reflexivity.
Qed.

Lemma saga_decrease_runs d req r :
  products_inventory d !! ProductID req = Some r ->
  1 <= CurrentStock r <= int4_max ->
  GetMovementByOrderIDAndType d (OrderID req) decreased = false ->
  InventoryUseCase.DecreaseStock d req
  = (stock_decreased d (ProductID req) (OrderID req) r, ErrNil).
Proof.
  intros Hr Hrange Hno.
  unfold InventoryUseCase.DecreaseStock, run_tx, GetProductForUpdate.
  rewrite Hr, Hno. destruct (Z.ltb_spec (CurrentStock r) 1); [lia|].
  unfold DecreaseStock, update_product. rewrite Hr. simpl.
  rewrite in_int4_intro by (unfold int4_min, int4_max in *; lia).
  unfold row_checks. simpl. destruct (Z.leb_spec 0 (CurrentStock r - 1)); [|lia].
  simpl. unfold insert_movement. simpl.
  unfold GetMovementByOrderIDAndType in Hno. rewrite Hno, lookup_insert_eq. reflexivity.
Qed.

Lemma saga_stock_round_trip d req r :
  products_inventory d !! ProductID req = Some r ->
  1 <= CurrentStock r <= int4_max ->
  movements_of d (OrderID req) = [] ->
  let d1 := fst (InventoryUseCase.DecreaseStock d req) in
  let d2 := fst (InventoryUseCase.CompensateStock d1 req) in
  snd (InventoryUseCase.DecreaseStock d req) = ErrNil /\
  snd (InventoryUseCase.CompensateStock d1 req) = ErrNil /\
  products_inventory d2 = products_inventory d /\
  movements_of d2 (OrderID req)
  = [saga_movement (ProductID req) (OrderID req) decreased;
     saga_movement (ProductID req) (OrderID req) increased].
Proof.
  intros Hr Hrange Hnone. cbv zeta.
  rewrite (saga_decrease_runs d req r Hr Hrange (saga_no_movement _ _ _ Hnone)). simpl.
  rewrite (saga_compensate_runs _ req {| CurrentStock := CurrentStock r - 1 |}).
  - simpl. repeat split.
    + rewrite insert_insert_eq. replace (CurrentStock r - 1 + 1) with (CurrentStock r) by lia.
      destruct r. apply insert_id. exact Hr.
    + unfold movements_of in *. simpl. rewrite !List.filter_app, Hnone. simpl.
      rewrite String.eqb_refl. reflexivity.
  - simpl. apply lookup_insert_eq.
  - simpl. lia.
  - unfold GetMovementByOrderIDAndType. simpl. rewrite existsb_app. simpl.
    rewrite String.eqb_refl. simpl. rewrite orb_false_r.
    apply (saga_no_movement _ _ increased Hnone).
Qed.

End SagaInventoryFacts.

Section SagaPaymentsFacts.
Import SagaPayments.
Import PostgresPaymentRepository.

Lemma saga_no_payment d orderID ty :
  payments_of d orderID = [] -> GetPaymentByOrderIDAndType d orderID ty = false.
Proof.
  intros Hn. unfold GetPaymentByOrderIDAndType.
  apply (filter_nil_existsb (fun p => String.eqb (up_order_id p) orderID)
           (fun p => payment_type_eqb (Type_ p) ty)). exact Hn.
Qed.

Lemma saga_credit_runs d req w :
  wallets d !! UserID req = Some w ->
  0 <= CurrentAmount w -> 0 < Amount req -> CurrentAmount w + Amount req <= int4_max ->
  GetPaymentByOrderIDAndType d (OrderID req) credit = false ->
  PaymentUseCase.CompensatePayment d req
  = (payment_compensated d (UserID req) (OrderID req) (Amount req) w, ErrNil).
Proof.
  intros Hw H0 Hpos Hmax Hno.
  unfold PaymentUseCase.CompensatePayment, run_tx, GetWalletForUpdate.
  rewrite Hw, Hno. unfold CreditWallet, update_wallet, int4_arg.
  rewrite in_int4_intro by (unfold int4_min, int4_max in *; lia).
  rewrite Hw. simpl.
  rewrite in_int4_intro by (unfold int4_min, int4_max in *; lia).
  unfold row_checks. simpl. destruct (Z.leb_spec 0 (CurrentAmount w + Amount req)); [|lia].
  simpl. unfold select_wallet_id. simpl. rewrite lookup_insert_eq. simpl.
  unfold insert_payment, int4_arg. simpl.
  rewrite in_int4_intro by (unfold int4_min, int4_max in *; lia).
  destruct (Z.ltb_spec 0 (Amount req)); [|lia]. simpl.
  unfold GetPaymentByOrderIDAndType in Hno. rewrite Hno. reflexivity.
Qed.

Lemma saga_debit_runs d req w :
  wallets d !! UserID req = Some w ->
  0 < Amount req <= CurrentAmount w -> CurrentAmount w <= int4_max ->
  GetPaymentByOrderIDAndType d (OrderID req) debit = false ->
  PaymentUseCase.DebitPayment d req
  = (payment_debited d (UserID req) (OrderID req) (Amount req) w, ErrNil).
Proof.
  intros Hw Hrange Hmax Hno.
  unfold PaymentUseCase.DebitPayment, run_tx, GetWalletForUpdate.
  rewrite Hw, Hno. destruct (Z.ltb_spec (CurrentAmount w) (Amount req)); [lia|].
  unfold DebitWallet, update_wallet, int4_arg.
  rewrite in_int4_intro by (unfold int4_min, int4_max in *; lia).
  rewrite Hw. simpl.
  rewrite in_int4_intro by (unfold int4_min, int4_max in *; lia).
  unfold row_checks. simpl. destruct (Z.leb_spec 0 (CurrentAmount w - Amount req)); [|lia].
  simpl. unfold select_wallet_id. simpl. rewrite lookup_insert_eq. simpl.
  unfold insert_payment, int4_arg. simpl.
  rewrite in_int4_intro by (unfold int4_min, int4_max in *; lia).
  destruct (Z.ltb_spec 0 (Amount req)); [|lia]. simpl.
  unfold GetPaymentByOrderIDAndType in Hno. rewrite Hno. reflexivity.
Qed.

Lemma saga_payment_round_trip d req w :
  wallets d !! UserID req = Some w ->
  0 < Amount req <= CurrentAmount w -> CurrentAmount w <= int4_max ->
  payments_of d (OrderID req) = [] ->
  let d1 := fst (PaymentUseCase.DebitPayment d req) in
  let d2 := fst (PaymentUseCase.CompensatePayment d1 req) in
  snd (PaymentUseCase.DebitPayment d req) = ErrNil /\
  snd (PaymentUseCase.CompensatePayment d1 req) = ErrNil /\
  wallets d2 = wallets d /\
  payments_of d2 (OrderID req)
  = [saga_payment (ID w) (OrderID req) (Amount req) debit;
     saga_payment (ID w) (OrderID req) (Amount req) credit].
Proof.
  intros Hw Hrange Hmax Hnone. cbv zeta.
  rewrite (saga_debit_runs d req w Hw Hrange Hmax (saga_no_payment _ _ _ Hnone)). simpl.
  rewrite (saga_credit_runs _ req
             {| ID := ID w; CurrentAmount := CurrentAmount w - Amount req |}).
  - simpl. repeat split.
    + rewrite insert_insert_eq.
      replace (CurrentAmount w - Amount req + Amount req) with (CurrentAmount w) by lia.
      destruct w. apply insert_id. exact Hw.
    + unfold payments_of in *. simpl. rewrite !List.filter_app, Hnone. simpl.
      rewrite String.eqb_refl. reflexivity.
  - simpl. apply lookup_insert_eq.
  - simpl. lia.
  - lia.
  - simpl. lia.
  - unfold GetPaymentByOrderIDAndType. simpl. rewrite existsb_app. simpl.
    rewrite String.eqb_refl. simpl. rewrite orb_false_r.
    apply (saga_no_payment _ _ credit Hnone).
Qed.

End SagaPaymentsFacts.

(** C9.  On a product with at least one unit and on a wallet holding at
    least the (positive) amount, for an order with no ledger row yet,
    the forward step followed by its compensation succeeds twice, leaves
    the resource table as it was (same [current_stock], same
    [current_amount]) and leaves exactly two ledger rows for the order:
    the forward one, then the reverse one. *)
Theorem saga_forward_then_compensate
    (di : SagaInventory.DB) (ri : SagaInventory.SagaActionRequest)
    (r : SagaInventory.ProductInventory)
    (dp : SagaPayments.DB) (rp : SagaPayments.SagaActionRequest) (w : SagaPayments.Wallet) :
  SagaInventory.products_inventory di !! SagaInventory.ProductID ri = Some r ->
  1 <= SagaInventory.CurrentStock r <= int4_max ->
  movements_of di (SagaInventory.OrderID ri) = [] ->
  SagaPayments.wallets dp !! SagaPayments.UserID rp = Some w ->
  0 < SagaPayments.Amount rp <= SagaPayments.CurrentAmount w ->
  SagaPayments.CurrentAmount w <= int4_max ->
  payments_of dp (SagaPayments.OrderID rp) = [] ->
  let di1 := fst (SagaInventory.InventoryUseCase.DecreaseStock di ri) in
  let di2 := fst (SagaInventory.InventoryUseCase.CompensateStock di1 ri) in
  let dp1 := fst (SagaPayments.PaymentUseCase.DebitPayment dp rp) in
  let dp2 := fst (SagaPayments.PaymentUseCase.CompensatePayment dp1 rp) in
  (snd (SagaInventory.InventoryUseCase.DecreaseStock di ri) = ErrNil /\
   snd (SagaInventory.InventoryUseCase.CompensateStock di1 ri) = ErrNil /\
   SagaInventory.products_inventory di2 = SagaInventory.products_inventory di /\
   movements_of di2 (SagaInventory.OrderID ri)
   = [saga_movement (SagaInventory.ProductID ri) (SagaInventory.OrderID ri)
        SagaInventory.decreased;
      saga_movement (SagaInventory.ProductID ri) (SagaInventory.OrderID ri)
        SagaInventory.increased]) /\
  (snd (SagaPayments.PaymentUseCase.DebitPayment dp rp) = ErrNil /\
   snd (SagaPayments.PaymentUseCase.CompensatePayment dp1 rp) = ErrNil /\
   SagaPayments.wallets dp2 = SagaPayments.wallets dp /\
   payments_of dp2 (SagaPayments.OrderID rp)
   = [saga_payment (SagaPayments.ID w) (SagaPayments.OrderID rp) (SagaPayments.Amount rp)
        SagaPayments.debit;
      saga_payment (SagaPayments.ID w) (SagaPayments.OrderID rp) (SagaPayments.Amount rp)
        SagaPayments.credit]).
Proof.
  intros Hr Hrr Hnm Hw Hwr Hmax Hnp. split.
  - apply (saga_stock_round_trip di ri r); assumption.
  - apply (saga_payment_round_trip dp rp w); assumption.
Qed.

(** C10.  A Saga compensation for an order with no ledger row at all (so
    no forward step ran) on an existing product, resp. wallet, with a
    positive amount and room in the column, succeeds and is not a noop: it
    commits the store with [current_stock + 1], resp.
    [current_amount + amount], and one more ledger row, the reverse one. *)
Theorem saga_compensation_without_forward
    (di : SagaInventory.DB) (ri : SagaInventory.SagaActionRequest)
    (r : SagaInventory.ProductInventory)
    (dp : SagaPayments.DB) (rp : SagaPayments.SagaActionRequest) (w : SagaPayments.Wallet) :
  SagaInventory.products_inventory di !! SagaInventory.ProductID ri = Some r ->
  0 <= SagaInventory.CurrentStock r < int4_max ->
  movements_of di (SagaInventory.OrderID ri) = [] ->
  SagaPayments.wallets dp !! SagaPayments.UserID rp = Some w ->
  0 <= SagaPayments.CurrentAmount w ->
  0 < SagaPayments.Amount rp ->
  SagaPayments.CurrentAmount w + SagaPayments.Amount rp <= int4_max ->
  payments_of dp (SagaPayments.OrderID rp) = [] ->
  SagaInventory.InventoryUseCase.CompensateStock di ri
  = (stock_compensated di (SagaInventory.ProductID ri) (SagaInventory.OrderID ri) r, ErrNil) /\
  SagaPayments.PaymentUseCase.CompensatePayment dp rp
  = (payment_compensated dp (SagaPayments.UserID rp) (SagaPayments.OrderID rp)
       (SagaPayments.Amount rp) w, ErrNil).
Proof.
  intros Hr Hrr Hnm Hw Hw0 Hpos Hmax Hnp. split.
  - apply saga_compensate_runs; [assumption|assumption|].
    apply saga_no_movement; assumption.
  - apply saga_credit_runs; try assumption.
    apply saga_no_payment; assumption.
Qed.

Lemma saga_forward_then_compensate_witness :
  SagaInventory.products_inventory
    (fst (SagaInventory.InventoryUseCase.CompensateStock
            (fst (SagaInventory.InventoryUseCase.DecreaseStock
                    (Fixtures.saga_stock 10 []) (Fixtures.saga_stock_req "o1" "P")))
            (Fixtures.saga_stock_req "o1" "P")))
  = SagaInventory.products_inventory (Fixtures.saga_stock 10 []) /\
  payments_of
    (fst (SagaPayments.PaymentUseCase.CompensatePayment
            (fst (SagaPayments.PaymentUseCase.DebitPayment
                    (Fixtures.saga_wallet 1000 []) (Fixtures.saga_wallet_req "o1" 100)))
            (Fixtures.saga_wallet_req "o1" 100)))
    "o1"
  = [saga_payment "W" "o1" 100 SagaPayments.debit;
     saga_payment "W" "o1" 100 SagaPayments.credit].
Proof.
  destruct (saga_forward_then_compensate
              (Fixtures.saga_stock 10 []) (Fixtures.saga_stock_req "o1" "P")
              {| SagaInventory.CurrentStock := 10 |}
              (Fixtures.saga_wallet 1000 []) (Fixtures.saga_wallet_req "o1" 100)
              {| SagaPayments.ID := "W"; SagaPayments.CurrentAmount := 1000 |})
    as ((_ & _ & Hstock & _) & (_ & _ & _ & Hrows)).
  - reflexivity.
  - simpl. unfold int4_max. lia.
  - reflexivity.
  - reflexivity.
  - simpl. lia.
  - simpl. unfold int4_max. lia.
  - reflexivity.
  - split; [exact Hstock | exact Hrows].
Defined.

Lemma saga_compensation_without_forward_witness :
  SagaInventory.InventoryUseCase.CompensateStock
    (Fixtures.saga_stock 10 []) (Fixtures.saga_stock_req "o9" "P")
  = (Fixtures.saga_stock 11 [saga_movement "P" "o9" SagaInventory.increased], ErrNil) /\
  SagaPayments.PaymentUseCase.CompensatePayment
    (Fixtures.saga_wallet 1000 []) (Fixtures.saga_wallet_req "o9" 100)
  = (Fixtures.saga_wallet 1100 [saga_payment "W" "o9" 100 SagaPayments.credit], ErrNil).
Proof.
  destruct (saga_compensation_without_forward
              (Fixtures.saga_stock 10 []) (Fixtures.saga_stock_req "o9" "P")
              {| SagaInventory.CurrentStock := 10 |}
              (Fixtures.saga_wallet 1000 []) (Fixtures.saga_wallet_req "o9" 100)
              {| SagaPayments.ID := "W"; SagaPayments.CurrentAmount := 1000 |})
    as [-> ->].
  - reflexivity.
  - simpl. unfold int4_max. lia.
  - reflexivity.
  - reflexivity.
  - simpl. lia.
  - simpl. lia.
  - simpl. unfold int4_max. lia.
  - reflexivity.
  - split; vm_compute; reflexivity.
Defined.

(** * Further properties of the participants *)

(** ** The substring scan of the Saga handlers *)

Lemma string_length_append (a b : string) :
  String.length (a ++ b) = (String.length a + String.length b)%nat.
Proof. induction a as [|c a IH]; simpl; [reflexivity|]. rewrite IH. reflexivity. Qed.

Lemma substring_prefix n s :
  String.length (String.substring 0 n s) = n ->
  exists post, s = String.substring 0 n s ++ post.
Proof.
  revert s. induction n as [|n IH]; intros s Hlen.
  - exists s. destruct s; reflexivity.
  - destruct s as [|c s]; simpl in *; [discriminate|].
    injection Hlen as Hlen. destruct (IH s Hlen) as [post Hpost].
    exists post. change (String c s = String c (String.substring 0 n s ++ post)).
    f_equal. exact Hpost.
Qed.

Lemma substring_occurs i n s :
  String.length (String.substring i n s) = n ->
  exists pre post, s = pre ++ String.substring i n s ++ post.
Proof.
  revert s. induction i as [|i IH]; intros s Hlen.
  - destruct (substring_prefix n s Hlen) as [post Hpost].
    exists "", post. exact Hpost.
  - destruct s as [|c s].
    + exists "", "". destruct n; reflexivity.
    + simpl in Hlen. destruct (IH s Hlen) as (pre & post & Hs).
      exists (String c pre), post.
      change (String c s = String c (pre ++ String.substring i n s ++ post)).
      f_equal. exact Hs.
Qed.

Lemma substring_of_append sub post :
  String.substring 0 (String.length sub) (sub ++ post) = sub.
Proof.
  induction sub as [|c sub IH]; simpl.
  - destruct post; reflexivity.
  - rewrite IH. reflexivity.
Qed.

Lemma substring_skip pre n s :
  String.substring (String.length pre) n (pre ++ s) = String.substring 0 n s.
Proof. induction pre as [|c pre IH]; simpl; [reflexivity|exact IH]. Qed.

Lemma scan_finds sub s :
  ((String.length sub <=? String.length s)%nat &&
   existsb (fun i => String.eqb (slice s i (i + String.length sub)) sub)
     (seq 0 (String.length s - String.length sub + 1))) = true
  <-> substring_of sub s.
Proof.
  split.
  - intros Hs. apply andb_true_iff in Hs as [_ Hs].
    apply existsb_exists in Hs as (i & _ & Hi). apply String.eqb_eq in Hi.
    unfold slice in Hi. replace (i + String.length sub - i)%nat with (String.length sub) in Hi by lia.
    destruct (substring_occurs i (String.length sub) s) as (pre & post & Heq).
    { rewrite Hi. reflexivity. }
    rewrite Hi in Heq. exists pre, post. exact Heq.
  - intros (pre & post & ->). apply andb_true_iff. split.
    + apply Nat.leb_le. rewrite !string_length_append. lia.
    + apply existsb_exists. exists (String.length pre). split.
      * apply in_seq. rewrite !string_length_append. lia.
      * apply String.eqb_eq. unfold slice.
        replace (String.length pre + String.length sub - String.length pre)%nat
          with (String.length sub) by lia.
        rewrite substring_skip. apply substring_of_append.
Qed.

(** X1.  [containsAny s substrs] is true exactly when one of [substrs]
    occurs in [s]; in particular the empty pattern matches every text. *)
Theorem containsAny_finds_substrings (s : string) (substrs : list string) :
  containsAny s substrs = true <-> exists sub, In sub substrs /\ substring_of sub s.
Proof.
  unfold containsAny. rewrite existsb_exists. split.
  - intros (sub & Hin & Hs). exists sub. split; [exact Hin|]. apply scan_finds. exact Hs.
  - intros (sub & Hin & Hs). exists sub. split; [exact Hin|]. apply scan_finds. exact Hs.
Qed.

(** ** Re-posted phases *)

(** X2.  A Saga stock decrease or stock compensation that has returned
    success, posted again with the same request on the store it left,
    returns success and leaves that store as it is. *)
Theorem saga_stock_calls_idempotent :
  (forall d req d',
     SagaInventory.InventoryUseCase.DecreaseStock d req = (d', ErrNil) ->
     SagaInventory.InventoryUseCase.DecreaseStock d' req = (d', ErrNil)) /\
  (forall d req d',
     SagaInventory.InventoryUseCase.CompensateStock d req = (d', ErrNil) ->
     SagaInventory.InventoryUseCase.CompensateStock d' req = (d', ErrNil)).
Proof. split; [exact saga_decrease_repost | exact saga_compensate_stock_repost]. Qed.

Lemma saga_stock_calls_idempotent_witness :
  SagaInventory.InventoryUseCase.DecreaseStock
    (Fixtures.saga_stock 9 [saga_movement "P" "o1" SagaInventory.decreased])
    (Fixtures.saga_stock_req "o1" "P")
  = (Fixtures.saga_stock 9 [saga_movement "P" "o1" SagaInventory.decreased], ErrNil).
Proof.
  apply (proj1 saga_stock_calls_idempotent (Fixtures.saga_stock 10 [])).
  vm_compute. reflexivity.
Defined.

(** X3.  A Saga debit or payment compensation that has returned success,
    posted again with the same request, returns success and changes
    nothing. *)
Theorem saga_payment_calls_idempotent :
  (forall d req d',
     SagaPayments.PaymentUseCase.DebitPayment d req = (d', ErrNil) ->
     SagaPayments.PaymentUseCase.DebitPayment d' req = (d', ErrNil)) /\
  (forall d req d',
     SagaPayments.PaymentUseCase.CompensatePayment d req = (d', ErrNil) ->
     SagaPayments.PaymentUseCase.CompensatePayment d' req = (d', ErrNil)).
Proof. split; [exact saga_debit_repost | exact saga_compensate_payment_repost]. Qed.

Lemma saga_payment_calls_idempotent_witness :
  SagaPayments.PaymentUseCase.DebitPayment
    (Fixtures.saga_wallet 900 [saga_payment "W" "o1" 100 SagaPayments.debit])
    (Fixtures.saga_wallet_req "o1" 100)
  = (Fixtures.saga_wallet 900 [saga_payment "W" "o1" 100 SagaPayments.debit], ErrNil).
Proof.
  apply (proj1 saga_payment_calls_idempotent (Fixtures.saga_wallet 1000 [])).
  vm_compute. reflexivity.
Defined.

(** X4.  A TCC balance Try that has returned success, posted again with
    the same request, returns success and changes nothing, whatever is
    left of the available balance. *)
Theorem tcc_try_debit_idempotent (d : TccPayment.DB) (req : TccPayment.TCCActionRequest)
    (d' : TccPayment.DB) :
  TccPayment.TryDebitWallet d req = (d', ErrNil) ->
  TccPayment.TryDebitWallet d' req = (d', ErrNil).
Proof. exact (tcc_payment_try_repost_after_success d req d'). Qed.

Lemma tcc_try_debit_idempotent_witness :
  TccPayment.TryDebitWallet
    (Fixtures.tcc_wallet 100 0 [Fixtures.tcc_transaction "o1" 100 TccPayment.pending])
    (Fixtures.tcc_wallet_req "o1" 100)
  = (Fixtures.tcc_wallet 100 0 [Fixtures.tcc_transaction "o1" 100 TccPayment.pending], ErrNil).
Proof.
  apply (tcc_try_debit_idempotent (Fixtures.tcc_wallet 100 100 [])).
  vm_compute. reflexivity.
Defined.

(** X5.  A TCC Cancel, of stock or of balance, that has returned success,
    posted again with the same request, returns success and changes
    nothing: the released quantity is not released twice. *)
Theorem tcc_cancel_idempotent :
  (forall d req d',
     TccInventory.CancelDecreaseStock d req = (d', ErrNil) ->
     TccInventory.CancelDecreaseStock d' req = (d', ErrNil)) /\
  (forall d req d',
     TccPayment.CancelDebitWallet d req = (d', ErrNil) ->
     TccPayment.CancelDebitWallet d' req = (d', ErrNil)).
Proof. split; [exact tcc_cancel_stock_repost | exact tcc_cancel_balance_repost]. Qed.

Lemma tcc_cancel_idempotent_witness :
  TccInventory.CancelDecreaseStock
    (Fixtures.tcc_stock 5 5 [Fixtures.tcc_movement "o1" TccInventory.rejected])
    (Fixtures.tcc_stock_req "o1")
  = (Fixtures.tcc_stock 5 5 [Fixtures.tcc_movement "o1" TccInventory.rejected], ErrNil).
Proof.
  apply (proj1 tcc_cancel_idempotent
           (Fixtures.tcc_stock 5 4 [Fixtures.tcc_movement "o1" TccInventory.pending])).
  vm_compute. reflexivity.
Defined.

(** X6.  A TCC Confirm, of stock or of balance, for an order that has a
    pending ledger row and that has returned success, posted again with
    the same request, returns success and changes nothing: the confirmed
    quantity is not taken twice. *)
Theorem tcc_confirm_idempotent_after_try :
  (forall d req d',
     TccInventory.GetInventoryMovementByOrderIDAndStatus d (TccInventory.OrderID req)
       TccInventory.pending = true ->
     TccInventory.ConfirmDecreaseStock d req = (d', ErrNil) ->
     TccInventory.ConfirmDecreaseStock d' req = (d', ErrNil)) /\
  (forall d req d',
     TccPayment.GetPaymentTransactionByOrderIDAndStatus d (TccPayment.OrderID req)
       TccPayment.pending = true ->
     TccPayment.ConfirmDebitWallet d req = (d', ErrNil) ->
     TccPayment.ConfirmDebitWallet d' req = (d', ErrNil)).
Proof. split; [exact tcc_confirm_stock_repost | exact tcc_confirm_balance_repost]. Qed.

Lemma tcc_confirm_idempotent_after_try_witness :
  TccInventory.ConfirmDecreaseStock
    (Fixtures.tcc_stock 4 4 [Fixtures.tcc_movement "o1" TccInventory.completed])
    (Fixtures.tcc_stock_req "o1")
  = (Fixtures.tcc_stock 4 4 [Fixtures.tcc_movement "o1" TccInventory.completed], ErrNil).
Proof.
  apply (proj1 tcc_confirm_idempotent_after_try
           (Fixtures.tcc_stock 5 4 [Fixtures.tcc_movement "o1" TccInventory.pending])).
  - reflexivity.
  - vm_compute. reflexivity.
Defined.

(** ** Failed calls leave no trace *)

Lemma run_tx_error {S : Type} (d : S) (body : S -> txresult S) :
  snd (run_tx d body) <> ErrNil -> fst (run_tx d body) = d.
Proof. unfold run_tx. destruct (body d); simpl; congruence. Qed.

Lemma tcc_stock_handle_unchanged useCase success d bound :
  (forall req, snd (useCase d req) <> ErrNil -> fst (useCase d req) = d) ->
  code (snd (TccInventory.handle useCase success d bound)) <> StatusOK ->
  fst (TccInventory.handle useCase success d bound) = d.
Proof.
  intros Huc. unfold TccInventory.handle. destruct bound as [req|]; [|reflexivity].
  specialize (Huc req). destruct (useCase d req) as [d' [|e]]; simpl in *.
  - intros Hc. exfalso. apply Hc. reflexivity.
  - intros _. apply Huc. discriminate.
Qed.

Lemma tcc_balance_handle_unchanged useCase success d bound :
  (forall req, snd (useCase d req) <> ErrNil -> fst (useCase d req) = d) ->
  code (snd (TccPayment.handle useCase success d bound)) <> StatusOK ->
  fst (TccPayment.handle useCase success d bound) = d.
Proof.
  intros Huc. unfold TccPayment.handle. destruct bound as [req|]; [|reflexivity].
  specialize (Huc req). destruct (useCase d req) as [d' [|e]]; simpl in *.
  - intros Hc. exfalso. apply Hc. reflexivity.
  - intros _. apply Huc. discriminate.
Qed.

Lemma tcc_try_debit_error d req :
  snd (TccPayment.TryDebitWallet d req) <> ErrNil -> fst (TccPayment.TryDebitWallet d req) = d.
Proof.
  unfold TccPayment.TryDebitWallet. destruct (_ <=? 0); [reflexivity|]. apply run_tx_error.
Qed.

(** X7.  A TCC participant endpoint that answers anything but 200 leaves
    its store exactly as it found it: every failing path of Try, Confirm
    and Cancel ends in the rollback. *)
Theorem tcc_failed_call_changes_nothing :
  (forall ph d bound,
     code (snd (inventory_endpoint ph d bound)) <> StatusOK ->
     fst (inventory_endpoint ph d bound) = d) /\
  (forall ph d bound,
     code (snd (payment_endpoint ph d bound)) <> StatusOK ->
     fst (payment_endpoint ph d bound) = d).
Proof.
  split; intros ph d bound; destruct ph; simpl.
  - apply tcc_stock_handle_unchanged. intros req. apply run_tx_error.
  - apply tcc_stock_handle_unchanged. intros req. apply run_tx_error.
  - apply tcc_stock_handle_unchanged. intros req. apply run_tx_error.
  - apply tcc_balance_handle_unchanged. intros req. apply tcc_try_debit_error.
  - apply tcc_balance_handle_unchanged. intros req. apply run_tx_error.
  - apply tcc_balance_handle_unchanged. intros req. apply run_tx_error.
Qed.

Lemma tcc_failed_call_changes_nothing_witness :
  fst (inventory_endpoint Confirm (Fixtures.tcc_stock 5 5 [])
         (Some (Fixtures.tcc_stock_req "o1")))
  = Fixtures.tcc_stock 5 5 [].
Proof.
  apply (proj1 tcc_failed_call_changes_nothing Confirm). vm_compute. discriminate.
Defined.

(** X8.  A Saga participant endpoint (decrease, debit and the two
    compensations) that answers anything but 200 leaves its store exactly
    as it found it. *)
Theorem saga_failed_call_changes_nothing :
  (forall d bound,
     code (snd (SagaInventory.InventoryHandler.DecreaseStock d bound)) <> StatusOK ->
     fst (SagaInventory.InventoryHandler.DecreaseStock d bound) = d) /\
  (forall d bound,
     code (snd (SagaInventory.InventoryHandler.CompensateStock d bound)) <> StatusOK ->
     fst (SagaInventory.InventoryHandler.CompensateStock d bound) = d) /\
  (forall d bound,
     code (snd (SagaPayments.PaymentHandler.DebitPayment d bound)) <> StatusOK ->
     fst (SagaPayments.PaymentHandler.DebitPayment d bound) = d) /\
  (forall d bound,
     code (snd (SagaPayments.PaymentHandler.CompensatePayment d bound)) <> StatusOK ->
     fst (SagaPayments.PaymentHandler.CompensatePayment d bound) = d).
Proof.
  repeat split; intros d bound.
  - unfold SagaInventory.InventoryHandler.DecreaseStock.
    destruct bound as [req|e]; [|reflexivity].
    pose proof (run_tx_error d) as Hrb.
    unfold SagaInventory.InventoryUseCase.DecreaseStock.
    destruct (run_tx d _) as [d' [|e]] eqn:Hrun.
    + intros Hc. exfalso. apply Hc. reflexivity.
    + intros _. specialize (Hrb _ ltac:(rewrite Hrun; simpl; discriminate)).
      rewrite Hrun in Hrb. simpl in Hrb. subst d'. destruct (containsAny _ _); reflexivity.
  - unfold SagaInventory.InventoryHandler.CompensateStock.
    destruct bound as [req|e]; [|reflexivity].
    pose proof (run_tx_error d) as Hrb.
    unfold SagaInventory.InventoryUseCase.CompensateStock.
    destruct (run_tx d _) as [d' [|e]] eqn:Hrun.
    + intros Hc. exfalso. apply Hc. reflexivity.
    + intros _. specialize (Hrb _ ltac:(rewrite Hrun; simpl; discriminate)).
      rewrite Hrun in Hrb. simpl in Hrb. subst d'. destruct (containsAny _ _); reflexivity.
  - unfold SagaPayments.PaymentHandler.DebitPayment.
    destruct bound as [req|e]; [|reflexivity].
    pose proof (run_tx_error d) as Hrb.
    unfold SagaPayments.PaymentUseCase.DebitPayment.
    destruct (run_tx d _) as [d' [|e]] eqn:Hrun.
    + intros Hc. exfalso. apply Hc. reflexivity.
    + intros _. specialize (Hrb _ ltac:(rewrite Hrun; simpl; discriminate)).
      rewrite Hrun in Hrb. simpl in Hrb. subst d'. destruct (containsAny _ _); reflexivity.
  - unfold SagaPayments.PaymentHandler.CompensatePayment.
    destruct bound as [req|e]; [|reflexivity].
    pose proof (run_tx_error d) as Hrb.
    unfold SagaPayments.PaymentUseCase.CompensatePayment.
    destruct (run_tx d _) as [d' [|e]] eqn:Hrun.
    + intros Hc. exfalso. apply Hc. reflexivity.
    + intros _. specialize (Hrb _ ltac:(rewrite Hrun; simpl; discriminate)).
      rewrite Hrun in Hrb. simpl in Hrb. subst d'. destruct (containsAny _ _); reflexivity.
Qed.

Lemma saga_failed_call_changes_nothing_witness :
  fst (SagaInventory.InventoryHandler.DecreaseStock (Fixtures.saga_stock 0 [])
         (Ok (Fixtures.saga_stock_req "o1" "P")))
  = Fixtures.saga_stock 0 [].
Proof.
  apply (proj1 saga_failed_call_changes_nothing). vm_compute. discriminate.
Defined.

(** ** A reservation and what ends it *)

Lemma no_row_existsb {A : Type} (key : A -> string) (extra : A -> bool) orderID (l : list A) :
  (forall x, In x l -> key x <> orderID) ->
  existsb (fun x => String.eqb (key x) orderID) l = false /\
  existsb (fun x => String.eqb (key x) orderID && extra x) l = false /\
  find (fun x => String.eqb (key x) orderID) (rev l) = None.
Proof.
  intros Hno. repeat split.
  - apply not_true_iff_false. intros He. apply existsb_exists in He as (x & Hin & Hx).
    apply String.eqb_eq in Hx. exact (Hno x Hin Hx).
  - apply not_true_iff_false. intros He. apply existsb_exists in He as (x & Hin & Hx).
    apply andb_true_iff in Hx as [Hx _]. apply String.eqb_eq in Hx. exact (Hno x Hin Hx).
  - destruct (find _ (rev l)) as [x|] eqn:Hf; [|reflexivity].
    apply find_some in Hf as [Hin Hx]. apply in_rev in Hin.
    apply String.eqb_eq in Hx. destruct (Hno x Hin Hx).
Qed.

Lemma map_no_row {A : Type} (key : A -> string) (extra : A -> bool) (f : A -> A)
    orderID (l : list A) :
  (forall x, In x l -> key x <> orderID) ->
  map (fun x => if String.eqb (key x) orderID && extra x then f x else x) l = l.
Proof.
  intros Hno. induction l as [|x l IH]; simpl; [reflexivity|].
  rewrite IH by (intros y Hy; apply Hno; right; exact Hy).
  destruct (String.eqb_spec (key x) orderID) as [He|_]; simpl; [|reflexivity].
  destruct (Hno x (or_introl eq_refl) He).
Qed.

Section TccInventoryReservation.
Import TccInventory.

Variables (d : DB) (req : TCCActionRequest) (r : ProductInventory).
Hypothesis Hrow : products_inventory d !! ProductID req = Some r.
Hypothesis Hfresh : no_movement_for d (OrderID req).

Lemma try_stock_runs :
  1 <= StockAvailable r <= CurrentStock r -> CurrentStock r <= int4_max ->
  TryDecreaseStock d req
  = (stock_store d (ProductID req) (CurrentStock r) (StockAvailable r - 1)
       (stock_row_of (ProductID req) (OrderID req) pending), ErrNil).
Proof using Hrow Hfresh.
  intros Hav Hmax.
  destruct (no_row_existsb mv_order_id
              (fun m => movement_status_eqb (mv_status m) pending)
              (OrderID req) (inventory_movements d) Hfresh) as (Hu & Hp & _).
  unfold TryDecreaseStock, run_tx, GetProductForUpdate. rewrite Hrow.
  destruct (Z.ltb_spec (StockAvailable r) 1); [lia|].
  unfold GetInventoryMovementByOrderIDAndStatus. rewrite Hp.
  unfold TryReserveStock, update_product. rewrite Hrow. simpl.
  rewrite !in_int4_intro by (unfold int4_min, int4_max in *; lia).
  unfold row_checks. simpl.
  destruct (Z.leb_spec 0 (CurrentStock r)); [|lia].
  destruct (Z.leb_spec 0 (StockAvailable r - 1)); [|lia].
  destruct (Z.leb_spec (StockAvailable r - 1) (CurrentStock r)); [|lia].
  simpl. unfold insert_movement. simpl. rewrite Hu, lookup_insert_eq. reflexivity.
Qed.

Lemma try_then_cancel_stock :
  1 <= StockAvailable r <= CurrentStock r -> CurrentStock r <= int4_max ->
  let d1 := fst (TryDecreaseStock d req) in
  CancelDecreaseStock d1 req
  = ({| products_inventory := products_inventory d;
        inventory_movements :=
          (inventory_movements d ++ [stock_row_of (ProductID req) (OrderID req) rejected])%list |},
     ErrNil).
Proof using Hrow Hfresh.
  intros Hav Hmax. cbv zeta. rewrite (try_stock_runs Hav Hmax). simpl.
  destruct (no_row_existsb mv_order_id (fun _ => true)
              (OrderID req) (inventory_movements d) Hfresh) as (_ & _ & Hf).
  rewrite (cancel_stock_pending
             (stock_store d (ProductID req) (CurrentStock r) (StockAvailable r - 1)
                (stock_row_of (ProductID req) (OrderID req) pending))
             req
             {| CurrentStock := CurrentStock r; StockAvailable := StockAvailable r - 1 |}
             ltac:(simpl; apply lookup_insert_eq)
             (stock_row_of (ProductID req) (OrderID req) pending)).
  - unfold stock_released, stock_store. simpl. f_equal. f_equal.
    + rewrite insert_insert_eq.
      replace (StockAvailable r - 1 + 1) with (StockAvailable r) by lia.
      destruct r. apply insert_id. exact Hrow.
    + rewrite map_app. simpl. rewrite String.eqb_refl. simpl. f_equal.
      apply (map_no_row mv_order_id
               (fun m => movement_status_eqb (mv_status m) pending)). exact Hfresh.
  - unfold movement_for, stock_store. simpl. rewrite rev_app_distr. simpl.
    rewrite String.eqb_refl. reflexivity.
  - reflexivity.
  - simpl. lia.
  - simpl. lia.
  - simpl. lia.
Qed.

Lemma try_then_confirm_stock :
  1 <= StockAvailable r <= CurrentStock r -> CurrentStock r <= int4_max ->
  let d1 := fst (TryDecreaseStock d req) in
  ConfirmDecreaseStock d1 req
  = ({| products_inventory :=
          <[ProductID req := {| CurrentStock := CurrentStock r - 1;
                                StockAvailable := StockAvailable r - 1 |}]>
            (products_inventory d);
        inventory_movements :=
          (inventory_movements d ++ [stock_row_of (ProductID req) (OrderID req) completed])%list |},
     ErrNil).
Proof using Hrow Hfresh.
  intros Hav Hmax. cbv zeta. rewrite (try_stock_runs Hav Hmax). simpl.
  destruct (no_row_existsb mv_order_id
              (fun m => movement_status_eqb (mv_status m) completed)
              (OrderID req) (inventory_movements d) Hfresh) as (_ & Hc & _).
  unfold ConfirmDecreaseStock, run_tx, GetProductForUpdate, stock_store. simpl.
  rewrite lookup_insert_eq.
  unfold GetInventoryMovementByOrderIDAndStatus. simpl. rewrite existsb_app, Hc. simpl.
  rewrite andb_false_r. simpl.
  unfold ConfirmReserveStock, update_product. simpl. rewrite lookup_insert_eq. simpl.
  rewrite !in_int4_intro by (unfold int4_min, int4_max in *; lia).
  unfold row_checks. simpl.
  destruct (Z.leb_spec 0 (CurrentStock r - 1)); [|lia].
  destruct (Z.leb_spec 0 (StockAvailable r - 1)); [|lia].
  destruct (Z.leb_spec (StockAvailable r - 1) (CurrentStock r - 1)); [|lia].
  simpl. unfold update_pending_status. simpl. f_equal. f_equal.
  - apply insert_insert_eq.
  - rewrite map_app. simpl. rewrite String.eqb_refl. simpl. f_equal.
    apply (map_no_row mv_order_id
             (fun m => movement_status_eqb (mv_status m) pending)). exact Hfresh.
Qed.

End TccInventoryReservation.

Lemma find_after_none {A : Type} (f : A -> bool) (l more : list A) :
  (forall x, In x l -> f x = false) -> find f (l ++ more) = find f more.
Proof.
  intros Hno. induction l as [|x l IH]; simpl; [reflexivity|].
  rewrite (Hno x (or_introl eq_refl)). apply IH. intros y Hy. apply Hno. right. exact Hy.
Qed.

Section TccPaymentReservation.
Import TccPayment.

Variables (d : DB) (req : TCCActionRequest) (w : Wallet).
Hypothesis Hrow : wallets d !! UserID req = Some w.
Hypothesis Hfresh : no_transaction_for d (OrderID req).

Lemma try_balance_runs :
  0 < TotalPrice req <= AvailableAmount w -> AvailableAmount w <= CurrentAmount w ->
  CurrentAmount w <= int4_max ->
  TryDebitWallet d req
  = (balance_store d (UserID req) (CurrentAmount w) (AvailableAmount w - TotalPrice req)
       (balance_row_of (UserID req) (OrderID req) (TotalPrice req) pending), ErrNil).
Proof using Hrow Hfresh.
  intros Hav Hle Hmax.
  destruct (no_row_existsb pt_order_id
              (fun t => transaction_status_eqb (pt_status t) pending)
              (OrderID req) (payment_transactions d) Hfresh) as (Hu & Hp & _).
  unfold TryDebitWallet. destruct (Z.leb_spec (TotalPrice req) 0); [lia|].
  unfold run_tx, GetWalletForUpdate. rewrite Hrow.
  unfold GetPaymentTransactionByOrderIDAndStatus. rewrite Hp.
  destruct (Z.ltb_spec (AvailableAmount w) (TotalPrice req)); [lia|].
  unfold TryReserveBalance, update_wallet, int4_arg.
  rewrite in_int4_intro by (unfold int4_min, int4_max in *; lia).
  rewrite Hrow. simpl.
  rewrite !in_int4_intro by (unfold int4_min, int4_max in *; lia).
  unfold row_checks. simpl.
  destruct (Z.leb_spec 0 (CurrentAmount w)); [|lia].
  destruct (Z.leb_spec 0 (AvailableAmount w - TotalPrice req)); [|lia].
  destruct (Z.leb_spec (AvailableAmount w - TotalPrice req) (CurrentAmount w)); [|lia].
  simpl. unfold insert_transaction, int4_arg. simpl.
  rewrite in_int4_intro by (unfold int4_min, int4_max in *; lia).
  rewrite Hu, lookup_insert_eq. reflexivity.
Qed.

Lemma try_then_cancel_balance :
  0 < TotalPrice req <= AvailableAmount w -> AvailableAmount w <= CurrentAmount w ->
  CurrentAmount w <= int4_max ->
  let d1 := fst (TryDebitWallet d req) in
  CancelDebitWallet d1 req
  = ({| wallets := wallets d;
        payment_transactions :=
          (payment_transactions d ++
           [balance_row_of (UserID req) (OrderID req) (TotalPrice req) rejected])%list |},
     ErrNil).
Proof using Hrow Hfresh.
  intros Hav Hle Hmax. cbv zeta. rewrite (try_balance_runs Hav Hle Hmax). simpl.
  destruct (no_row_existsb pt_order_id (fun _ => true)
              (OrderID req) (payment_transactions d) Hfresh) as (Hu & _ & _).
  rewrite (cancel_balance_pending
             (balance_store d (UserID req) (CurrentAmount w)
                (AvailableAmount w - TotalPrice req)
                (balance_row_of (UserID req) (OrderID req) (TotalPrice req) pending))
             req
             {| CurrentAmount := CurrentAmount w;
                AvailableAmount := AvailableAmount w - TotalPrice req |}
             ltac:(simpl; apply lookup_insert_eq)
             (balance_row_of (UserID req) (OrderID req) (TotalPrice req) pending)).
  - unfold balance_released, balance_store. simpl. f_equal. f_equal.
    + rewrite insert_insert_eq.
      replace (AvailableAmount w - TotalPrice req + TotalPrice req)
        with (AvailableAmount w) by lia.
      destruct w. apply insert_id. exact Hrow.
    + rewrite map_app. simpl. rewrite String.eqb_refl. simpl. f_equal.
      apply (map_no_row pt_order_id
               (fun t => transaction_status_eqb (pt_status t) pending)). exact Hfresh.
  - unfold transaction_for, balance_store. simpl.
    rewrite find_after_none.
    + simpl. rewrite String.eqb_refl. reflexivity.
    + intros x Hin. apply String.eqb_neq. exact (Hfresh x Hin).
  - reflexivity.
  - reflexivity.
  - simpl. lia.
  - simpl. lia.
  - simpl. lia.
  - simpl. lia.
Qed.

Lemma try_then_confirm_balance :
  0 < TotalPrice req <= AvailableAmount w -> AvailableAmount w <= CurrentAmount w ->
  CurrentAmount w <= int4_max ->
  let d1 := fst (TryDebitWallet d req) in
  ConfirmDebitWallet d1 req
  = ({| wallets :=
          <[UserID req := {| CurrentAmount := CurrentAmount w - TotalPrice req;
                             AvailableAmount := AvailableAmount w - TotalPrice req |}]>
            (wallets d);
        payment_transactions :=
          (payment_transactions d ++
           [balance_row_of (UserID req) (OrderID req) (TotalPrice req) completed])%list |},
     ErrNil).
Proof using Hrow Hfresh.
  intros Hav Hle Hmax. cbv zeta. rewrite (try_balance_runs Hav Hle Hmax). simpl.
  destruct (no_row_existsb pt_order_id
              (fun t => transaction_status_eqb (pt_status t) completed)
              (OrderID req) (payment_transactions d) Hfresh) as (_ & Hc & _).
  unfold ConfirmDebitWallet, run_tx, GetWalletForUpdate, balance_store. simpl.
  rewrite lookup_insert_eq.
  unfold GetPaymentTransactionByOrderIDAndStatus. simpl. rewrite existsb_app, Hc. simpl.
  rewrite andb_false_r. simpl.
  unfold ConfirmDebit, update_wallet, int4_arg.
  rewrite in_int4_intro by (unfold int4_min, int4_max in *; lia).
  simpl. rewrite lookup_insert_eq. simpl.
  rewrite !in_int4_intro by (unfold int4_min, int4_max in *; lia).
  unfold row_checks. simpl.
  destruct (Z.leb_spec 0 (CurrentAmount w - TotalPrice req)); [|lia].
  destruct (Z.leb_spec 0 (AvailableAmount w - TotalPrice req)); [|lia].
  destruct (Z.leb_spec (AvailableAmount w - TotalPrice req)
              (CurrentAmount w - TotalPrice req)); [|lia].
  simpl. unfold update_pending_status. simpl. f_equal. f_equal.
  - apply insert_insert_eq.
  - rewrite map_app. simpl. rewrite String.eqb_refl. simpl. f_equal.
    apply (map_no_row pt_order_id
             (fun t => transaction_status_eqb (pt_status t) pending)). exact Hfresh.
Qed.

End TccPaymentReservation.

(** X9.  A Try followed by a Cancel of the same request restores the
    resource row: for an order with no ledger row, on a product with a unit
    available (resp. a wallet whose available balance covers the positive
    price), the Cancel succeeds, the resource table is the one before the
    Try and the ledger has gained exactly one row, which reads rejected. *)
Theorem tcc_try_then_cancel_restores
    (di : TccInventory.DB) (ri : TccInventory.TCCActionRequest) (r : TccInventory.ProductInventory)
    (dp : TccPayment.DB) (rp : TccPayment.TCCActionRequest) (w : TccPayment.Wallet) :
  TccInventory.products_inventory di !! TccInventory.ProductID ri = Some r ->
  no_movement_for di (TccInventory.OrderID ri) ->
  1 <= TccInventory.StockAvailable r <= TccInventory.CurrentStock r ->
  TccInventory.CurrentStock r <= int4_max ->
  TccPayment.wallets dp !! TccPayment.UserID rp = Some w ->
  no_transaction_for dp (TccPayment.OrderID rp) ->
  0 < TccPayment.TotalPrice rp <= TccPayment.AvailableAmount w ->
  TccPayment.AvailableAmount w <= TccPayment.CurrentAmount w ->
  TccPayment.CurrentAmount w <= int4_max ->
  TccInventory.CancelDecreaseStock (fst (TccInventory.TryDecreaseStock di ri)) ri
  = ({| TccInventory.products_inventory := TccInventory.products_inventory di;
        TccInventory.inventory_movements :=
          (TccInventory.inventory_movements di ++
           [stock_row_of (TccInventory.ProductID ri) (TccInventory.OrderID ri)
              TccInventory.rejected])%list |}, ErrNil) /\
  TccPayment.CancelDebitWallet (fst (TccPayment.TryDebitWallet dp rp)) rp
  = ({| TccPayment.wallets := TccPayment.wallets dp;
        TccPayment.payment_transactions :=
          (TccPayment.payment_transactions dp ++
           [balance_row_of (TccPayment.UserID rp) (TccPayment.OrderID rp)
              (TccPayment.TotalPrice rp) TccPayment.rejected])%list |}, ErrNil).
Proof.
  intros Hr Hfi Hav Hmax Hw Hfp Hpav Hple Hpmax. split.
  - apply (try_then_cancel_stock di ri r Hr Hfi Hav Hmax).
  - apply (try_then_cancel_balance dp rp w Hw Hfp Hpav Hple Hpmax).
Qed.

Lemma tcc_try_then_cancel_restores_witness :
  TccInventory.CancelDecreaseStock
    (fst (TccInventory.TryDecreaseStock (Fixtures.tcc_stock 5 5 []) (Fixtures.tcc_stock_req "o1")))
    (Fixtures.tcc_stock_req "o1")
  = (Fixtures.tcc_stock 5 5 [Fixtures.tcc_movement "o1" TccInventory.rejected], ErrNil).
Proof.
  destruct (tcc_try_then_cancel_restores
              (Fixtures.tcc_stock 5 5 []) (Fixtures.tcc_stock_req "o1")
              {| TccInventory.CurrentStock := 5; TccInventory.StockAvailable := 5 |}
              (Fixtures.tcc_wallet 1000 1000 []) (Fixtures.tcc_wallet_req "o1" 100)
              {| TccPayment.CurrentAmount := 1000; TccPayment.AvailableAmount := 1000 |})
    as [-> _].
  - reflexivity.
  - intros m [].
  - simpl. lia.
  - simpl. unfold int4_max. lia.
  - reflexivity.
  - intros t [].
  - simpl. lia.
  - simpl. lia.
  - simpl. unfold int4_max. lia.
  - reflexivity.
Defined.

(** X10.  A Try followed by a Confirm of the same request takes the
    quantity once from both columns: under the hypotheses of X9 the
    Confirm succeeds, current and available are each lower by one unit
    (resp. by the price) than before the Try, and the ledger has gained
    exactly one row, which reads completed. *)
Theorem tcc_try_then_confirm_takes_once
    (di : TccInventory.DB) (ri : TccInventory.TCCActionRequest) (r : TccInventory.ProductInventory)
    (dp : TccPayment.DB) (rp : TccPayment.TCCActionRequest) (w : TccPayment.Wallet) :
  TccInventory.products_inventory di !! TccInventory.ProductID ri = Some r ->
  no_movement_for di (TccInventory.OrderID ri) ->
  1 <= TccInventory.StockAvailable r <= TccInventory.CurrentStock r ->
  TccInventory.CurrentStock r <= int4_max ->
  TccPayment.wallets dp !! TccPayment.UserID rp = Some w ->
  no_transaction_for dp (TccPayment.OrderID rp) ->
  0 < TccPayment.TotalPrice rp <= TccPayment.AvailableAmount w ->
  TccPayment.AvailableAmount w <= TccPayment.CurrentAmount w ->
  TccPayment.CurrentAmount w <= int4_max ->
  TccInventory.ConfirmDecreaseStock (fst (TccInventory.TryDecreaseStock di ri)) ri
  = (stock_store di (TccInventory.ProductID ri)
       (TccInventory.CurrentStock r - 1) (TccInventory.StockAvailable r - 1)
       (stock_row_of (TccInventory.ProductID ri) (TccInventory.OrderID ri)
          TccInventory.completed), ErrNil) /\
  TccPayment.ConfirmDebitWallet (fst (TccPayment.TryDebitWallet dp rp)) rp
  = (balance_store dp (TccPayment.UserID rp)
       (TccPayment.CurrentAmount w - TccPayment.TotalPrice rp)
       (TccPayment.AvailableAmount w - TccPayment.TotalPrice rp)
       (balance_row_of (TccPayment.UserID rp) (TccPayment.OrderID rp)
          (TccPayment.TotalPrice rp) TccPayment.completed), ErrNil).
Proof.
  intros Hr Hfi Hav Hmax Hw Hfp Hpav Hple Hpmax. split.
  - apply (try_then_confirm_stock di ri r Hr Hfi Hav Hmax).
  - apply (try_then_confirm_balance dp rp w Hw Hfp Hpav Hple Hpmax).
Qed.

Lemma tcc_try_then_confirm_takes_once_witness :
  TccPayment.ConfirmDebitWallet
    (fst (TccPayment.TryDebitWallet (Fixtures.tcc_wallet 1000 1000 [])
            (Fixtures.tcc_wallet_req "o1" 100)))
    (Fixtures.tcc_wallet_req "o1" 100)
  = (Fixtures.tcc_wallet 900 900 [Fixtures.tcc_transaction "o1" 100 TccPayment.completed],
     ErrNil).
Proof.
  destruct (tcc_try_then_confirm_takes_once
              (Fixtures.tcc_stock 5 5 []) (Fixtures.tcc_stock_req "o1")
              {| TccInventory.CurrentStock := 5; TccInventory.StockAvailable := 5 |}
              (Fixtures.tcc_wallet 1000 1000 []) (Fixtures.tcc_wallet_req "o1" 100)
              {| TccPayment.CurrentAmount := 1000; TccPayment.AvailableAmount := 1000 |})
    as [_ ->].
  - reflexivity.
  - intros m [].
  - simpl. lia.
  - simpl. unfold int4_max. lia.
  - reflexivity.
  - intros t [].
  - simpl. lia.
  - simpl. lia.
  - simpl. unfold int4_max. lia.
  - vm_compute. reflexivity.
Defined.

(** ** The orders services *)

Section XaOrdersBranch.
Import XaOrders.

(** X11.  The XA branch of the orders service.  For an order id not yet
    in the table and a positive price within the column range, the
    prepare call inserts the order as completed and answers 200; for a
    price that is not positive, or an order id already in the table, it
    answers 500 and leaves the table as it was. *)
Theorem xa_create_order_branch (d : gmap string Order) (req : XAActionRequest) :
  (d !! req_OrderID req = None -> 0 < req_TotalPrice req <= int4_max ->
   HandleXACreateOrder d (Ok req)
   = (<[req_OrderID req := {| ord_UserID := req_UserID req;
                              ord_ProductID := req_ProductID req;
                              ord_TotalPrice := req_TotalPrice req;
                              ord_Status := "completed" |}]> d,
      JSON StatusOK (H [("status", "xa_success")]))) /\
  (req_TotalPrice req <= 0 \/ is_Some (d !! req_OrderID req) ->
   fst (HandleXACreateOrder d (Ok req)) = d /\
   code (snd (HandleXACreateOrder d (Ok req))) = StatusInternalServerError).
Proof.
  unfold HandleXACreateOrder, XaLocalTransaction, OrderUseCase.CreateOrderXA,
    PostgresOrderRepository.CreateOrderXA, int4_arg, wrap. simpl. split.
  - intros Hnone [Hpos Hmax].
    rewrite in_int4_intro by (unfold int4_min, int4_max in *; lia).
    destruct (Z.ltb_spec 0 (req_TotalPrice req)); [|lia]. simpl.
    rewrite Hnone. reflexivity.
  - intros Hbad.
    destruct (in_int4 (req_TotalPrice req)); [|split; reflexivity].
    destruct (Z.ltb_spec 0 (req_TotalPrice req)) as [Hpos|Hle]; simpl;
      [|split; reflexivity].
    destruct Hbad as [Hle|[o Ho]]; [lia|]. rewrite Ho. split; reflexivity.
Qed.

End XaOrdersBranch.

Lemma xa_create_order_branch_witness :
  XaOrders.HandleXACreateOrder Fixtures.xa_orders (Ok (Fixtures.xa_order_req "o2" 100))
  = (<["o2" := {| XaOrders.ord_UserID := "U"; XaOrders.ord_ProductID := "P";
                  XaOrders.ord_TotalPrice := 100; XaOrders.ord_Status := "completed" |}]>
       Fixtures.xa_orders,
     JSON StatusOK (H [("status", "xa_success")])) /\
  code (snd (XaOrders.HandleXACreateOrder Fixtures.xa_orders
               (Ok (Fixtures.xa_order_req "o1" 100)))) = StatusInternalServerError.
Proof.
  split.
  - apply (proj1 (xa_create_order_branch Fixtures.xa_orders (Fixtures.xa_order_req "o2" 100))).
    + reflexivity.
    + simpl. unfold int4_max. lia.
  - apply (proj2 (xa_create_order_branch Fixtures.xa_orders (Fixtures.xa_order_req "o1" 100))).
    right. eexists. reflexivity.
Defined.

(** X12.  The XA orchestrator returns a [nil] error together with an
    empty order id exactly when a call into the DTM client panicked: the
    deferred [recover] turns the panic into the zero results.  (The fresh
    order id is a UUID text, so it is not empty.) *)
Theorem xa_orchestrator_recovered_panic
    newUUID MustGenGid traceID XaGlobalTransaction2 ou iu pu req :
  newUUID <> "" ->
  XaOrders.DTMXAOrchestrator.CreateOrderXA newUUID MustGenGid traceID
    XaGlobalTransaction2 ou iu pu req = ("", "", ErrNil)
  <-> MustGenGid = XaOrders.Panicked \/
      exists gid, MustGenGid = XaOrders.Returned gid /\ gid <> "" /\
        XaGlobalTransaction2 gid
          (XaOrders.DTMXAOrchestrator.branches ou iu pu
             {| XaOrders.req_OrderID := newUUID; XaOrders.req_UserID := XaOrders.UserID req;
                XaOrders.req_ProductID := XaOrders.ProductID req;
                XaOrders.req_TotalPrice := XaOrders.Amount req |})
        = XaOrders.Panicked.
Proof.
  intros Hid. unfold XaOrders.DTMXAOrchestrator.CreateOrderXA. split.
  - destruct MustGenGid as [gid|]; [|auto].
    destruct (String.eqb_spec gid "") as [->|Hgid]; [discriminate|].
    destruct (XaGlobalTransaction2 gid _) as [[|e]|] eqn:Hcall.
    + intros Heq. injection Heq as Heq _. congruence.
    + discriminate.
    + intros _. right. exists gid. auto.
  - intros [->|(gid & -> & Hgid & Hcall)]; [reflexivity|].
    destruct (String.eqb_spec gid "") as [->|_]; [congruence|].
    rewrite Hcall. reflexivity.
Qed.

Lemma xa_orchestrator_recovered_panic_witness :
  XaOrders.DTMXAOrchestrator.CreateOrderXA "order-1" XaOrders.Panicked "trace-1"
    (fun _ _ => XaOrders.Returned ErrNil) "o" "i" "p" (Fixtures.xa_create_req 100)
  = ("", "", ErrNil).
Proof.
  apply (xa_orchestrator_recovered_panic "order-1" XaOrders.Panicked "trace-1"
           (fun _ _ => XaOrders.Returned ErrNil) "o" "i" "p" (Fixtures.xa_create_req 100)).
  - discriminate.
  - left. reflexivity.
Defined.

(** X13.  The function the XA orchestrator hands to the coordinator
    succeeds exactly when the orders, the inventory and the payment branch
    all succeed; when the orders branch fails the result is its error under
    the prefix of that branch, whatever the other two would answer. *)
Theorem xa_branches_all_or_first_failure ou iu pu payload
    (CallBranch : XaOrders.XAActionRequest -> string -> result unit) :
  (XaOrders.DTMXAOrchestrator.branches ou iu pu payload CallBranch = Ok tt
   <-> CallBranch payload (ou ++ "/api/orders/xa") = Ok tt /\
       CallBranch payload (iu ++ "/api/inventory/xa") = Ok tt /\
       CallBranch payload (pu ++ "/api/payment/xa") = Ok tt) /\
  (forall e, CallBranch payload (ou ++ "/api/orders/xa") = Fail e ->
     XaOrders.DTMXAOrchestrator.branches ou iu pu payload CallBranch
     = Fail ("orders XA branch failed: " ++ e)).
Proof.
  unfold XaOrders.DTMXAOrchestrator.branches. split.
  - destruct (CallBranch payload (ou ++ _)) as [[]|e1].
    + destruct (CallBranch payload (iu ++ _)) as [[]|e2].
      * destruct (CallBranch payload (pu ++ _)) as [[]|e3].
        -- split; auto.
        -- split; [discriminate|]. intros (_ & _ & Hc). discriminate.
      * split; [discriminate|]. intros (_ & Hc & _). discriminate.
    + split; [discriminate|]. intros (Hc & _). discriminate.
  - intros e ->. reflexivity.
Qed.

Lemma xa_branches_all_or_first_failure_witness :
  XaOrders.DTMXAOrchestrator.branches "o" "i" "p" (Fixtures.xa_order_req "o1" 100)
    (fun _ url => if String.eqb url "o/api/orders/xa" then Fail "503" else Ok tt)
  = Fail "orders XA branch failed: 503".
Proof.
  apply (proj2 (xa_branches_all_or_first_failure "o" "i" "p" (Fixtures.xa_order_req "o1" 100)
                  (fun _ url => if String.eqb url "o/api/orders/xa" then Fail "503" else Ok tt))).
  reflexivity.
Defined.

Section TccOrdersLifecycle.
Import TccOrders.

Variables (d : gmap string Order) (req : TCCActionRequest).

(** X14.  The TCC order row through its phases.  For an order id not yet
    in the table and a positive price within the column range, Try inserts
    the order as pending; on the table Try leaves, Confirm sets it to
    completed and Cancel to cancelled, and a second Try is refused by the
    primary key and answered 500 with the table unchanged.  A Confirm or a
    Cancel for an order id that is not in the table succeeds and changes
    nothing. *)
Theorem tcc_order_row_lifecycle :
  d !! req_OrderID req = None ->
  0 < req_TotalPrice req <= int4_max ->
  TryCreateOrder d req = (tcc_order_placed d req "pending", ErrNil) /\
  ConfirmCreateOrder (tcc_order_placed d req "pending") req
  = (tcc_order_placed d req "completed", ErrNil) /\
  CancelCreateOrder (tcc_order_placed d req "pending") req
  = (tcc_order_placed d req "cancelled", ErrNil) /\
  (exists e, TryCreateOrder (tcc_order_placed d req "pending") req
             = (tcc_order_placed d req "pending", ErrMsg e)) /\
  HandleTryCreateOrder (tcc_order_placed d req "pending") (Some req)
  = (tcc_order_placed d req "pending",
     JSON StatusInternalServerError (H [("error", "TRY phase failed")])) /\
  ConfirmCreateOrder d req = (d, ErrNil) /\
  CancelCreateOrder d req = (d, ErrNil).
Proof using Type.
  intros Hnone [Hpos Hmax].
  assert (Htry2 : TryCreateOrder (tcc_order_placed d req "pending") req
                  = (tcc_order_placed d req "pending", ErrMsg pg_unique_violation)).
  { unfold TryCreateOrder, CreateOrder, int4_arg. simpl.
    rewrite in_int4_intro by (unfold int4_min, int4_max in *; lia).
    destruct (Z.ltb_spec 0 (req_TotalPrice req)); [|lia]. simpl.
    unfold tcc_order_placed. rewrite lookup_insert_eq. reflexivity. }
  split; [|split; [|split; [|split; [|split; [|split]]]]].
  - unfold TryCreateOrder, CreateOrder, int4_arg. simpl.
    rewrite in_int4_intro by (unfold int4_min, int4_max in *; lia).
    destruct (Z.ltb_spec 0 (req_TotalPrice req)); [|lia]. simpl.
    rewrite Hnone. reflexivity.
  - unfold ConfirmCreateOrder, UpdateOrderStatus, tcc_order_placed.
    rewrite lookup_insert_eq. simpl. rewrite insert_insert_eq. reflexivity.
  - unfold CancelCreateOrder, UpdateOrderStatus, tcc_order_placed.
    rewrite lookup_insert_eq. simpl. rewrite insert_insert_eq. reflexivity.
  - eexists. exact Htry2.
  - unfold HandleTryCreateOrder, handle. rewrite Htry2. reflexivity.
  - unfold ConfirmCreateOrder, UpdateOrderStatus. rewrite Hnone. reflexivity.
  - unfold CancelCreateOrder, UpdateOrderStatus. rewrite Hnone. reflexivity.
Qed.

End TccOrdersLifecycle.

Lemma tcc_order_row_lifecycle_witness :
  TccOrders.TryCreateOrder ∅ Fixtures.tcc_order_req = (Fixtures.tcc_orders "pending", ErrNil).
Proof.
  destruct (tcc_order_row_lifecycle ∅ Fixtures.tcc_order_req) as [-> _].
  - reflexivity.
  - simpl. unfold int4_max. lia.
  - reflexivity.
Defined.

Section SagaOrdersCreate.
Import SagaOrders.

(** X15.  The Saga create-order action.  For an order id not yet in the
    table and a positive amount within the column range it inserts the
    order as pending and answers 200; posted again on the table it leaves,
    it is refused by the primary key and answered 500 with the table
    unchanged, and so is an amount that is not positive. *)
Theorem saga_create_order_action (d : gmap string Order) (req : SagaActionRequest) :
  let d' := <[req_OrderID req := NewOrder (req_UserID req) (req_ProductID req)
                                   (req_Amount req)]> d in
  (d !! req_OrderID req = None -> 0 < req_Amount req <= int4_max ->
   OrderHandler.CreateOrder d (Ok req) = (d', JSON StatusOK (H [("result", "success")])) /\
   fst (OrderHandler.CreateOrder d' (Ok req)) = d' /\
   code (snd (OrderHandler.CreateOrder d' (Ok req))) = StatusInternalServerError) /\
  (req_Amount req <= 0 ->
   fst (OrderHandler.CreateOrder d (Ok req)) = d /\
   code (snd (OrderHandler.CreateOrder d (Ok req))) = StatusInternalServerError).
Proof.
  unfold OrderHandler.CreateOrder, OrderHandler.action, OrderUseCase.CreateOrder,
    OrderRepository.CreateOrder, int4_arg, NewOrder. simpl. split.
  - intros Hnone [Hpos Hmax].
    rewrite in_int4_intro by (unfold int4_min, int4_max in *; lia).
    destruct (Z.ltb_spec 0 (req_Amount req)); [|lia]. simpl.
    rewrite Hnone, lookup_insert_eq. repeat split.
  - intros Hle.
    destruct (in_int4 (req_Amount req)); [|split; reflexivity].
    destruct (Z.ltb_spec 0 (req_Amount req)); [lia|]. split; reflexivity.
Qed.

End SagaOrdersCreate.

Lemma saga_create_order_action_witness :
  SagaOrders.OrderHandler.CreateOrder ∅ (Ok Fixtures.saga_order_req)
  = (Fixtures.saga_orders "pending", JSON StatusOK (H [("result", "success")])).
Proof.
  destruct (saga_create_order_action ∅ Fixtures.saga_order_req) as [Hnew _].
  destruct Hnew as [-> _].
  - reflexivity.
  - simpl. unfold int4_max. lia.
  - reflexivity.
Defined.
